(** * Graph-building arithmetic of [tensorflow/python/ops/math_ops.py]

    A shallow embedding of the part of [math_ops.py] that does more than
    forward its arguments: [cast], [saturate_cast], the true-division
    promotion table, the reduction-axis resolver [_ReductionDims], [range],
    [matmul] and [tensordot] with its two helpers.

    The Python functions build nodes of a computation graph.  Here a node is
    a term of the inductive type [Tensor]; a Python exception is the
    [Raise] case of [Result]; the kernels that later execute the graph are
    the function [eval]. *)

From Stdlib Require Import String ZArith List Bool Lia.
Import ListNotations.
Open Scope Z_scope.

(** ** Python exceptions *)

Inductive Exception : Type :=
| TypeError (msg : string)
| ValueError (msg : string)
| IndexError (msg : string)
| AssertionError.

Inductive Result (A : Type) : Type :=
| Ok (a : A)
| Raise (e : Exception).

Arguments Ok {A} a.
Arguments Raise {A} e.

Definition bind {A B : Type} (r : Result A) (k : A -> Result B) : Result B :=
  match r with
  | Ok a => k a
  | Raise e => Raise e
  end.

Notation "x <- e ;; k" := (bind e (fun x => k))
  (at level 61, e at next level, right associativity).

Notation "' pat <- e ;; k" := (bind e (fun x => match x with pat => k end))
  (at level 61, pat pattern, e at next level, right associativity).

(** The names the specification gives to the raise sites of the module. *)
Definition TypeMismatch : Exception :=
  TypeError "x and y must have the same dtype, got %r != %r".
Definition UnsupportedType : Exception :=
  TypeError "Invalid dtype %r in __truediv__".
Definition ConflictingArguments : Exception :=
  ValueError "Can't specify both axis' and 'reduction_indices'.".
Definition InvalidAxisCount : Exception :=
  ValueError "'axes' must be at least 1.".
Definition InvalidAxesPair : Exception :=
  ValueError "'axes' must be an integer or have length 2.".
Definition InvalidAxesLength : Exception :=
  ValueError "Different number of contraction axes 'a' and 'b', %s != %s.".

(** Raised by the engine for a list of values that must have one dtype. *)
Definition MixedDtypes : Exception :=
  TypeError "Tensors in list passed to 'values' of 'Concat' Op have types that don't all match.".

(** ** Element types *)

Module dtypes.

(** Modelled from the spec: the fixed enumeration of element kinds.  The
    [dtypes] module is not part of the sources; the enumeration lists the
    kinds [math_ops.py] names, and the two kinds the specification gives as
    examples of unsupported ones (boolean and string). *)
Inductive Kind : Type :=
| dt_bool | dt_string
| uint8 | int8 | uint16 | int16 | int32 | int64
| float16 | bfloat16 | float32 | float64
| complex64 | complex128.

Scheme Equality for Kind.

(** A dtype is a kind, or the reference variant of a kind (the dtype of a
    mutable variable); [base_dtype] forgets the reference. *)
Inductive DType : Type :=
| Plain (k : Kind)
| Ref (k : Kind).

Definition kind_of (d : DType) : Kind :=
  match d with Plain k | Ref k => k end.

Definition base_dtype (d : DType) : DType := Plain (kind_of d).

Definition as_dtype (d : DType) : DType := d.

Definition eqb (d1 d2 : DType) : bool :=
  match d1, d2 with
  | Plain a, Plain b => Kind_beq a b
  | Ref a, Ref b => Kind_beq a b
  | _, _ => false
  end.

(** Modelled from the spec: the classification of kinds into unsigned and
    signed integers of fixed widths, floating-point widths and complex
    widths. *)
Definition is_integer (k : Kind) : bool :=
  match k with
  | uint8 | int8 | uint16 | int16 | int32 | int64 => true
  | _ => false
  end.

Definition is_floating (k : Kind) : bool :=
  match k with
  | float16 | bfloat16 | float32 | float64 => true
  | _ => false
  end.

Definition is_complex (k : Kind) : bool :=
  match k with complex64 | complex128 => true | _ => false end.

Definition bits (k : Kind) : Z :=
  match k with
  | dt_bool => 8 | dt_string => 0
  | uint8 | int8 => 8
  | uint16 | int16 | float16 | bfloat16 => 16
  | int32 | float32 => 32
  | int64 | float64 | complex64 => 64
  | complex128 => 128
  end.

(** Modelled from the spec: the minimum and maximum representable value of
    a kind.  Integer kinds have their two's-complement range; a floating
    kind has its largest finite value, which is an integer.  Booleans,
    strings and complex numbers have no such bounds. *)
Definition limits (k : Kind) : option (Z * Z) :=
  match k with
  | uint8 => Some (0, 255)
  | int8 => Some (-128, 127)
  | uint16 => Some (0, 65535)
  | int16 => Some (-32768, 32767)
  | int32 => Some (- 2 ^ 31, 2 ^ 31 - 1)
  | int64 => Some (- 2 ^ 63, 2 ^ 63 - 1)
  | float16 => Some (- 65504, 65504)
  | bfloat16 => Some (- (255 * 2 ^ 120), 255 * 2 ^ 120)
  | float32 => Some (- ((2 ^ 24 - 1) * 2 ^ 104), (2 ^ 24 - 1) * 2 ^ 104)
  | float64 => Some (- ((2 ^ 53 - 1) * 2 ^ 971), (2 ^ 53 - 1) * 2 ^ 971)
  | dt_bool | dt_string | complex64 | complex128 => None
  end.

(** Modelled from the spec: a literal wrapped into a typed graph value is
    held in that dtype.  A floating kind keeps [significand] significant
    bits, so an integer with more of them becomes the nearest value the kind
    holds (ties to the even significand); every other kind holds the integer
    as it is. *)
Definition significand (k : Kind) : option Z :=
  match k with
  | float16 => Some 11
  | bfloat16 => Some 8
  | float32 => Some 24
  | float64 => Some 53
  | _ => None
  end.

Definition round_to (p z : Z) : Z :=
  let m := Z.abs z in
  if m <? 2 ^ p then z
  else
    let e := Z.log2 m - (p - 1) in
    let q := m / 2 ^ e in
    let r := m mod 2 ^ e in
    let half := 2 ^ (e - 1) in
    let q' := if (half <? r) || ((r =? half) && Z.odd q) then q + 1 else q in
    Z.sgn z * (q' * 2 ^ e).

Definition nearest (k : Kind) (z : Z) : Z :=
  match significand k with
  | Some p => round_to p z
  | None => z
  end.

(** [dtype.min] and [dtype.max]: a property that raises on a kind without
    bounds. *)
Definition min (d : DType) : Result Z :=
  match limits (kind_of d) with
  | Some (lo, _) => Ok lo
  | None => Raise (TypeError "Cannot find minimum value of %s.")
  end.

Definition max (d : DType) : Result Z :=
  match limits (kind_of d) with
  | Some (_, hi) => Ok hi
  | None => Raise (TypeError "Cannot find maximum value of %s.")
  end.

End dtypes.

Abbreviation DType := dtypes.DType.
Coercion dtypes.Plain : dtypes.Kind >-> dtypes.DType.

(** ** Runtime values and static shapes *)

(** Modelled from the spec: the values of the execution engine, which is
    not part of the sources.  A dense array as a kernel sees it: its
    dimensions and its elements in row-major order.  Elements are integers;
    floating-point numerics belong to the kernels and are outside this
    development. *)
Record NDArray : Type := mkND { nd_shape : list Z; nd_data : list Z }.

Definition list_prod (l : list Z) : Z := fold_right Z.mul 1 l.

Fixpoint list_eqb (l1 l2 : list Z) : bool :=
  match l1, l2 with
  | [], [] => true
  | x :: r1, y :: r2 => (x =? y) && list_eqb r1 r2
  | _, _ => false
  end.

Definition nd_wf (a : NDArray) : bool :=
  forallb (fun d => 0 <=? d) (nd_shape a)
  && (Z.of_nat (length (nd_data a)) =? list_prod (nd_shape a)).

Definition scalar (z : Z) : NDArray := mkND [] [z].

Definition vector (l : list Z) : NDArray := mkND [Z.of_nat (length l)] l.

(** Python's [xrange(lo, hi)] and numpy's [arange]. *)
Definition zrange (lo hi : Z) : list Z :=
  map (fun i => lo + Z.of_nat i) (seq 0 (Z.to_nat (hi - lo))).

Definition xrange (n : Z) : list Z := zrange 0 n.

Definition znth (i : Z) (l : list Z) : Z := nth (Z.to_nat i) l 0.

(** Modelled from the spec: the static shape of a graph value ([tensor_shape]
    is not part of the sources): the rank may be unknown ([None]), and so may
    each dimension. *)
Definition TensorShape : Type := option (list (option Z)).

Definition unknown_shape : TensorShape := None.

Definition known_shape (dims : list Z) : TensorShape := Some (map Some dims).

Definition ndims (s : TensorShape) : option Z :=
  option_map (fun l => Z.of_nat (length l)) s.

Definition is_fully_defined (s : TensorShape) : bool :=
  match s with
  | Some l => forallb (fun d => match d with Some _ => true | None => false end) l
  | None => false
  end.

(** [as_list] of a fully defined shape. *)
Definition as_list (s : TensorShape) : list Z :=
  match s with
  | Some l => map (fun d => match d with Some z => z | None => 0 end) l
  | None => []
  end.

(** A runtime shape agrees with a static one when every known dimension
    matches. *)
Definition dim_compatible (d : option Z) (z : Z) : bool :=
  match d with Some x => x =? z | None => true end.

Fixpoint dims_compatible (l : list (option Z)) (r : list Z) : bool :=
  match l, r with
  | [], [] => true
  | d :: l', z :: r' => dim_compatible d z && dims_compatible l' r'
  | _, _ => false
  end.

Definition shape_compatible (s : TensorShape) (r : list Z) : bool :=
  match s with
  | Some l => dims_compatible l r
  | None => true
  end.

(** ** Graph nodes *)

Inductive OpType : Type :=
| Cast | Maximum | Minimum | RealDiv | Mul | Add | Sub
| GreaterEqual | Less
| Range | Rank | Size | Shape
| ListDiff | Gather | Pack | Concat
| Transpose | Reshape | Conj
| Index (i : Z)
| Prod (keep_dims : bool)
| MatMul (transpose_a transpose_b : bool)
| BatchMatMul (adj_x adj_y : bool)
| SparseMatMul (transpose_a transpose_b a_is_sparse b_is_sparse : bool).

(** Modelled from the spec: the [Tensor] of the framework, which is not part
    of the sources.  A [Tensor] is a handle on a graph node: a value fed at
    run time, a constant, or the output of an operation on other tensors.
    Every tensor carries the dtype and the static shape fixed when it was
    built. *)
#[warnings="-register-all"] Inductive Tensor : Type :=
| Placeholder (name : string) (dt : DType) (sh : TensorShape)
| Const (dt : DType) (val : NDArray)
| Node (op : OpType) (inputs : list Tensor) (dt : DType) (sh : TensorShape).

Definition dtype (t : Tensor) : DType :=
  match t with
  | Placeholder _ dt _ => dt
  | Const dt _ => dt
  | Node _ _ dt _ => dt
  end.

Definition get_shape (t : Tensor) : TensorShape :=
  match t with
  | Placeholder _ _ sh => sh
  | Const _ v => known_shape (nd_shape v)
  | Node _ _ _ sh => sh
  end.

Record SparseTensor : Type :=
  mkSparse { indices : Tensor; values : Tensor; dense_shape : Tensor }.

(** What a caller may pass where the module tests
    [isinstance(x, ops.Tensor)] and
    [isinstance(x, sparse_tensor.SparseTensor)]. *)
Inductive TensorLike : Type :=
| Dense (t : Tensor)
| Sparse (s : SparseTensor).

(** ** The graph engine: node constructors

    The constructors of the generated op modules, of [array_ops] and of
    [constant_op] are not part of the sources.  Each one appends one node;
    the dtype and the static shape of the node follow the engine's
    inference as far as [math_ops.py] reads them back (the dtype, and the
    rank of the static shape).  The engine's own build-time validation of
    shapes is not modelled: an ill-shaped node simply has no value. *)

(** Modelled from the spec: the broadcast of two static shapes, aligned
    from the right; a dimension of size 1 stretches and an unknown dimension
    is compatible with anything. *)
Definition broadcast_dim (x y : option Z) : option Z :=
  match x, y with
  | Some a, Some b => if a =? 1 then Some b else Some a
  | Some a, None => if a =? 1 then None else Some a
  | None, Some b => if b =? 1 then None else Some b
  | None, None => None
  end.

Fixpoint broadcast_rev (l1 l2 : list (option Z)) : list (option Z) :=
  match l1, l2 with
  | [], l => l
  | l, [] => l
  | x :: a, y :: b => broadcast_dim x y :: broadcast_rev a b
  end.

Definition broadcast_shape (a b : TensorShape) : TensorShape :=
  match a, b with
  | Some l1, Some l2 => Some (rev (broadcast_rev (rev l1) (rev l2)))
  | _, _ => None
  end.

(** Modelled from the spec: the shape a tensor denotes when it is used as
    the shape argument of [Reshape] (the engine's shape inference): known for a constant, of known rank for a stack of scalars or
    for a vector of known length. *)
Definition constant_value_as_shape (s : Tensor) : TensorShape :=
  match s with
  | Const _ v => known_shape (nd_data v)
  | Node Pack ins _ _ =>
      Some (map (fun t => match t with
                          | Const _ (mkND [] [z]) => Some z
                          | _ => None
                          end) ins)
  | _ =>
      match get_shape s with
      | Some [Some n] => Some (repeat None (Z.to_nat n))
      | _ => None
      end
  end.

Module constant_op.

(** Modelled from the spec: [constant] wraps a literal into a typed graph
    value. *)
Definition constant (v : NDArray) (dt : DType) : Tensor :=
  Const (dtypes.base_dtype dt) v.

End constant_op.

Module ops.

(** Modelled from the spec: [convert_to_value(x, dtype?)] returns an existing
    handle as it is, and wraps a literal.  A Python integer and a list of
    Python integers become [int32] constants unless a dtype is asked for; an
    empty list has no integer to infer from and becomes a [float32]
    constant. *)
Definition convert_to_tensor (x : Tensor) : Tensor := x.

(** A Python integer as a constant of the dtype asked for, held as that
    dtype holds it ([dtypes.nearest]).  Not modelled: the engine refuses an
    integer that lies outside an integer dtype, and gives an integer outside
    [int32] the dtype [int64] when no dtype is asked for; the module itself
    converts bounds of dtypes, zero, one and axis numbers only. *)

Definition convert_int (z : Z) (dt : option DType) : Tensor :=
  let d := match dt with Some d => d | None => dtypes.Plain dtypes.int32 end in
  constant_op.constant (scalar (dtypes.nearest (dtypes.kind_of d) z)) d.

Definition convert_list (l : list Z) (dt : option DType) : Tensor :=
  constant_op.constant (vector l)
    (match dt with
     | Some d => d
     | None =>
         match l with
         | [] => dtypes.Plain dtypes.float32
         | _ => dtypes.Plain dtypes.int32
         end
     end).

(** An existing handle converts to a requested dtype only when it already
    has it. *)
Definition convert_as (x : Tensor) (dt : DType) : Result Tensor :=
  if dtypes.eqb (dtypes.base_dtype (dtype x)) (dtypes.base_dtype dt)
  then Ok x
  else Raise (ValueError "Tensor conversion requested dtype %s for Tensor with dtype %s").

End ops.

Module gen_math_ops.

(** Modelled from the spec: the primitive constructors for elementwise
    arithmetic and comparison, conversion, range, product and matrix
    multiply; each returns a new handle with inferred dtype and shape.  A
    constructor here is the node the engine appends when it accepts the
    operands.  Not modelled are the engine's refusals while the graph is
    built: [ShapeMismatch] for a matrix product whose statically known inner
    dimensions differ, a range whose constant operands are out of order or
    whose operands are not scalars, and operands of different dtypes.  What
    is stated about a successful build is stated under hypotheses that rule
    these out, or as an equation between two runs. *)
Definition binary (op : OpType) (x y : Tensor) : Tensor :=
  Node op [x; y] (dtypes.base_dtype (dtype x))
       (broadcast_shape (get_shape x) (get_shape y)).

Definition comparison (op : OpType) (x y : Tensor) : Tensor :=
  Node op [x; y] (dtypes.Plain dtypes.dt_bool)
       (broadcast_shape (get_shape x) (get_shape y)).

Definition cast (x : Tensor) (DstT : DType) : Tensor :=
  Node Cast [x] DstT (get_shape x).

Definition maximum : Tensor -> Tensor -> Tensor := binary Maximum.
Definition minimum : Tensor -> Tensor -> Tensor := binary Minimum.
Definition _real_div : Tensor -> Tensor -> Tensor := binary RealDiv.
Definition mul : Tensor -> Tensor -> Tensor := binary Mul.
Definition add : Tensor -> Tensor -> Tensor := binary Add.
Definition sub : Tensor -> Tensor -> Tensor := binary Sub.
Definition greater_equal : Tensor -> Tensor -> Tensor := comparison GreaterEqual.
Definition less : Tensor -> Tensor -> Tensor := comparison Less.

Definition _conj (x : Tensor) : Tensor :=
  Node Conj [x] (dtypes.base_dtype (dtype x)) (get_shape x).

Definition _range (start limit delta : Tensor) : Tensor :=
  Node Range [start; limit; delta] (dtypes.base_dtype (dtype start))
       (Some [None]).

Definition _prod (input axes : Tensor) (keep_dims : bool) : Tensor :=
  Node (Prod keep_dims) [input; axes] (dtypes.base_dtype (dtype input))
       (match get_shape input, axes with
        | Some dims, Const _ ax =>
            if keep_dims then Some (map (fun _ => None) dims)
            else Some (repeat None (length dims - length (nd_data ax))%nat)
        | _, _ => None
        end).

Definition matrix_shape (a b : TensorShape) (ta tb : bool) : TensorShape :=
  match a, b with
  | Some [a0; a1], Some [b0; b1] =>
      Some [if ta then a1 else a0; if tb then b0 else b1]
  | _, _ => Some [None; None]
  end.

Definition _mat_mul (a b : Tensor) (transpose_a transpose_b : bool) : Tensor :=
  Node (MatMul transpose_a transpose_b) [a; b] (dtypes.base_dtype (dtype a))
       (matrix_shape (get_shape a) (get_shape b) transpose_a transpose_b).

Definition _batch_mat_mul (x y : Tensor) (adj_x adj_y : bool) : Tensor :=
  Node (BatchMatMul adj_x adj_y) [x; y] (dtypes.base_dtype (dtype x))
       unknown_shape.

Definition _sparse_mat_mul (a b : Tensor)
    (transpose_a transpose_b a_is_sparse b_is_sparse : bool) : Tensor :=
  Node (SparseMatMul transpose_a transpose_b a_is_sparse b_is_sparse) [a; b]
       (dtypes.Plain dtypes.float32)
       (matrix_shape (get_shape a) (get_shape b) transpose_a transpose_b).

End gen_math_ops.

Module array_ops.

(** Modelled from the spec: the primitive constructors for shape and rank
    queries, set difference, gather, stack, concat, reshape and transpose.
    As in [gen_math_ops], a constructor is the node the engine appends when
    it accepts the operands; of its refusals only the one of [concat] is
    modelled.  Not modelled: the engine refuses a constant permutation that
    is not a permutation of the axes of an operand of known rank. *)
Definition shape (a : Tensor) : Tensor :=
  Node Shape [a] (dtypes.Plain dtypes.int32)
       (match get_shape a with
        | Some dims => Some [Some (Z.of_nat (length dims))]
        | None => Some [None]
        end).

Definition rank (a : Tensor) : Tensor :=
  Node Rank [a] (dtypes.Plain dtypes.int32) (Some []).

(** The rank of a sparse value is the number of entries of its
    [dense_shape]. *)
Definition rank_like (x : TensorLike) : Tensor :=
  match x with
  | Dense t => rank t
  | Sparse s => Node Size [dense_shape s] (dtypes.Plain dtypes.int32) (Some [])
  end.

Definition setdiff1d (x y : Tensor) : Tensor :=
  Node ListDiff [x; y] (dtypes.base_dtype (dtype x)) (Some [None]).

Definition gather (params ids : Tensor) : Tensor :=
  Node Gather [params; ids] (dtypes.base_dtype (dtype params))
       (match get_shape ids, get_shape params with
        | Some i, Some p => Some (i ++ tl p)
        | _, _ => None
        end).

(** The node of [concat(concat_dim, values)]: the dimension comes first. *)
Definition concat_node (concat_dim : Z) (vals : list Tensor) : Tensor :=
  Node Concat (ops.convert_int concat_dim None :: vals)
       (match vals with v :: _ => dtypes.base_dtype (dtype v)
                   | [] => dtypes.Plain dtypes.int32 end)
       (if forallb (fun v => match get_shape v with
                             | Some [_] => true | _ => false end) vals
        then Some [None] else None).

(** Modelled from the spec: operand dtypes required to match do not
    ([TypeMismatch] of the error taxonomy).  The values of a [concat] must
    have one dtype; the engine refuses the node otherwise. *)
Definition same_dtypes (vals : list Tensor) : bool :=
  match vals with
  | [] => true
  | v :: rest =>
      forallb (fun w => dtypes.eqb (dtypes.base_dtype (dtype w))
                                   (dtypes.base_dtype (dtype v))) rest
  end.

Definition concat (concat_dim : Z) (vals : list Tensor) : Result Tensor :=
  if same_dtypes vals then Ok (concat_node concat_dim vals)
  else Raise MixedDtypes.

Definition stack (vals : list Tensor) : Tensor :=
  Node Pack vals
       (match vals with v :: _ => dtypes.base_dtype (dtype v)
                   | [] => dtypes.Plain dtypes.int32 end)
       (match vals with
        | v :: _ => option_map (cons (Some (Z.of_nat (length vals)))) (get_shape v)
        | [] => None
        end).

(** [t[i]] on a tensor: the [i]-th slice along the first dimension. *)
Definition getitem (t : Tensor) (i : Z) : Tensor :=
  Node (Index i) [t] (dtypes.base_dtype (dtype t))
       (option_map (@tl (option Z)) (get_shape t)).

Definition reshape (t shape : Tensor) : Tensor :=
  Node Reshape [t; shape] (dtypes.base_dtype (dtype t))
       (constant_value_as_shape shape).

Definition transpose (a perm : Tensor) : Tensor :=
  Node Transpose [a; perm] (dtypes.base_dtype (dtype a))
       (match get_shape a, perm with
        | Some dims, Const _ p =>
            Some (map (fun i => nth (Z.to_nat i) dims None) (nd_data p))
        | Some dims, _ => Some (map (fun _ => None) dims)
        | None, _ => None
        end).

End array_ops.

(** ** The graph engine: kernels

    Modelled from the spec: what the execution engine computes for each
    primitive.  Integer arithmetic is exact; the narrowing conversion wraps
    around; the sparse matrix product is the matrix product; division, the
    batched product and conjugation have no integer model and yield no
    value here. *)

Section MapOpt.
Context {A B : Type} (f : A -> option B).

Fixpoint map_opt (l : list A) : option (list B) :=
  match l with
  | [] => Some []
  | x :: l' =>
      match f x, map_opt l' with
      | Some y, Some ys => Some (y :: ys)
      | _, _ => None
      end
  end.

End MapOpt.

Definition obind {A B : Type} (o : option A) (k : A -> option B) : option B :=
  match o with
  | Some a => k a
  | None => None
  end.

Notation "x <~ e ;; k" := (obind e (fun x => k))
  (at level 61, e at next level, right associativity).

Definition as_scalar (a : NDArray) : option Z :=
  match nd_shape a, nd_data a with
  | [], [z] => Some z
  | _, _ => None
  end.

Definition as_vector (a : NDArray) : option (list Z) :=
  match nd_shape a with
  | [_] => Some (nd_data a)
  | _ => None
  end.

Definition map2 (f : Z -> Z -> Z) (l1 l2 : list Z) : list Z :=
  map (fun p => f (fst p) (snd p)) (combine l1 l2).

(** Modelled from the spec: elementwise application of a kernel; a scalar
    operand is stretched, otherwise the two shapes must be the same. *)
Definition ew2 (f : Z -> Z -> Z) (a b : NDArray) : option NDArray :=
  match as_scalar b, as_scalar a with
  | Some y, _ => Some (mkND (nd_shape a) (map (fun x => f x y) (nd_data a)))
  | None, Some x => Some (mkND (nd_shape b) (map (f x) (nd_data b)))
  | None, None =>
      if list_eqb (nd_shape a) (nd_shape b)
      then Some (mkND (nd_shape a) (map2 f (nd_data a) (nd_data b)))
      else None
  end.

Definition wrap (lo hi z : Z) : Z := lo + (z - lo) mod (hi - lo + 1).

(** Modelled from the spec: the unchecked numeric conversion of one element
    to an integer kind (two's-complement wrap-around) or to a boolean. *)
Definition cast_value (k : dtypes.Kind) (z : Z) : option Z :=
  if dtypes.is_integer k then
    match dtypes.limits k with
    | Some (lo, hi) => Some (wrap lo hi z)
    | None => None
    end
  else match k with
       | dtypes.dt_bool => Some (if z =? 0 then 0 else 1)
       | _ => None
       end.

(** Modelled from the spec: the sequence that begins at [start] and extends
    by [delta] up to but not including [limit]. *)
Definition range_values (start limit delta : Z) : option (list Z) :=
  if delta =? 0 then None
  else if 0 <? delta
       then Some (map (fun i => start + i * delta)
                      (xrange ((limit - start + delta - 1) / delta)))
       else Some (map (fun i => start + i * delta)
                      (xrange ((start - limit - delta - 1) / (- delta)))).

Definition mem (i : Z) (l : list Z) : bool := existsb (Z.eqb i) l.

Definition listdiff (x y : list Z) : list Z :=
  filter (fun i => negb (mem i y)) x.

Definition gather_values (params ids : list Z) : option (list Z) :=
  map_opt (fun i => if (0 <=? i) && (i <? Z.of_nat (length params))
                    then Some (znth i params) else None) ids.

(** Row-major addressing. *)
Fixpoint unravel (shape : list Z) (i : Z) : list Z :=
  match shape with
  | [] => []
  | _ :: rest =>
      let s := list_prod rest in (i / s) :: unravel rest (i mod s)
  end.

Fixpoint ravel (shape idx : list Z) : Z :=
  match shape, idx with
  | _ :: rest, i :: idx' => i * list_prod rest + ravel rest idx'
  | _, _ => 0
  end.

Fixpoint index_of (j : Z) (perm : list Z) : Z :=
  match perm with
  | [] => 0
  | p :: rest => if p =? j then 0 else 1 + index_of j rest
  end.

Definition is_permutation (perm : list Z) (r : Z) : bool :=
  (Z.of_nat (length perm) =? r) && forallb (fun j => mem j perm) (xrange r).

(** Modelled from the spec: the transpose kernel; dimension [j] of the
    output is dimension [perm[j]] of the input. *)
Definition transpose_nd (a : NDArray) (perm : list Z) : option NDArray :=
  let r := Z.of_nat (length (nd_shape a)) in
  if is_permutation perm r then
    let out_shape := map (fun p => znth p (nd_shape a)) perm in
    Some (mkND out_shape
            (map (fun o =>
                    let mo := unravel out_shape o in
                    let mi := map (fun j => znth (index_of j perm) mo) (xrange r) in
                    znth (ravel (nd_shape a) mi) (nd_data a))
                 (xrange (list_prod out_shape))))
  else None.

(** Modelled from the spec: the reshape kernel keeps the elements in
    row-major order and needs as many of them as the new shape holds. *)
Definition reshape_nd (a : NDArray) (s : list Z) : option NDArray :=
  if forallb (fun d => 0 <=? d) s && (list_prod s =? list_prod (nd_shape a))
  then Some (mkND s (nd_data a))
  else None.

Definition list_sum (l : list Z) : Z := fold_right Z.add 0 l.

(** Modelled from the spec: the matrix-multiply kernel, the ordinary product
    of an [m x k] and a [k x n] matrix. *)
Definition matmul_nd (a b : NDArray) : option NDArray :=
  match nd_shape a, nd_shape b with
  | [m; k], [k'; n] =>
      if k =? k' then
        Some (mkND [m; n]
                (flat_map (fun i =>
                   map (fun j =>
                          list_sum (map (fun l => znth (i * k + l) (nd_data a)
                                                  * znth (l * n + j) (nd_data b))
                                        (xrange k)))
                       (xrange n))
                   (xrange m)))
      else None
  | _, _ => None
  end.

Definition b2z (b : bool) : Z := if b then 1 else 0.

(** Modelled from the spec: the kernel of each primitive operation.
    Arithmetic is exact: only [Cast] wraps around.  A product or sum that
    does not fit the dtype of the tensor, which the engine computes in that
    dtype, is outside what the kernels describe. *)
Definition kernel (op : OpType) (dt : DType) (args : list NDArray)
  : option NDArray :=
  match op, args with
  | Cast, [a] =>
      option_map (mkND (nd_shape a))
                 (map_opt (cast_value (dtypes.kind_of dt)) (nd_data a))
  | Maximum, [a; b] => ew2 Z.max a b
  | Minimum, [a; b] => ew2 Z.min a b
  | Mul, [a; b] => ew2 Z.mul a b
  | Add, [a; b] => ew2 Z.add a b
  | Sub, [a; b] => ew2 Z.sub a b
  | GreaterEqual, [a; b] => ew2 (fun x y => b2z (y <=? x)) a b
  | Less, [a; b] => ew2 (fun x y => b2z (x <? y)) a b
  | Range, [s; l; d] =>
      start <~ as_scalar s ;; limit <~ as_scalar l ;; delta <~ as_scalar d ;;
      option_map vector (range_values start limit delta)
  | Rank, [a] => Some (scalar (Z.of_nat (length (nd_shape a))))
  | Size, [a] => Some (scalar (list_prod (nd_shape a)))
  | Shape, [a] => Some (vector (nd_shape a))
  | ListDiff, [x; y] =>
      xs <~ as_vector x ;; ys <~ as_vector y ;; Some (vector (listdiff xs ys))
  | Gather, [p; ids] =>
      ps <~ as_vector p ;;
      option_map (mkND (nd_shape ids)) (gather_values ps (nd_data ids))
  | Prod false, [x; ax] =>
      if list_eqb (nd_data ax) (xrange (Z.of_nat (length (nd_shape x))))
      then Some (scalar (list_prod (nd_data x)))
      else None
  | Pack, x :: rest =>
      if forallb (fun y => list_eqb (nd_shape y) (nd_shape x)) rest
      then Some (mkND (Z.of_nat (length args) :: nd_shape x)
                      (flat_map nd_data args))
      else None
  | Concat, d :: vals =>
      dim <~ as_scalar d ;;
      parts <~ map_opt as_vector vals ;;
      if dim =? 0 then Some (vector (concat parts)) else None
  | Index i, [a] =>
      match nd_shape a with
      | d :: rest =>
          if (0 <=? i) && (i <? d)
          then Some (mkND rest
                       (firstn (Z.to_nat (list_prod rest))
                          (skipn (Z.to_nat (i * list_prod rest)) (nd_data a))))
          else None
      | [] => None
      end
  | Transpose, [a; p] => transpose_nd a (nd_data p)
  | Reshape, [a; s] => reshape_nd a (nd_data s)
  | MatMul ta tb, [a; b] | SparseMatMul ta tb _ _, [a; b] =>
      a' <~ (if ta then transpose_nd a [1; 0] else Some a) ;;
      b' <~ (if tb then transpose_nd b [1; 0] else Some b) ;;
      matmul_nd a' b'
  | _, _ => None
  end.

(** Modelled from the spec: running a graph on the values fed to its
    placeholders, leaves first.  A fed value
    must agree with the placeholder's static shape. *)
Fixpoint eval (env : string -> option NDArray) (t : Tensor) {struct t}
  : option NDArray :=
  match t with
  | Placeholder n _ sh =>
      v <~ env n ;;
      if nd_wf v && shape_compatible sh (nd_shape v) then Some v else None
  | Const _ v => if nd_wf v then Some v else None
  | Node op ins dt _ =>
      args <~ map_opt (eval env) ins ;; kernel op dt args
  end.

(** ** The functions of [math_ops.py] *)

(** A Python argument that is either an integer literal or a tensor.
    Python floats are not represented. *)
Inductive PyArg : Type :=
| PyInt (z : Z)
| PyTensor (t : Tensor).

(** A Python object that is either a list of integers or a tensor. *)
Inductive PySeq : Type :=
| PyList (l : list Z)
| SeqTensor (t : Tensor).

(** What a caller may pass as a reduction axis. *)
Inductive AxisArg : Type :=
| AxisInt (z : Z)
| AxisList (l : list Z)
| AxisTensor (t : Tensor).

(** What a caller may pass as the [axes] of [tensordot]: an integer, a list
    of axis lists, or a tensor. *)
Inductive TensordotAxes : Type :=
| AxesInt (n : Z)
| AxesList (l : list (list Z))
| AxesTensor (t : Tensor).

Definition convert_arg (x : PyArg) (dt : option DType) : Result Tensor :=
  match x, dt with
  | PyInt z, _ => Ok (ops.convert_int z dt)
  | PyTensor t, Some d => ops.convert_as t d
  | PyTensor t, None => Ok t
  end.

Definition convert_seq (x : PySeq) (dt : option DType) : Result Tensor :=
  match x, dt with
  | PyList l, _ => Ok (ops.convert_list l dt)
  | SeqTensor t, Some d => ops.convert_as t d
  | SeqTensor t, None => Ok t
  end.

Definition convert_axis (x : AxisArg) : Tensor :=
  match x with
  | AxisInt z => ops.convert_int z None
  | AxisList l => ops.convert_list l None
  | AxisTensor t => t
  end.

(** Python's [l[i]]: a negative index counts from the end. *)
Definition py_getitem (l : list Z) (i : Z) : Result Z :=
  let n := Z.of_nat (length l) in
  if (0 <=? i) && (i <? n) then Ok (znth i l)
  else if (- n <=? i) && (i <? 0) then Ok (znth (i + n) l)
  else Raise (IndexError "list index out of range").

Fixpoint map_result {A B : Type} (f : A -> Result B) (l : list A)
  : Result (list B) :=
  match l with
  | [] => Ok []
  | x :: l' => y <- f x ;; ys <- map_result f l' ;; Ok (y :: ys)
  end.

Module math_ops.

(** The dense branch of [cast]. *)
Definition cast (x : Tensor) (dtype_ : DType) : Tensor :=
  let base_type := dtypes.base_dtype (dtypes.as_dtype dtype_) in
  let x := ops.convert_to_tensor x in
  if dtypes.eqb (dtypes.base_dtype (dtype x)) base_type
  then x
  else gen_math_ops.cast x base_type.

(** The [SparseTensor] branch of [cast]: only the values are converted. *)
Definition cast_sparse (x : SparseTensor) (dtype_ : DType) : SparseTensor :=
  let base_type := dtypes.base_dtype (dtypes.as_dtype dtype_) in
  let values_cast := cast (values x) base_type in
  mkSparse (indices x) values_cast (dense_shape x).

Definition saturate_cast (value : Tensor) (dtype_ : DType) : Result Tensor :=
  let value := ops.convert_to_tensor value in
  let dtype_ := dtypes.base_dtype (dtypes.as_dtype dtype_) in
  vmin <- dtypes.min (dtype value) ;;
  tmin <- dtypes.min dtype_ ;;
  let value :=
    if vmin <? tmin
    then gen_math_ops.maximum value
           (ops.convert_int tmin (Some (dtype value)))
    else value in
  vmax <- dtypes.max (dtype value) ;;
  tmax <- dtypes.max dtype_ ;;
  let value :=
    if tmax <? vmax
    then gen_math_ops.minimum value
           (ops.convert_int tmax (Some (dtype value)))
    else value in
  Ok (cast value dtype_).

(** Conversion table for [__truediv__].  An inner [None] means that no
    conversion is required; a dtype without an entry is a [KeyError]. *)
Definition _TRUEDIV_TABLE : list (DType * option DType) :=
  [ (dtypes.Plain dtypes.uint8, Some (dtypes.Plain dtypes.float32));
    (dtypes.Plain dtypes.int8, Some (dtypes.Plain dtypes.float32));
    (dtypes.Plain dtypes.uint16, Some (dtypes.Plain dtypes.float32));
    (dtypes.Plain dtypes.int16, Some (dtypes.Plain dtypes.float32));
    (dtypes.Plain dtypes.int32, Some (dtypes.Plain dtypes.float64));
    (dtypes.Plain dtypes.int64, Some (dtypes.Plain dtypes.float64));
    (dtypes.Plain dtypes.float16, None);
    (dtypes.Plain dtypes.float32, None);
    (dtypes.Plain dtypes.float64, None);
    (dtypes.Plain dtypes.complex64, None);
    (dtypes.Plain dtypes.complex128, None) ].

Fixpoint table_get (tbl : list (DType * option DType)) (key : DType)
  : option (option DType) :=
  match tbl with
  | [] => None
  | (k, v) :: rest => if dtypes.eqb k key then Some v else table_get rest key
  end.

Definition _truediv_python3 (x y : Tensor) : Result Tensor :=
  let x := ops.convert_to_tensor x in
  let y := ops.convert_to_tensor y in
  let x_dtype := dtypes.base_dtype (dtype x) in
  let y_dtype := dtypes.base_dtype (dtype y) in
  if negb (dtypes.eqb x_dtype y_dtype) then Raise TypeMismatch
  else
    match table_get _TRUEDIV_TABLE x_dtype with
    | None => Raise UnsupportedType
    | Some (Some dtype_) =>
        Ok (gen_math_ops._real_div (cast x dtype_) (cast y dtype_))
    | Some None => Ok (gen_math_ops._real_div x y)
    end.

Definition truediv (x y : Tensor) : Result Tensor := _truediv_python3 x y.

Definition dtype_in (d : DType) (l : list DType) : bool :=
  existsb (dtypes.eqb d) l.

Fixpoint list_index (d : DType) (l : list DType) : Z :=
  match l with
  | [] => 0
  | x :: rest => if dtypes.eqb x d then 0 else 1 + list_index d rest
  end.

(** Python's [max(xs, key=...)]: the first element whose key is largest. *)
Definition max_by (key : DType -> Z) (x : DType) (rest : list DType) : DType :=
  fold_left (fun best y => if key best <? key y then y else best) rest x.

Definition range (start : PyArg) (limit : option PyArg) (delta : PyArg)
    (dtype_ : option DType) : Result Tensor :=
  let '(start, limit) :=
    match limit with
    | None => (PyInt 0, start)
    | Some l => (start, l)
    end in
  start <- convert_arg start dtype_ ;;
  limit <- convert_arg limit dtype_ ;;
  delta <- convert_arg delta dtype_ ;;
  args <- match dtype_ with
          | None =>
              let dtype_hierarchy :=
                [dtypes.Plain dtypes.int32; dtypes.Plain dtypes.int64;
                 dtypes.Plain dtypes.float32; dtypes.Plain dtypes.float64] in
              if forallb (fun arg => dtype_in (dtype arg) dtype_hierarchy)
                         [start; limit; delta]
              then
                let inferred_dtype :=
                  max_by (fun d => list_index d dtype_hierarchy)
                         (dtype start) [dtype limit; dtype delta] in
                Ok (cast start inferred_dtype, cast limit inferred_dtype,
                    cast delta inferred_dtype)
              else Raise AssertionError
          | Some _ => Ok (start, limit, delta)
          end ;;
  let '(start, limit, delta) := args in
  Ok (gen_math_ops._range start limit delta).

(** [np.arange(n)] as an [int32] constant. *)
Definition arange_constant (n : Z) : Tensor :=
  constant_op.constant (vector (xrange n)) (dtypes.Plain dtypes.int32).

Definition _ReductionDims (x : TensorLike) (axis reduction_indices : option AxisArg)
  : Result AxisArg :=
  axis <- match reduction_indices with
          | Some ri =>
              match axis with
              | Some _ => Raise ConflictingArguments
              | None => Ok (Some ri)
              end
          | None => Ok axis
          end ;;
  match axis with
  | Some ax => Ok ax
  | None =>
      let at_run_time :=
        r <- range (PyInt 0) (Some (PyTensor (array_ops.rank_like x)))
                   (PyInt 1) None ;;
        Ok (AxisTensor r) in
      match x with
      | Dense t =>
          match ndims (get_shape t) with
          | Some n => Ok (AxisTensor (arange_constant n))
          | None => at_run_time
          end
      | Sparse s =>
          if is_fully_defined (get_shape (dense_shape s)) then
            match get_shape (dense_shape s) with
            | Some (Some rank :: _) => Ok (AxisTensor (arange_constant rank))
            | _ => Raise (IndexError "list index out of range")
            end
          else at_run_time
      end
  end.

Definition reduce_prod (input_tensor : Tensor) (axis : option AxisArg)
    (keep_dims : bool) (reduction_indices : option AxisArg) : Result Tensor :=
  dims <- _ReductionDims (Dense input_tensor) axis reduction_indices ;;
  Ok (gen_math_ops._prod input_tensor (convert_axis dims) keep_dims).

Definition conj (x : Tensor) : Result Tensor :=
  let x := ops.convert_to_tensor x in
  let k := dtypes.kind_of (dtype x) in
  if dtypes.is_complex k then Ok (gen_math_ops._conj x)
  else if dtypes.is_floating k || dtypes.is_integer k then Ok x
  else Raise (TypeError "Expected numeric tensor, got dtype %r").

Definition batch_rank (s : TensorShape) : bool :=
  match ndims s with
  | None => true
  | Some n => 2 <? n
  end.

Definition matmul (a b : Tensor)
    (transpose_a transpose_b adjoint_a adjoint_b a_is_sparse b_is_sparse : bool)
  : Result Tensor :=
  if transpose_a && adjoint_a
  then Raise (ValueError "Only one of transpose_a and adjoint_a can be True.")
  else if transpose_b && adjoint_b
  then Raise (ValueError "Only one of transpose_b and adjoint_b can be True.")
  else
    let a := ops.convert_to_tensor a in
    let b := ops.convert_to_tensor b in
    let a_shape := get_shape a in
    let b_shape := get_shape b in
    if (negb a_is_sparse && negb b_is_sparse)
       && (batch_rank a_shape && batch_rank b_shape)
    then
      a <- (if transpose_a then conj a else Ok a) ;;
      let adjoint_a := if transpose_a then true else adjoint_a in
      b <- (if transpose_b then conj b else Ok b) ;;
      let adjoint_b := if transpose_b then true else adjoint_b in
      Ok (gen_math_ops._batch_mat_mul a b adjoint_a adjoint_b)
    else
      a <- (if adjoint_a then conj a else Ok a) ;;
      let transpose_a := if adjoint_a then true else transpose_a in
      b <- (if adjoint_b then conj b else Ok b) ;;
      let transpose_b := if adjoint_b then true else transpose_b in
      let sparse_matmul_types :=
        [dtypes.Plain dtypes.bfloat16; dtypes.Plain dtypes.float32] in
      let use_sparse_matmul :=
        dtype_in (dtype a) sparse_matmul_types
        && dtype_in (dtype b) sparse_matmul_types
        && (a_is_sparse || b_is_sparse) in
      let use_sparse_matmul :=
        if dtype_in (dtypes.Plain dtypes.bfloat16) [dtype a; dtype b]
        then true else use_sparse_matmul in
      if use_sparse_matmul
      then Ok (gen_math_ops._sparse_mat_mul a b transpose_a transpose_b
                 a_is_sparse b_is_sparse)
      else Ok (gen_math_ops._mat_mul a b transpose_a transpose_b).

(** The wrapper behind [x + y], [x - y] and [x * y] on tensors: the right
    operand is converted to the dtype of the left one. *)
Definition binary_op_wrapper (func : Tensor -> Tensor -> Tensor)
    (x : Tensor) (y : PyArg) : Result Tensor :=
  y <- convert_arg y (Some (dtypes.base_dtype (dtype x))) ;;
  Ok (func x y).

(** The dense case of [_mul_dispatch]. *)
Definition _mul_dispatch (x y : Tensor) : Tensor := gen_math_ops.mul x y.

(** [x >= c] and [x < c] against a Python integer. *)
Definition ge_int (x : Tensor) (c : Z) : Tensor :=
  gen_math_ops.greater_equal x (ops.convert_int c (Some (dtype x))).

Definition lt_int (x : Tensor) (c : Z) : Tensor :=
  gen_math_ops.less x (ops.convert_int c (Some (dtype x))).

(** Modelled from the spec: [array_ops.range], which the unknown-rank branch
    of [_tensordot_axes] calls, is missing from the sources; the ranges
    computed from the runtime rank are taken to be those of [range]. *)
Definition array_ops_range (start : PyArg) (limit : option PyArg)
    (dtype_ : DType) : Result Tensor :=
  range start limit (PyInt 1) (Some dtype_).

Definition len (l : list Z) : Z := Z.of_nat (length l).

Definition _tensordot_reshape (a : Tensor) (axes : PySeq) (flipped : bool)
  : Result (Tensor * PySeq) :=
  let int32 := dtypes.Plain dtypes.int32 in
  match is_fully_defined (get_shape a), axes with
  | true, PyList axes =>
      let shape_a := as_list (get_shape a) in
      let axes := map (fun i => if 0 <=? i then i else i + len shape_a) axes in
      let free := filter (fun i => negb (mem i axes)) (xrange (len shape_a)) in
      free_dims <- map_result (py_getitem shape_a) free ;;
      free_sizes <- map_result (py_getitem shape_a) free ;;
      let prod_free := list_prod free_sizes in
      axes_sizes <- map_result (py_getitem shape_a) axes ;;
      let prod_axes := list_prod axes_sizes in
      let perm := if flipped then axes ++ free else free ++ axes in
      let new_shape :=
        if flipped then [prod_axes; prod_free] else [prod_free; prod_axes] in
      let reshaped_a :=
        array_ops.reshape
          (array_ops.transpose a (ops.convert_list perm None))
          (ops.convert_list new_shape None) in
      Ok (reshaped_a, PyList free_dims)
  | _, _ =>
      let shape_a := array_ops.shape a in
      let rank_a := array_ops.rank a in
      axes <- convert_seq axes (Some int32) ;;
      pos <- binary_op_wrapper _mul_dispatch (cast (ge_int axes 0) int32)
                               (PyTensor axes) ;;
      shifted <- binary_op_wrapper gen_math_ops.add axes (PyTensor rank_a) ;;
      neg <- binary_op_wrapper _mul_dispatch (cast (lt_int axes 0) int32)
                               (PyTensor shifted) ;;
      axes <- binary_op_wrapper gen_math_ops.add pos (PyTensor neg) ;;
      all_axes <- range (PyTensor rank_a) None (PyInt 1) None ;;
      let free := array_ops.setdiff1d all_axes axes in
      let free_dims := array_ops.gather shape_a free in
      let axes_dims := array_ops.gather shape_a axes in
      prod_free_dims <- reduce_prod free_dims None false None ;;
      prod_axes_dims <- reduce_prod axes_dims None false None ;;
      (* the source first binds [perm] to a concat of the two gathered
         dimension vectors and overwrites it in both branches below *)
      _ <- array_ops.concat 0 [axes_dims; free_dims] ;;
      perm <- (if flipped then array_ops.concat 0 [axes; free]
               else array_ops.concat 0 [free; axes]) ;;
      let new_shape :=
        if flipped then array_ops.stack [prod_axes_dims; prod_free_dims]
        else array_ops.stack [prod_free_dims; prod_axes_dims] in
      let reshaped_a :=
        array_ops.reshape (array_ops.transpose a perm) new_shape in
      Ok (reshaped_a, SeqTensor free_dims)
  end.

Definition _tensordot_axes (a : Tensor) (axes : TensordotAxes)
  : Result (PySeq * PySeq) :=
  let int32 := dtypes.Plain dtypes.int32 in
  let a_shape := get_shape a in
  match axes with
  | AxesInt axes =>
      if axes <? 1 then Raise InvalidAxisCount
      else
        match ndims a_shape with
        | Some nd =>
            a_axes <- range (PyInt (nd - axes)) (Some (PyInt nd)) (PyInt 1) None ;;
            b_axes <- range (PyInt axes) None (PyInt 1) None ;;
            Ok (SeqTensor a_axes, SeqTensor b_axes)
        | None =>
            let rank := array_ops.rank a in
            lo <- binary_op_wrapper gen_math_ops.sub rank (PyInt axes) ;;
            a_axes <- array_ops_range (PyTensor lo) (Some (PyTensor rank)) int32 ;;
            b_axes <- array_ops_range (PyTensor rank) None int32 ;;
            Ok (SeqTensor a_axes, SeqTensor b_axes)
        end
  | AxesList axes =>
      match axes with
      | [a_axes; b_axes] =>
          if negb (len a_axes =? len b_axes) then Raise InvalidAxesLength
          else Ok (PyList a_axes, PyList b_axes)
      | _ => Raise InvalidAxesPair
      end
  | AxesTensor axes =>
      axes <- ops.convert_as axes int32 ;;
      Ok (SeqTensor (array_ops.getitem axes 0),
          SeqTensor (array_ops.getitem axes 1))
  end.

Definition tensordot (a b : Tensor) (axes : TensordotAxes) : Result Tensor :=
  let a := ops.convert_to_tensor a in
  let b := ops.convert_to_tensor b in
  '(a_axes, b_axes) <- _tensordot_axes a axes ;;
  '(a_reshape, a_free_dims) <- _tensordot_reshape a a_axes false ;;
  '(b_reshape, b_free_dims) <- _tensordot_reshape b b_axes true ;;
  ab_matmul <- matmul a_reshape b_reshape false false false false false false ;;
  match a_free_dims, b_free_dims with
  | PyList fa, PyList fb =>
      Ok (array_ops.reshape ab_matmul (ops.convert_list (fa ++ fb) None))
  | _, _ =>
      a_free_dims <- convert_seq a_free_dims None ;;
      b_free_dims <- convert_seq b_free_dims None ;;
      free_dims <- array_ops.concat 0 [a_free_dims; b_free_dims] ;;
      Ok (array_ops.reshape ab_matmul free_dims)
  end.

End math_ops.

(** ** Vocabulary of the specification *)

(** The three classes of dtypes the promotion rule speaks about. *)
Definition narrow_integer (k : dtypes.Kind) : bool :=
  dtypes.is_integer k && (dtypes.bits k <=? 16).

Definition wide_integer (k : dtypes.Kind) : bool :=
  dtypes.is_integer k && (32 <=? dtypes.bits k).

Definition floating_or_complex (k : dtypes.Kind) : bool :=
  dtypes.is_floating k || dtypes.is_complex k.

(** Both operands go through a conversion node to [target] and are then
    divided. *)
Definition promoted (x y : Tensor) (target : dtypes.Kind) : Result Tensor :=
  Ok (gen_math_ops._real_div (gen_math_ops.cast x (dtypes.Plain target))
                             (gen_math_ops.cast y (dtypes.Plain target))).

(** The operands are divided as they are. *)
Definition unpromoted (x y : Tensor) : Result Tensor :=
  Ok (gen_math_ops._real_div x y).

Definition result_dtype (r : Result Tensor) : option DType :=
  match r with
  | Ok t => Some (dtype t)
  | Raise _ => None
  end.

(** The promotion rule in the words of the specification: every
    floating-point or complex dtype is left alone. *)
Definition truediv_rule (floating_class : dtypes.Kind -> bool) : Prop :=
  forall (x y : Tensor) (k : dtypes.Kind),
    dtypes.base_dtype (dtype x) = dtypes.Plain k ->
    dtypes.base_dtype (dtype y) = dtypes.Plain k ->
    (narrow_integer k = true ->
       math_ops._truediv_python3 x y = promoted x y dtypes.float32) /\
    (wide_integer k = true ->
       math_ops._truediv_python3 x y = promoted x y dtypes.float64) /\
    (floating_class k = true ->
       math_ops._truediv_python3 x y = unpromoted x y /\
       result_dtype (math_ops._truediv_python3 x y) = Some (dtypes.Plain k)).

(** The floating-point and complex dtypes that have a table entry. *)
Definition floating_or_complex_in_table (k : dtypes.Kind) : bool :=
  floating_or_complex k && negb (dtypes.Kind_beq k dtypes.bfloat16).

(** A constant vector that counts [0, 1, ..., r-1] in increasing order. *)
Definition counts_up (c : NDArray) (r : Z) : Prop :=
  nd_shape c = [r] /\
  Z.of_nat (length (nd_data c)) = r /\
  forall i, 0 <= i < r -> znth i (nd_data c) = i.

(** Clamping into a closed interval: from below first, then from above. *)
Definition clamp (lo hi z : Z) : Z := Z.min (Z.max z lo) hi.

(** The two conditional clamping nodes of a saturating conversion, built in
    the dtype of the source: the bound is a constant of the source dtype,
    which holds it as that dtype can. *)
Definition clamp_low (value : Tensor) (vlo tlo : Z) : Tensor :=
  if vlo <? tlo
  then Node Maximum
         [value;
          Const (dtypes.base_dtype (dtype value))
                (scalar (dtypes.nearest (dtypes.kind_of (dtype value)) tlo))]
         (dtypes.base_dtype (dtype value))
         (broadcast_shape (get_shape value) (Some []))
  else value.

Definition clamp_high (value : Tensor) (vhi thi : Z) : Tensor :=
  if thi <? vhi
  then Node Minimum
         [value;
          Const (dtypes.base_dtype (dtype value))
                (scalar (dtypes.nearest (dtypes.kind_of (dtype value)) thi))]
         (dtypes.base_dtype (dtype value))
         (broadcast_shape (get_shape value) (Some []))
  else value.

(** What the two nodes do to one element of a source of kind [k]. *)
Definition clamp_rounded (k : dtypes.Kind) (vlo vhi tlo thi z : Z) : Z :=
  let z := if vlo <? tlo then Z.max z (dtypes.nearest k tlo) else z in
  if thi <? vhi then Z.min z (dtypes.nearest k thi) else z.

(** A kind holds an integer exactly. *)
Definition representable (k : dtypes.Kind) (z : Z) : Prop :=
  dtypes.nearest k z = z.

(** The value a graph yields: nothing when building it raised. *)
Definition run (env : string -> option NDArray) (r : Result Tensor)
  : option NDArray :=
  match r with
  | Ok t => eval env t
  | Raise _ => None
  end.

Definition no_feed : string -> option NDArray := fun _ => None.

Definition feed (name : string) (v : NDArray) : string -> option NDArray :=
  fun n => if String.eqb n name then Some v else None.

(** An operand whose rank is not known when the graph is built, and a feed
    that gives it a 2 x 3 value when the graph runs. *)
Definition unknown_rank_a : Tensor :=
  Placeholder "a" (dtypes.Plain dtypes.float32) unknown_shape.

Definition feed_a_2x3 : string -> option NDArray :=
  feed "a" (mkND [2; 3] [1; 2; 3; 4; 5; 6]).

(** ** The contraction plan, on lists

    What both branches of [_tensordot_reshape] compute for an operand of
    shape [sh] and contraction axes [ax]: the normalised axes, the free axes,
    the permutation and the two-dimensional target shape. *)
Definition normalise (r : Z) (ax : list Z) : list Z :=
  map (fun i => if 0 <=? i then i else i + r) ax.

Definition free_axes (r : Z) (ax : list Z) : list Z :=
  listdiff (xrange r) ax.

Definition dims_at (sh l : list Z) : list Z := map (fun i => znth i sh) l.

Definition plan_perm (sh ax : list Z) (flipped : bool) : list Z :=
  let ax := normalise (math_ops.len sh) ax in
  let free := free_axes (math_ops.len sh) ax in
  if flipped then ax ++ free else free ++ ax.

Definition plan_shape (sh ax : list Z) (flipped : bool) : list Z :=
  let ax := normalise (math_ops.len sh) ax in
  let free := free_axes (math_ops.len sh) ax in
  if flipped
  then [list_prod (dims_at sh ax); list_prod (dims_at sh free)]
  else [list_prod (dims_at sh free); list_prod (dims_at sh ax)].

Definition plan_free_dims (sh ax : list Z) : list Z :=
  dims_at sh (free_axes (math_ops.len sh) (normalise (math_ops.len sh) ax)).

(** The operand as a matrix: transposed by the permutation, then reshaped. *)
Definition plan_matrix (v : NDArray) (ax : list Z) (flipped : bool)
  : option NDArray :=
  t <~ transpose_nd v (plan_perm (nd_shape v) ax flipped) ;;
  reshape_nd t (plan_shape (nd_shape v) ax flipped).

(** The nodes of the deferred plan that [_tensordot_reshape] appends when
    the shape or the axes are only known at run time. *)
Definition deferred_axes (a axes : Tensor) : Tensor :=
  gen_math_ops.add
    (gen_math_ops.mul
       (math_ops.cast (math_ops.ge_int axes 0) (dtypes.Plain dtypes.int32))
       axes)
    (gen_math_ops.mul
       (math_ops.cast (math_ops.lt_int axes 0) (dtypes.Plain dtypes.int32))
       (gen_math_ops.add axes (array_ops.rank a))).

Definition deferred_free (a axes : Tensor) : Tensor :=
  array_ops.setdiff1d
    (gen_math_ops._range (ops.convert_int 0 None) (array_ops.rank a)
                         (ops.convert_int 1 None))
    (deferred_axes a axes).

Definition deferred_free_dims (a axes : Tensor) : Tensor :=
  array_ops.gather (array_ops.shape a) (deferred_free a axes).

Definition deferred_axes_dims (a axes : Tensor) : Tensor :=
  array_ops.gather (array_ops.shape a) (deferred_axes a axes).

Definition deferred_prod (dims : Tensor) : Tensor :=
  gen_math_ops._prod dims (math_ops.arange_constant 1) false.

Definition deferred_perm (a axes : Tensor) (flipped : bool) : Tensor :=
  if flipped
  then array_ops.concat_node 0 [deferred_axes a axes; deferred_free a axes]
  else array_ops.concat_node 0 [deferred_free a axes; deferred_axes a axes].

Definition deferred_shape (a axes : Tensor) (flipped : bool) : Tensor :=
  if flipped
  then array_ops.stack [deferred_prod (deferred_axes_dims a axes);
                        deferred_prod (deferred_free_dims a axes)]
  else array_ops.stack [deferred_prod (deferred_free_dims a axes);
                        deferred_prod (deferred_axes_dims a axes)].

Definition deferred_matrix (a axes : Tensor) (flipped : bool) : Tensor :=
  array_ops.reshape (array_ops.transpose a (deferred_perm a axes flipped))
                    (deferred_shape a axes flipped).

(** The nodes of the plan computed on integers when the graph is built. *)
Definition static_matrix (a : Tensor) (ax : list Z) (flipped : bool) : Tensor :=
  let sh := as_list (get_shape a) in
  array_ops.reshape
    (array_ops.transpose a (ops.convert_list (plan_perm sh ax flipped) None))
    (ops.convert_list (plan_shape sh ax flipped) None).

(** The node [matmul] builds for two matrices with all flags off. *)
Definition matrix_product_node (x y : Tensor) : Tensor :=
  if math_ops.dtype_in (dtypes.Plain dtypes.bfloat16) [dtype x; dtype y]
  then gen_math_ops._sparse_mat_mul x y false false false false
  else gen_math_ops._mat_mul x y false false.

(** What the plan of [tensordot] computes on two values and the axes [la]
    of the first and [lb] of the second: both operands as matrices, their
    product, and the product reshaped to the free dimensions of the first
    followed by those of the second.  It is the name of this computation in
    the lemmas that follow the code through its two branches, not a
    definition of contraction: the plan only compares the products of the
    contracted dimensions, not the dimensions pair by pair. *)
Definition contraction (va vb : NDArray) (la lb : list Z) : option NDArray :=
  ma <~ plan_matrix va la false ;;
  mb <~ plan_matrix vb lb true ;;
  ab <~ matmul_nd ma mb ;;
  reshape_nd ab (plan_free_dims (nd_shape va) la ++ plan_free_dims (nd_shape vb) lb).

(** The axes an integer [n] stands for on an operand of rank [r]. *)
Definition last_axes (r n : Z) : list Z := zrange (r - n) r.

Definition first_axes (n : Z) : list Z := zrange 0 n.

Definition range_node (start limit : Z) : Tensor :=
  gen_math_ops._range (ops.convert_int start None) (ops.convert_int limit None)
                      (ops.convert_int 1 None).

(** The operands of the worked example: [[1,2,3],[4,5,6]] and
    [[7,8],[9,10],[11,12]]. *)
Definition A_example : Tensor :=
  Const (dtypes.Plain dtypes.int32) (mkND [2; 3] [1; 2; 3; 4; 5; 6]).

Definition B_example : Tensor :=
  Const (dtypes.Plain dtypes.int32) (mkND [3; 2] [7; 8; 9; 10; 11; 12]).

(** A rank-3 left operand [[[1,2],[3,4]]] and a right operand [[1],[0]]. *)
Definition A_rank3 : Tensor :=
  Const (dtypes.Plain dtypes.int32) (mkND [1; 2; 2] [1; 2; 3; 4]).

Definition B_column : Tensor :=
  Const (dtypes.Plain dtypes.int32) (mkND [2; 1] [1; 0]).

(** The identity on equal dtypes in the words of the specification: for
    every tensor whose dtype already is the target dtype, [cast] returns the
    tensor itself and [saturate_cast] is the identity. *)
Definition same_dtype_identity : Prop :=
  forall (x : Tensor) (d : DType),
    dtypes.base_dtype (dtype x) = dtypes.base_dtype d ->
    math_ops.cast x d = x /\ math_ops.saturate_cast x d = Ok x.

(** The two ways of asking for the contraction of axis 1 of the first
    operand with axis 0 of the second agree on every pair of operands. *)
Definition axes_forms_agree : Prop :=
  forall (env : string -> option NDArray) (a b : Tensor),
    run env (math_ops.tensordot a b (AxesList [[1]; [0]]))
    = run env (math_ops.tensordot a b (AxesInt 1)).

(** The two range nodes the integer form builds when the rank of [a] is not
    known statically. *)
Definition runtime_a_axes (a : Tensor) (n : Z) : Tensor :=
  gen_math_ops._range
    (gen_math_ops.sub (array_ops.rank a)
       (ops.convert_int n (Some (dtypes.Plain dtypes.int32))))
    (array_ops.rank a)
    (ops.convert_int 1 (Some (dtypes.Plain dtypes.int32))).

Definition runtime_b_axes (a : Tensor) : Tensor :=
  gen_math_ops._range
    (ops.convert_int 0 (Some (dtypes.Plain dtypes.int32)))
    (array_ops.rank a)
    (ops.convert_int 1 (Some (dtypes.Plain dtypes.int32))).

(** The free dimensions of the two operands can be joined: two lists, two
    tensors, or a tensor and a list that is not empty (an empty list is
    converted to a [float32] constant, which the engine does not join with
    an [int32] tensor). *)
Definition free_dims_join (a b : Tensor) (fa fb : list Z) : Prop :=
  is_fully_defined (get_shape a) = is_fully_defined (get_shape b) \/
  (is_fully_defined (get_shape a) = true /\ fa <> []) \/
  (is_fully_defined (get_shape b) = true /\ fb <> []).

(** ** More functions of [math_ops.py] *)

(** The named conversions: each is [cast] to a fixed dtype. *)
Definition to_float (x : Tensor) : Tensor :=
  math_ops.cast x (dtypes.Plain dtypes.float32).

Definition to_double (x : Tensor) : Tensor :=
  math_ops.cast x (dtypes.Plain dtypes.float64).

Definition to_int32 (x : Tensor) : Tensor :=
  math_ops.cast x (dtypes.Plain dtypes.int32).

Definition to_int64 (x : Tensor) : Tensor :=
  math_ops.cast x (dtypes.Plain dtypes.int64).

Definition to_bfloat16 (x : Tensor) : Tensor :=
  math_ops.cast x (dtypes.Plain dtypes.bfloat16).

(** [x / y] on a tensor [x]: the wrapper that [_OverrideBinaryOperatorHelper]
    installs for ["truediv"] converts [y] to the base dtype of [x] and calls
    [_truediv_python3]. *)
Definition truediv_operator (x : Tensor) (y : PyArg) : Result Tensor :=
  y <- convert_arg y (Some (dtypes.base_dtype (dtype x))) ;;
  math_ops._truediv_python3 x y.

(** [divide(x, y)] is [x / y]. *)
Definition divide (x : Tensor) (y : PyArg) : Result Tensor :=
  truediv_operator x y.

(** The dtypes [range] infers among, lowest first. *)
Definition dtype_hierarchy : list DType :=
  [dtypes.Plain dtypes.int32; dtypes.Plain dtypes.int64;
   dtypes.Plain dtypes.float32; dtypes.Plain dtypes.float64].

Definition hierarchy_level (d : DType) : Z :=
  math_ops.list_index d dtype_hierarchy.

(** A real numeric dtype, integer or floating-point: [conj] leaves a tensor
    of such a dtype as it is. *)
Definition is_real_numeric (d : DType) : bool :=
  negb (dtypes.is_complex (dtypes.kind_of d))
  && (dtypes.is_floating (dtypes.kind_of d)
      || dtypes.is_integer (dtypes.kind_of d)).

Definition raises {A : Type} (r : Result A) : bool :=
  match r with
  | Ok _ => false
  | Raise _ => true
  end.

(** * Properties *)

(** ** Equality of dtypes *)

Lemma Kind_beq_refl (k : dtypes.Kind) : dtypes.Kind_beq k k = true.
Proof. destruct k; reflexivity. Qed.

Lemma Kind_beq_eq (k1 k2 : dtypes.Kind) :
  dtypes.Kind_beq k1 k2 = true <-> k1 = k2.
Proof.
  split.
  - destruct k1, k2; simpl; intro H; try reflexivity; discriminate H.
  - intros ->. apply Kind_beq_refl.
Qed.

Lemma dtype_eqb_eq (d1 d2 : DType) : dtypes.eqb d1 d2 = true <-> d1 = d2.
Proof.
  destruct d1 as [k1|k1], d2 as [k2|k2]; simpl;
    rewrite ?Kind_beq_eq; split; intro H;
    try discriminate H; try (inversion H; subst; reflexivity);
    try (f_equal; assumption).
Qed.

Lemma dtype_eqb_refl (d : DType) : dtypes.eqb d d = true.
Proof. apply dtype_eqb_eq. reflexivity. Qed.

Lemma dtype_eqb_neq (d1 d2 : DType) : dtypes.eqb d1 d2 = false <-> d1 <> d2.
Proof.
  split.
  - intros H E. apply dtype_eqb_eq in E. congruence.
  - intro N. destruct (dtypes.eqb d1 d2) eqn:E; [|reflexivity].
    apply dtype_eqb_eq in E. contradiction.
Qed.

Lemma base_dtype_idem (d : DType) :
  dtypes.base_dtype (dtypes.base_dtype d) = dtypes.base_dtype d.
Proof. destruct d; reflexivity. Qed.

(** ** [cast] *)

Lemma cast_same_base (x : Tensor) (d : DType) :
  dtypes.base_dtype (dtype x) = dtypes.base_dtype d ->
  math_ops.cast x d = x.
Proof.
  intro H. unfold math_ops.cast, ops.convert_to_tensor, dtypes.as_dtype.
  rewrite H, dtype_eqb_refl. reflexivity.
Qed.

(** ** True division *)

Lemma truediv_same_dtype (x y : Tensor) (k : dtypes.Kind) :
  dtypes.base_dtype (dtype x) = dtypes.Plain k ->
  dtypes.base_dtype (dtype y) = dtypes.Plain k ->
  math_ops._truediv_python3 x y =
  match math_ops.table_get math_ops._TRUEDIV_TABLE (dtypes.Plain k) with
  | None => Raise UnsupportedType
  | Some (Some d) =>
      Ok (gen_math_ops._real_div (math_ops.cast x d) (math_ops.cast y d))
  | Some None => Ok (gen_math_ops._real_div x y)
  end.
Proof.
  intros Hx Hy. unfold math_ops._truediv_python3, ops.convert_to_tensor.
  rewrite Hx, Hy, dtype_eqb_refl. reflexivity.
Qed.

Ltac absurd_class :=
  match goal with
  | H : false = true |- _ => discriminate H
  end.

(** C3 (as stated, refuted).  [bfloat16] is a floating-point dtype, but the
    conversion table has no entry for it: true division of two [bfloat16]
    operands raises instead of dividing them unchanged. *)
Lemma truediv_rule_fails_on_bfloat16 : ~ truediv_rule floating_or_complex.
Proof.
  intro H.
  pose (x := Placeholder "x" (dtypes.Plain dtypes.bfloat16) unknown_shape).
  destruct (H x x dtypes.bfloat16 eq_refl eq_refl) as (_ & _ & Hfloat).
  destruct (Hfloat eq_refl) as [Hdiv _].
  discriminate Hdiv.
Qed.

(** C3 (amended).  For two operands of the same dtype: an 8- or 16-bit
    integer dtype promotes both operands to [float32] before the division, a
    32- or 64-bit integer dtype promotes both to [float64], and a
    floating-point or complex dtype other than [bfloat16] is divided without
    promotion and keeps its dtype. *)
Theorem truediv_promotion : truediv_rule floating_or_complex_in_table.
Proof.
  intros x y k Hx Hy.
  rewrite (truediv_same_dtype x y k Hx Hy).
  unfold promoted, unpromoted, math_ops.cast, ops.convert_to_tensor,
    dtypes.as_dtype.
  rewrite Hx, Hy.
  destruct k; cbn; rewrite ?Hx; repeat split; intros; try absurd_class;
    reflexivity.
Qed.

Lemma truediv_promotion_witness :
  math_ops._truediv_python3
    (Placeholder "x" (dtypes.Plain dtypes.int16) unknown_shape)
    (Placeholder "y" (dtypes.Plain dtypes.int16) unknown_shape)
  = promoted (Placeholder "x" (dtypes.Plain dtypes.int16) unknown_shape)
             (Placeholder "y" (dtypes.Plain dtypes.int16) unknown_shape)
             dtypes.float32.
Proof.
  apply (truediv_promotion
           (Placeholder "x" (dtypes.Plain dtypes.int16) unknown_shape)
           (Placeholder "y" (dtypes.Plain dtypes.int16) unknown_shape)
           dtypes.int16); reflexivity.
Defined.

(** C8.  True division raises [TypeMismatch] whenever the base dtypes of
    the two operands differ, raises [UnsupportedType] whenever their common
    dtype has no entry in the conversion table, and returns a node for every
    pair of equal dtypes that the table lists. *)
Theorem truediv_errors (x y : Tensor) :
  (dtypes.base_dtype (dtype x) <> dtypes.base_dtype (dtype y) ->
     math_ops._truediv_python3 x y = Raise TypeMismatch) /\
  (dtypes.base_dtype (dtype x) = dtypes.base_dtype (dtype y) ->
     math_ops.table_get math_ops._TRUEDIV_TABLE (dtypes.base_dtype (dtype x)) = None ->
     math_ops._truediv_python3 x y = Raise UnsupportedType) /\
  (dtypes.base_dtype (dtype x) = dtypes.base_dtype (dtype y) ->
     math_ops.table_get math_ops._TRUEDIV_TABLE (dtypes.base_dtype (dtype x)) <> None ->
     exists t, math_ops._truediv_python3 x y = Ok t).
Proof.
  unfold math_ops._truediv_python3, ops.convert_to_tensor.
  split; [|split].
  - intro Hne. apply dtype_eqb_neq in Hne. rewrite Hne. reflexivity.
  - intros Heq Hnone. rewrite <- Heq, dtype_eqb_refl, Hnone. reflexivity.
  - intros Heq Hsome. rewrite <- Heq, dtype_eqb_refl. cbv beta iota zeta delta [negb].
    destruct (math_ops.table_get _ _) as [[d|]|];
      [eexists; reflexivity | eexists; reflexivity
      | exfalso; apply Hsome; reflexivity].
Qed.

Lemma truediv_errors_witness :
  math_ops._truediv_python3
    (Placeholder "x" (dtypes.Plain dtypes.int32) unknown_shape)
    (Placeholder "y" (dtypes.Plain dtypes.float32) unknown_shape)
  = Raise TypeMismatch
  /\ math_ops._truediv_python3
       (Placeholder "x" (dtypes.Plain dtypes.dt_bool) unknown_shape)
       (Placeholder "y" (dtypes.Plain dtypes.dt_bool) unknown_shape)
     = Raise UnsupportedType
  /\ exists t,
       math_ops._truediv_python3
         (Placeholder "x" (dtypes.Plain dtypes.int64) unknown_shape)
         (Placeholder "y" (dtypes.Plain dtypes.int64) unknown_shape)
       = Ok t.
Proof.
  split; [|split].
  - apply (truediv_errors
             (Placeholder "x" (dtypes.Plain dtypes.int32) unknown_shape)
             (Placeholder "y" (dtypes.Plain dtypes.float32) unknown_shape)).
    simpl. discriminate.
  - apply (truediv_errors
             (Placeholder "x" (dtypes.Plain dtypes.dt_bool) unknown_shape)
             (Placeholder "y" (dtypes.Plain dtypes.dt_bool) unknown_shape));
      reflexivity.
  - apply (truediv_errors
             (Placeholder "x" (dtypes.Plain dtypes.int64) unknown_shape)
             (Placeholder "y" (dtypes.Plain dtypes.int64) unknown_shape)).
    + reflexivity.
    + simpl. discriminate.
Defined.

(** ** The reduction-axis resolver *)

Lemma zrange_length (lo hi : Z) :
  length (zrange lo hi) = Z.to_nat (hi - lo).
Proof. unfold zrange. now rewrite length_map, length_seq. Qed.

Lemma znth_zrange (lo hi i : Z) :
  0 <= i < hi - lo -> znth i (zrange lo hi) = lo + i.
Proof.
  intros Hi. unfold znth, zrange.
  rewrite (nth_indep _ 0 (lo + Z.of_nat 0)) by (rewrite length_map, length_seq; lia).
  rewrite (map_nth (fun k => lo + Z.of_nat k)), seq_nth by lia.
  simpl. lia.
Qed.

Lemma xrange_counts_up (r : Z) : 0 <= r -> counts_up (vector (xrange r)) r.
Proof.
  intro Hr. unfold counts_up, vector, xrange. simpl.
  rewrite zrange_length, Z.sub_0_r, Z2Nat.id by assumption.
  repeat split; trivial.
  intros i Hi. rewrite znth_zrange; lia.
Qed.

(** C9.  Whenever both the axis and the legacy reduction-indices parameter
    are supplied, the resolver raises [ConflictingArguments], whatever the
    two values are; and it raises it in no other case. *)
Theorem reduction_dims_conflict :
  (forall (x : TensorLike) (axis reduction_indices : AxisArg),
      math_ops._ReductionDims x (Some axis) (Some reduction_indices)
      = Raise ConflictingArguments) /\
  (forall (x : TensorLike) (axis reduction_indices : option AxisArg),
      math_ops._ReductionDims x axis reduction_indices
      = Raise ConflictingArguments ->
      axis <> None /\ reduction_indices <> None).
Proof.
  split; [reflexivity|].
  intros x [ax|] [ri|] H.
  - split; discriminate.
  - discriminate H.
  - discriminate H.
  - exfalso. unfold math_ops._ReductionDims in H. cbn [bind] in H.
    destruct x as [t|s].
    + destruct (ndims (get_shape t)); discriminate H.
    + destruct (is_fully_defined (get_shape (dense_shape s)));
        [destruct (get_shape (dense_shape s)) as [[|[rank|] dims]|]|];
        discriminate H.
Qed.

Lemma reduction_dims_conflict_witness :
  Some (AxisInt 0) <> None /\ Some (AxisList [0]) <> None.
Proof.
  apply (proj2 reduction_dims_conflict
           (Dense (Placeholder "x" (dtypes.Plain dtypes.float32) unknown_shape))
           (Some (AxisInt 0)) (Some (AxisList [0]))).
  reflexivity.
Defined.

(** C5.  With no axis given, a tensor of statically known rank [r] (dense,
    or sparse with a [dense_shape] of known length [r]) resolves to the
    [int32] constant [0, 1, ..., r-1] in increasing order; an axis given
    without the legacy parameter is returned unchanged. *)
Theorem reduction_dims_default :
  (forall (t : Tensor) (r : Z),
      ndims (get_shape t) = Some r ->
      exists c,
        math_ops._ReductionDims (Dense t) None None
        = Ok (AxisTensor (Const (dtypes.Plain dtypes.int32) c))
        /\ counts_up c r) /\
  (forall (s : SparseTensor) (r : Z),
      0 <= r ->
      get_shape (dense_shape s) = Some [Some r] ->
      exists c,
        math_ops._ReductionDims (Sparse s) None None
        = Ok (AxisTensor (Const (dtypes.Plain dtypes.int32) c))
        /\ counts_up c r) /\
  (forall (x : TensorLike) (axis : AxisArg),
      math_ops._ReductionDims x (Some axis) None = Ok axis).
Proof.
  split; [|split].
  - intros t r Hr. exists (vector (xrange r)). split.
    + unfold math_ops._ReductionDims. simpl. rewrite Hr. reflexivity.
    + apply xrange_counts_up.
      destruct (get_shape t); simpl in Hr; [|discriminate].
      injection Hr as <-. lia.
  - intros s r Hr Hs. exists (vector (xrange r)). split.
    + unfold math_ops._ReductionDims. simpl. rewrite Hs. reflexivity.
    + now apply xrange_counts_up.
  - reflexivity.
Qed.

Lemma reduction_dims_default_witness :
  exists c,
    math_ops._ReductionDims
      (Dense (Placeholder "x" (dtypes.Plain dtypes.float32)
                (Some [None; Some 4; None]))) None None
    = Ok (AxisTensor (Const (dtypes.Plain dtypes.int32) c))
    /\ counts_up c 3.
Proof.
  apply (proj1 reduction_dims_default
           (Placeholder "x" (dtypes.Plain dtypes.float32)
              (Some [None; Some 4; None])) 3).
  reflexivity.
Defined.

(** ** [cast] and [saturate_cast] on an unchanged dtype *)

Lemma kind_of_base (d1 d2 : DType) :
  dtypes.base_dtype d1 = dtypes.base_dtype d2 ->
  dtypes.kind_of d1 = dtypes.kind_of d2.
Proof. unfold dtypes.base_dtype. congruence. Qed.

Lemma min_of_limits (d : DType) (lo hi : Z) :
  dtypes.limits (dtypes.kind_of d) = Some (lo, hi) -> dtypes.min d = Ok lo.
Proof. unfold dtypes.min. now intros ->. Qed.

Lemma max_of_limits (d : DType) (lo hi : Z) :
  dtypes.limits (dtypes.kind_of d) = Some (lo, hi) -> dtypes.max d = Ok hi.
Proof. unfold dtypes.max. now intros ->. Qed.

(** C10 (as stated, refuted).  A complex tensor saturate-cast to its own
    dtype is not returned: a complex dtype has no minimum, and
    [saturate_cast] raises on asking for it. *)
Lemma saturate_cast_raises_without_bounds : ~ same_dtype_identity.
Proof.
  intro H.
  destruct (H (Placeholder "x" (dtypes.Plain dtypes.complex64) unknown_shape)
              (dtypes.Plain dtypes.complex64) eq_refl) as [_ Hsat].
  discriminate Hsat.
Qed.

(** C10 (amended).  When the dtype of [x] already has the base dtype asked
    for, [cast] returns [x] itself; for a dtype that has bounds,
    [saturate_cast] then returns [x] itself as well: both range tests are
    strict, so no clamp and no conversion node is built; and for a dtype
    without bounds [saturate_cast] raises [TypeError]. *)
Theorem cast_same_dtype_identity (x : Tensor) (d : DType) :
  dtypes.base_dtype (dtype x) = dtypes.base_dtype d ->
  math_ops.cast x d = x /\
  (forall lo hi,
      dtypes.limits (dtypes.kind_of d) = Some (lo, hi) ->
      math_ops.saturate_cast x d = Ok x) /\
  (dtypes.limits (dtypes.kind_of d) = None ->
   math_ops.saturate_cast x d
   = Raise (TypeError "Cannot find minimum value of %s.")).
Proof.
  intro Hbase. split; [|split].
  - now apply cast_same_base.
  - intros lo hi Hlim.
    assert (Hx : dtypes.limits (dtypes.kind_of (dtype x)) = Some (lo, hi))
      by (rewrite (kind_of_base _ _ Hbase); exact Hlim).
    unfold math_ops.saturate_cast, ops.convert_to_tensor, dtypes.as_dtype.
    rewrite (min_of_limits _ _ _ Hx). simpl.
    rewrite (min_of_limits (dtypes.base_dtype d) lo hi) by exact Hlim. simpl.
    rewrite Z.ltb_irrefl.
    rewrite (max_of_limits _ _ _ Hx). simpl.
    rewrite (max_of_limits (dtypes.base_dtype d) lo hi) by exact Hlim. simpl.
    rewrite Z.ltb_irrefl.
    f_equal. apply cast_same_base. now rewrite base_dtype_idem.
  - intro Hnone.
    assert (Hx : dtypes.limits (dtypes.kind_of (dtype x)) = None)
      by (rewrite (kind_of_base _ _ Hbase); exact Hnone).
    unfold math_ops.saturate_cast, ops.convert_to_tensor, dtypes.min.
    now rewrite Hx.
Qed.

Lemma cast_same_dtype_identity_witness :
  math_ops.cast (Placeholder "v" (dtypes.Ref dtypes.int16) unknown_shape)
                (dtypes.Plain dtypes.int16)
  = Placeholder "v" (dtypes.Ref dtypes.int16) unknown_shape
  /\ math_ops.saturate_cast
       (Placeholder "v" (dtypes.Ref dtypes.int16) unknown_shape)
       (dtypes.Plain dtypes.int16)
     = Ok (Placeholder "v" (dtypes.Ref dtypes.int16) unknown_shape).
Proof.
  destruct (cast_same_dtype_identity
              (Placeholder "v" (dtypes.Ref dtypes.int16) unknown_shape)
              (dtypes.Plain dtypes.int16) eq_refl) as (Hcast & Hsat & _).
  split.
  - exact Hcast.
  - exact (Hsat (-32768) 32767 eq_refl).
Defined.

(** ** Axis normalisation of [tensordot] *)

Lemma range_values_unit_step (start limit : Z) :
  range_values start limit 1 = Some (zrange start limit).
Proof.
  unfold range_values, xrange, zrange. simpl.
  rewrite Z.div_1_r, map_map.
  replace (limit - start + 1 - 1 - 0) with (limit - start) by lia.
  f_equal. apply map_ext. intro i. lia.
Qed.

Lemma eval_range_of_ints (env : string -> option NDArray) (start : Z)
    (limit : option Z) :
  exists t,
    math_ops.range (PyInt start) (option_map PyInt limit) (PyInt 1) None = Ok t
    /\ eval env t
       = Some (vector (match limit with
                       | Some l => zrange start l
                       | None => zrange 0 start
                       end)).
Proof.
  destruct limit as [l|]; eexists; (split; [reflexivity|]);
    cbn -[range_values zrange]; rewrite range_values_unit_step; reflexivity.
Qed.

(** With a statically known rank, the integer form [N >= 1] yields the last
    [N] axes of [a] and the first [N] axes of [b]. *)
Lemma tensordot_axes_known_rank (env : string -> option NDArray)
    (a : Tensor) (r n : Z) :
  ndims (get_shape a) = Some r ->
  1 <= n ->
  exists ta tb,
    math_ops._tensordot_axes a (AxesInt n) = Ok (SeqTensor ta, SeqTensor tb)
    /\ eval env ta = Some (vector (zrange (r - n) r))
    /\ eval env tb = Some (vector (zrange 0 n)).
Proof.
  intros Hr Hn. unfold math_ops._tensordot_axes.
  replace (n <? 1) with false by (symmetry; apply Z.ltb_ge; lia).
  rewrite Hr.
  destruct (eval_range_of_ints env (r - n) (Some r)) as (ta & Ea & Va).
  destruct (eval_range_of_ints env n None) as (tb & Eb & Vb).
  simpl option_map in Ea, Eb. rewrite Ea, Eb.
  exists ta, tb. auto.
Qed.

(** C2 (the code departs from the claim).  When the rank of [a] is only
    known at run time, the axes computed for [b] are [0 .. rank_a - 1] and
    not [0 .. N-1]: for a 2 x 3 operand and [N = 1] they are [0, 1]. *)
Theorem tensordot_axes_unknown_rank :
  exists ta tb,
    math_ops._tensordot_axes unknown_rank_a (AxesInt 1)
    = Ok (SeqTensor ta, SeqTensor tb)
    /\ eval feed_a_2x3 ta = Some (vector [1])
    /\ eval feed_a_2x3 tb = Some (vector [0; 1])
    /\ zrange 0 1 = [0].
Proof.
  do 2 eexists. split; [reflexivity|].
  repeat split; vm_compute; reflexivity.
Qed.

(** ** Saturating conversion *)

Lemma wrap_in_range (lo hi z : Z) : lo <= z <= hi -> wrap lo hi z = z.
Proof.
  intro H. unfold wrap. rewrite Z.mod_small by lia. lia.
Qed.

Lemma integer_limits_ordered (k : dtypes.Kind) (lo hi : Z) :
  dtypes.is_integer k = true ->
  dtypes.limits k = Some (lo, hi) ->
  lo <= hi.
Proof.
  intros Hint Hlim.
  destruct k; try discriminate Hint;
    injection Hlim as <- <-; apply Z.leb_le; reflexivity.
Qed.

Lemma map_opt_total {A B : Type} (f : A -> option B) (g : A -> B) (l : list A) :
  (forall x, In x l -> f x = Some (g x)) ->
  map_opt f l = Some (map g l).
Proof.
  induction l as [|x l IH]; intro H; simpl.
  - reflexivity.
  - rewrite (H x (or_introl eq_refl)), IH; [reflexivity|].
    intros y Hy. apply H. now right.
Qed.

Lemma clamp_bounds (lo hi z : Z) : lo <= hi -> lo <= clamp lo hi z <= hi.
Proof. unfold clamp. lia. Qed.

Lemma wrap_bounds (lo hi z : Z) : lo <= hi -> lo <= wrap lo hi z <= hi.
Proof.
  intro H. unfold wrap.
  pose proof (Z.mod_pos_bound (z - lo) (hi - lo + 1) ltac:(lia)). lia.
Qed.

Lemma nearest_zero (k : dtypes.Kind) : dtypes.nearest k 0 = 0.
Proof. destruct k; reflexivity. Qed.

Lemma integer_representable (k : dtypes.Kind) (z : Z) :
  dtypes.is_integer k = true -> representable k z.
Proof. destruct k; try discriminate; reflexivity. Qed.

Lemma clamp_rounded_exact (k : dtypes.Kind) (vlo vhi tlo thi z : Z) :
  tlo <= thi ->
  vlo <= z <= vhi ->
  (vlo < tlo -> representable k tlo) ->
  (thi < vhi -> representable k thi) ->
  clamp_rounded k vlo vhi tlo thi z = clamp tlo thi z.
Proof.
  intros Hord Hz Hlo Hhi. unfold clamp_rounded, clamp, representable in *.
  destruct (vlo <? tlo) eqn:E1; destruct (thi <? vhi) eqn:E2;
    try apply Z.ltb_lt in E1; try apply Z.ltb_ge in E1;
    try apply Z.ltb_lt in E2; try apply Z.ltb_ge in E2;
    rewrite ?Hlo, ?Hhi by assumption; lia.
Qed.

Lemma clamp_rounded_keeps (k : dtypes.Kind) (vlo vhi tlo thi z : Z) :
  dtypes.nearest k tlo <= tlo ->
  thi <= dtypes.nearest k thi ->
  tlo <= z <= thi ->
  clamp_rounded k vlo vhi tlo thi z = z.
Proof.
  intros Hlo Hhi Hz. unfold clamp_rounded.
  destruct (vlo <? tlo); destruct (thi <? vhi); lia.
Qed.

(** A bound of an integer kind, held by any kind that has bounds, is never
    tighter than the bound itself. *)
Lemma bounds_never_tighter (ks kt : dtypes.Kind) (vlo vhi tlo thi : Z) :
  dtypes.limits ks = Some (vlo, vhi) ->
  dtypes.is_integer kt = true ->
  dtypes.limits kt = Some (tlo, thi) ->
  dtypes.nearest ks tlo <= tlo /\ thi <= dtypes.nearest ks thi.
Proof.
  intros Hs Hint Ht.
  destruct kt; try discriminate Hint; injection Ht as <- <-;
    destruct ks; try discriminate Hs; clear Hs;
    split; apply Z.leb_le; vm_compute; reflexivity.
Qed.

Lemma nd_wf_scalar (c : Z) : nd_wf (scalar c) = true.
Proof. reflexivity. Qed.

Section SaturateCast.

Variable env : string -> option NDArray.
Variables (value : Tensor) (arr : NDArray).
Variables vlo vhi tlo thi : Z.

Hypothesis value_runs : eval env value = Some arr.

Lemma dtype_clamp_low :
  dtypes.kind_of (dtype (clamp_low value vlo tlo)) = dtypes.kind_of (dtype value).
Proof. unfold clamp_low. destruct (vlo <? tlo); reflexivity. Qed.

Lemma eval_clamp_low :
  eval env (clamp_low value vlo tlo)
  = Some (mkND (nd_shape arr)
            (map (fun z => if vlo <? tlo
                           then Z.max z (dtypes.nearest
                                           (dtypes.kind_of (dtype value)) tlo)
                           else z)
                 (nd_data arr))).
Proof.
  unfold clamp_low. destruct (vlo <? tlo).
  - cbn [eval map_opt obind]. rewrite value_runs, nd_wf_scalar. reflexivity.
  - rewrite value_runs, map_id. now destruct arr.
Qed.

Lemma eval_clamp_high :
  eval env (clamp_high (clamp_low value vlo tlo) vhi thi)
  = Some (mkND (nd_shape arr)
            (map (clamp_rounded (dtypes.kind_of (dtype value)) vlo vhi tlo thi)
                 (nd_data arr))).
Proof.
  unfold clamp_high, clamp_rounded. rewrite dtype_clamp_low.
  destruct (thi <? vhi).
  - cbn [eval map_opt obind]. fold (eval env (clamp_low value vlo tlo)).
    rewrite eval_clamp_low, nd_wf_scalar.
    cbn [obind kernel ew2 as_scalar scalar nd_shape nd_data].
    now rewrite map_map.
  - exact eval_clamp_low.
Qed.

End SaturateCast.

Lemma dtype_clamp_high (value : Tensor) (vhi thi : Z) :
  dtypes.kind_of (dtype (clamp_high value vhi thi)) = dtypes.kind_of (dtype value).
Proof. unfold clamp_high. destruct (thi <? vhi); reflexivity. Qed.

(** The nodes [saturate_cast] builds: the lower clamp, then the upper clamp,
    both in the dtype of the source, then the conversion. *)
Lemma saturate_cast_nodes (value : Tensor) (d : DType) (vlo vhi tlo thi : Z) :
  dtypes.limits (dtypes.kind_of (dtype value)) = Some (vlo, vhi) ->
  dtypes.limits (dtypes.kind_of d) = Some (tlo, thi) ->
  math_ops.saturate_cast value d
  = Ok (math_ops.cast (clamp_high (clamp_low value vlo tlo) vhi thi)
                      (dtypes.base_dtype d)).
Proof.
  intros Hv Ht.
  unfold math_ops.saturate_cast, ops.convert_to_tensor, dtypes.as_dtype.
  rewrite (min_of_limits _ _ _ Hv). simpl bind.
  rewrite (min_of_limits (dtypes.base_dtype d) tlo thi Ht). simpl bind.
  change (if vlo <? tlo
          then gen_math_ops.maximum value
                 (ops.convert_int tlo (Some (dtype value)))
          else value) with (clamp_low value vlo tlo).
  assert (Hl : dtypes.limits
                 (dtypes.kind_of (dtype (clamp_low value vlo tlo)))
               = Some (vlo, vhi)) by (now rewrite dtype_clamp_low).
  rewrite (max_of_limits _ _ _ Hl). simpl bind.
  rewrite (max_of_limits (dtypes.base_dtype d) tlo thi Ht). simpl bind.
  unfold clamp_high at 1.
  destruct (thi <? vhi); reflexivity.
Qed.

(** On integer kinds the conversion of a value in range does not wrap. *)
Lemma eval_cast_in_range (env : string -> option NDArray) (t : Tensor)
    (d : DType) (lo hi : Z) (sh data : list Z) :
  dtypes.is_integer (dtypes.kind_of d) = true ->
  dtypes.limits (dtypes.kind_of d) = Some (lo, hi) ->
  eval env t = Some (mkND sh data) ->
  Forall (fun z => lo <= z <= hi) data ->
  eval env (math_ops.cast t d) = Some (mkND sh data).
Proof.
  intros Hint Hlim Ht Hin.
  unfold math_ops.cast, ops.convert_to_tensor, dtypes.as_dtype.
  destruct (dtypes.eqb _ _); [exact Ht|].
  cbn -[cast_value]. rewrite Ht. cbn -[cast_value].
  rewrite (map_opt_total _ (fun z => z)).
  - now rewrite map_id.
  - intros z Hz. unfold cast_value. rewrite Hint, Hlim.
    rewrite Forall_forall in Hin. now rewrite wrap_in_range by auto.
Qed.

(** Converting to an integer kind from another dtype wraps around. *)
Lemma eval_cast_wraps (env : string -> option NDArray) (t : Tensor)
    (d : DType) (lo hi : Z) (sh data : list Z) :
  dtypes.is_integer (dtypes.kind_of d) = true ->
  dtypes.limits (dtypes.kind_of d) = Some (lo, hi) ->
  dtypes.base_dtype (dtype t) <> dtypes.base_dtype d ->
  eval env t = Some (mkND sh data) ->
  eval env (math_ops.cast t d) = Some (mkND sh (map (wrap lo hi) data)).
Proof.
  intros Hint Hlim Hne Ht.
  unfold math_ops.cast, ops.convert_to_tensor, dtypes.as_dtype.
  rewrite (proj2 (dtype_eqb_neq _ _) Hne).
  cbn -[cast_value]. rewrite Ht. cbn -[cast_value].
  rewrite (map_opt_total _ (wrap lo hi)); [reflexivity|].
  intros z _. unfold cast_value. now rewrite Hint, Hlim.
Qed.



(** Where the bound is not held exactly: the clamps are built in the source
    dtype, and a [float32] source holds the target maximum [2^31 - 1] of
    [int32] as [2^31].  The value [2^31] passes the upper clamp unchanged,
    and the conversion then receives a value above the target maximum and
    wraps it around instead of yielding [2^31 - 1]. *)
Lemma saturate_cast_float32_bound_is_rounded :
  dtypes.nearest dtypes.float32 (2 ^ 31 - 1) = 2 ^ 31 /\
  math_ops.saturate_cast
    (Const (dtypes.Plain dtypes.float32) (scalar (2 ^ 31)))
    (dtypes.Plain dtypes.int32)
  = Ok (math_ops.cast
          (clamp_high
             (clamp_low (Const (dtypes.Plain dtypes.float32) (scalar (2 ^ 31)))
                        (- ((2 ^ 24 - 1) * 2 ^ 104)) (- 2 ^ 31))
             ((2 ^ 24 - 1) * 2 ^ 104) (2 ^ 31 - 1))
          (dtypes.Plain dtypes.int32)) /\
  eval no_feed
    (clamp_high
       (clamp_low (Const (dtypes.Plain dtypes.float32) (scalar (2 ^ 31)))
                  (- ((2 ^ 24 - 1) * 2 ^ 104)) (- 2 ^ 31))
       ((2 ^ 24 - 1) * 2 ^ 104) (2 ^ 31 - 1))
  = Some (scalar (2 ^ 31)) /\
  run no_feed
      (math_ops.saturate_cast
         (Const (dtypes.Plain dtypes.float32) (scalar (2 ^ 31)))
         (dtypes.Plain dtypes.int32))
  = Some (scalar (- 2 ^ 31)).
Proof. repeat split; vm_compute; reflexivity. Qed.



(** ** The deferred plan of [_tensordot_reshape] *)

Ltac step_bind := unfold bind at 1; cbv beta iota.

Lemma concat_same (x y : Tensor) :
  dtypes.base_dtype (dtype y) = dtypes.base_dtype (dtype x) ->
  array_ops.concat 0 [x; y] = Ok (array_ops.concat_node 0 [x; y]).
Proof.
  intro H. unfold array_ops.concat, array_ops.same_dtypes. cbn [forallb].
  now rewrite H, dtype_eqb_refl.
Qed.

Lemma binary_op_wrapper_tensor (f : Tensor -> Tensor -> Tensor) (x y : Tensor) :
  dtypes.base_dtype (dtype y) = dtypes.base_dtype (dtype x) ->
  math_ops.binary_op_wrapper f x (PyTensor y) = Ok (f x y).
Proof.
  intro H. unfold math_ops.binary_op_wrapper, convert_arg, ops.convert_as.
  rewrite H, base_dtype_idem, dtype_eqb_refl. reflexivity.
Qed.

Lemma range_of_rank (a : Tensor) :
  math_ops.range (PyTensor (array_ops.rank a)) None (PyInt 1) None
  = Ok (gen_math_ops._range (ops.convert_int 0 None) (array_ops.rank a)
                            (ops.convert_int 1 None)).
Proof. reflexivity. Qed.

Lemma reduce_prod_vector (t : Tensor) :
  ndims (get_shape t) = Some 1 ->
  math_ops.reduce_prod t None false None = Ok (deferred_prod t).
Proof.
  intro H. unfold math_ops.reduce_prod, math_ops._ReductionDims.
  step_bind. rewrite H. reflexivity.
Qed.

Lemma ndims_shape_node (a : Tensor) :
  exists d, get_shape (array_ops.shape a) = Some [d].
Proof. unfold array_ops.shape. simpl. destruct (get_shape a); eauto. Qed.

Lemma ndims_deferred_free_dims (a axes : Tensor) :
  ndims (get_shape (deferred_free_dims a axes)) = Some 1.
Proof.
  unfold deferred_free_dims, array_ops.gather.
  destruct (ndims_shape_node a) as [d Hd].
  cbn [get_shape]. rewrite Hd. reflexivity.
Qed.

Lemma shape_deferred_axes (a axes : Tensor) (d : option Z) :
  get_shape axes = Some [d] ->
  exists d', get_shape (deferred_axes a axes) = Some [d'].
Proof.
  intro H. unfold deferred_axes, gen_math_ops.add, gen_math_ops.mul,
    gen_math_ops.binary, math_ops.cast, gen_math_ops.cast, math_ops.ge_int,
    math_ops.lt_int, gen_math_ops.greater_equal, gen_math_ops.less,
    gen_math_ops.comparison, ops.convert_to_tensor.
  cbn [dtype dtypes.base_dtype dtypes.kind_of dtypes.as_dtype dtypes.eqb
       dtypes.Kind_beq get_shape].
  rewrite H. cbn. eauto.
Qed.

Lemma ndims_deferred_axes_dims (a axes : Tensor) (d : option Z) :
  get_shape axes = Some [d] ->
  ndims (get_shape (deferred_axes_dims a axes)) = Some 1.
Proof.
  intro H. unfold deferred_axes_dims, array_ops.gather.
  destruct (ndims_shape_node a) as [d1 Hd1].
  destruct (shape_deferred_axes a axes d H) as [d2 Hd2].
  cbn [get_shape]. rewrite Hd1, Hd2. reflexivity.
Qed.

Lemma deferred_plan_built (a axes : Tensor) (d : option Z) (flipped : bool) :
  dtype axes = dtypes.Plain dtypes.int32 ->
  get_shape axes = Some [d] ->
  math_ops._tensordot_reshape a (SeqTensor axes) flipped
  = Ok (deferred_matrix a axes flipped,
        SeqTensor (deferred_free_dims a axes)).
Proof.
  intros Hdt Hsh.
  assert (Hconv : convert_seq (SeqTensor axes) (Some (dtypes.Plain dtypes.int32))
                  = Ok axes).
  { unfold convert_seq, ops.convert_as. rewrite Hdt. reflexivity. }
  unfold math_ops._tensordot_reshape.
  destruct (is_fully_defined (get_shape a)); cbv zeta beta iota.
  all: rewrite Hconv; step_bind.
  all: do 4 (rewrite binary_op_wrapper_tensor
               by (cbn; rewrite ?Hdt; reflexivity); step_bind).
  all: rewrite range_of_rank; step_bind.
  all: rewrite reduce_prod_vector
         by (exact (ndims_deferred_free_dims a axes)); step_bind.
  all: rewrite reduce_prod_vector
         by (exact (ndims_deferred_axes_dims a axes d Hsh)); step_bind.
  all: rewrite concat_same by reflexivity; step_bind.
  all: destruct flipped; rewrite concat_same by reflexivity; step_bind.
  all: reflexivity.
Qed.

(** ** What the deferred plan evaluates to *)

Lemma list_eqb_refl (l : list Z) : list_eqb l l = true.
Proof.
  induction l as [|x l IH]; simpl; [reflexivity|].
  now rewrite Z.eqb_refl, IH.
Qed.

Lemma vector_of_length (l l' : list Z) :
  length l' = length l -> mkND [Z.of_nat (length l)] l' = vector l'.
Proof. intro H. unfold vector. now rewrite H. Qed.

Lemma cast_value_flag (b : bool) :
  cast_value dtypes.int32 (b2z b) = Some (b2z b).
Proof. destruct b; reflexivity. Qed.

Lemma normalise_arithmetic (r : Z) (ax : list Z) :
  map2 Z.add
       (map2 Z.mul (map (fun x => b2z (0 <=? x)) ax) ax)
       (map2 Z.mul (map (fun x => b2z (x <? 0)) ax) (map (fun x => x + r) ax))
  = normalise r ax.
Proof.
  unfold map2, normalise.
  induction ax as [|x ax IH]; [reflexivity|].
  cbn [map combine fst snd]. rewrite IH. f_equal.
  destruct (Z.leb_spec 0 x), (Z.ltb_spec x 0); unfold b2z; lia.
Qed.

Lemma eval_node1 (env : string -> option NDArray) (op : OpType)
    (x : Tensor) (dt : DType) (sh : TensorShape) (vx : NDArray) :
  eval env x = Some vx ->
  eval env (Node op [x] dt sh) = kernel op dt [vx].
Proof. intro Hx. cbn [eval map_opt obind]. now rewrite Hx. Qed.

Lemma eval_node2 (env : string -> option NDArray) (op : OpType)
    (x y : Tensor) (dt : DType) (sh : TensorShape) (vx vy : NDArray) :
  eval env x = Some vx ->
  eval env y = Some vy ->
  eval env (Node op [x; y] dt sh) = kernel op dt [vx; vy].
Proof. intros Hx Hy. cbn [eval map_opt obind]. now rewrite Hx, Hy. Qed.

Lemma eval_const_scalar (env : string -> option NDArray) (dt : DType) (z : Z) :
  eval env (Const dt (scalar z)) = Some (scalar z).
Proof. reflexivity. Qed.

Lemma ew2_vectors (f : Z -> Z -> Z) (n : Z) (l1 l2 : list Z) :
  ew2 f (mkND [n] l1) (mkND [n] l2) = Some (mkND [n] (map2 f l1 l2)).
Proof.
  unfold ew2, as_scalar. cbn [nd_shape nd_data list_eqb].
  now rewrite Z.eqb_refl.
Qed.

Lemma kernel_cast_flags (sh : list Z) (p : Z -> bool) (l : list Z) :
  kernel Cast (dtypes.Plain dtypes.int32)
         [mkND sh (map (fun x => b2z (p x)) l)]
  = Some (mkND sh (map (fun x => b2z (p x)) l)).
Proof.
  cbn [kernel nd_shape nd_data dtypes.kind_of].
  rewrite (map_opt_total _ (fun z => z)).
  - now rewrite map_id.
  - intros z Hz. apply in_map_iff in Hz. destruct Hz as (x & <- & _).
    apply cast_value_flag.
Qed.

Lemma eval_node2_bind (env : string -> option NDArray) (op : OpType)
    (x y : Tensor) (dt : DType) (sh : TensorShape) :
  eval env (Node op [x; y] dt sh)
  = (vx <~ eval env x ;; vy <~ eval env y ;; kernel op dt [vx; vy]).
Proof.
  cbn [eval map_opt obind].
  destruct (eval env x), (eval env y); reflexivity.
Qed.

Lemma eval_node3 (env : string -> option NDArray) (op : OpType)
    (x y z : Tensor) (dt : DType) (sh : TensorShape) (vx vy vz : NDArray) :
  eval env x = Some vx ->
  eval env y = Some vy ->
  eval env z = Some vz ->
  eval env (Node op [x; y; z] dt sh) = kernel op dt [vx; vy; vz].
Proof. intros Hx Hy Hz. cbn [eval map_opt obind]. now rewrite Hx, Hy, Hz. Qed.

Lemma in_zrange (lo hi i : Z) : In i (zrange lo hi) -> lo <= i < hi.
Proof.
  unfold zrange. intro H. apply in_map_iff in H.
  destruct H as (k & <- & Hk). apply in_seq in Hk. lia.
Qed.

Lemma free_axes_in_range (r : Z) (ax : list Z) :
  Forall (fun i => 0 <= i < r) (free_axes r ax).
Proof.
  apply Forall_forall. intros i Hi. unfold free_axes, listdiff in Hi.
  apply filter_In in Hi. destruct Hi as [Hi _].
  apply in_zrange in Hi. lia.
Qed.

Lemma normalise_in_range (r : Z) (ax : list Z) :
  Forall (fun i => - r <= i < r) ax ->
  Forall (fun i => 0 <= i < r) (normalise r ax).
Proof.
  intro H. unfold normalise. apply Forall_map.
  eapply Forall_impl; [|exact H]. cbv beta. intros i Hi.
  destruct (Z.leb_spec 0 i); lia.
Qed.

Lemma gather_values_in_range (sh l : list Z) :
  Forall (fun i => 0 <= i < math_ops.len sh) l ->
  gather_values sh l = Some (dims_at sh l).
Proof.
  intro H. unfold gather_values, dims_at. apply map_opt_total.
  intros i Hi. rewrite Forall_forall in H. specialize (H i Hi).
  unfold math_ops.len in H.
  replace (0 <=? i) with true by (symmetry; apply Z.leb_le; lia).
  replace (i <? Z.of_nat (length sh)) with true
    by (symmetry; apply Z.ltb_lt; lia).
  reflexivity.
Qed.

Lemma nd_wf_vector (l : list Z) : nd_wf (vector l) = true.
Proof.
  unfold nd_wf, vector. cbn [nd_shape nd_data forallb list_prod fold_right].
  rewrite Z.mul_1_r, Z.eqb_refl.
  replace (0 <=? Z.of_nat (length l)) with true
    by (symmetry; apply Z.leb_le; lia).
  reflexivity.
Qed.

Lemma eval_convert_list (env : string -> option NDArray) (l : list Z) :
  eval env (ops.convert_list l None) = Some (vector l).
Proof.
  unfold ops.convert_list, constant_op.constant. cbn [eval].
  now rewrite nd_wf_vector.
Qed.

Section DeferredPlan.

Variable env : string -> option NDArray.
Variables (a axes : Tensor) (va : NDArray) (ax : list Z).

Hypothesis a_runs : eval env a = Some va.
Hypothesis axes_run : eval env axes = Some (vector ax).

Let r : Z := math_ops.len (nd_shape va).

Lemma eval_rank : eval env (array_ops.rank a) = Some (scalar r).
Proof. unfold array_ops.rank. now rewrite (eval_node1 _ _ _ _ _ _ a_runs). Qed.

Lemma eval_shape : eval env (array_ops.shape a) = Some (vector (nd_shape va)).
Proof. unfold array_ops.shape. now rewrite (eval_node1 _ _ _ _ _ _ a_runs). Qed.

Lemma eval_ge_flags :
  eval env (math_ops.cast (math_ops.ge_int axes 0) (dtypes.Plain dtypes.int32))
  = Some (mkND [math_ops.len ax] (map (fun x => b2z (0 <=? x)) ax)).
Proof.
  assert (H0 : eval env (math_ops.ge_int axes 0)
               = Some (mkND [math_ops.len ax] (map (fun x => b2z (0 <=? x)) ax))).
  { unfold math_ops.ge_int, gen_math_ops.greater_equal, gen_math_ops.comparison,
      ops.convert_int, constant_op.constant.
    cbv zeta. rewrite nearest_zero.
    now rewrite (eval_node2 _ _ _ _ _ _ _ _ axes_run (eval_const_scalar _ _ _)). }
  unfold math_ops.cast, gen_math_ops.cast, ops.convert_to_tensor.
  cbn [dtype math_ops.ge_int gen_math_ops.greater_equal gen_math_ops.comparison
       dtypes.base_dtype dtypes.kind_of dtypes.as_dtype dtypes.eqb dtypes.Kind_beq].
  rewrite (eval_node1 _ _ _ _ _ _ H0). apply kernel_cast_flags.
Qed.

Lemma eval_lt_flags :
  eval env (math_ops.cast (math_ops.lt_int axes 0) (dtypes.Plain dtypes.int32))
  = Some (mkND [math_ops.len ax] (map (fun x => b2z (x <? 0)) ax)).
Proof.
  assert (H0 : eval env (math_ops.lt_int axes 0)
               = Some (mkND [math_ops.len ax] (map (fun x => b2z (x <? 0)) ax))).
  { unfold math_ops.lt_int, gen_math_ops.less, gen_math_ops.comparison,
      ops.convert_int, constant_op.constant.
    cbv zeta. rewrite nearest_zero.
    now rewrite (eval_node2 _ _ _ _ _ _ _ _ axes_run (eval_const_scalar _ _ _)). }
  unfold math_ops.cast, gen_math_ops.cast, ops.convert_to_tensor.
  cbn [dtype math_ops.lt_int gen_math_ops.less gen_math_ops.comparison
       dtypes.base_dtype dtypes.kind_of dtypes.as_dtype dtypes.eqb dtypes.Kind_beq].
  rewrite (eval_node1 _ _ _ _ _ _ H0). apply kernel_cast_flags.
Qed.

Lemma eval_shifted :
  eval env (gen_math_ops.add axes (array_ops.rank a))
  = Some (mkND [math_ops.len ax] (map (fun x => x + r) ax)).
Proof.
  unfold gen_math_ops.add, gen_math_ops.binary.
  now rewrite (eval_node2 _ _ _ _ _ _ _ _ axes_run eval_rank).
Qed.

Lemma eval_deferred_axes :
  eval env (deferred_axes a axes) = Some (vector (normalise r ax)).
Proof.
  assert (Hpos : eval env (gen_math_ops.mul
                   (math_ops.cast (math_ops.ge_int axes 0)
                                  (dtypes.Plain dtypes.int32)) axes)
                 = Some (mkND [math_ops.len ax]
                           (map2 Z.mul (map (fun x => b2z (0 <=? x)) ax) ax))).
  { unfold gen_math_ops.mul, gen_math_ops.binary.
    rewrite (eval_node2 _ _ _ _ _ _ _ _ eval_ge_flags axes_run).
    apply ew2_vectors. }
  assert (Hneg : eval env (gen_math_ops.mul
                   (math_ops.cast (math_ops.lt_int axes 0)
                                  (dtypes.Plain dtypes.int32))
                   (gen_math_ops.add axes (array_ops.rank a)))
                 = Some (mkND [math_ops.len ax]
                           (map2 Z.mul (map (fun x => b2z (x <? 0)) ax)
                                 (map (fun x => x + r) ax)))).
  { unfold gen_math_ops.mul at 1, gen_math_ops.binary at 1.
    rewrite (eval_node2 _ _ _ _ _ _ _ _ eval_lt_flags eval_shifted).
    apply ew2_vectors. }
  unfold deferred_axes, gen_math_ops.add at 1, gen_math_ops.binary at 1.
  rewrite (eval_node2 _ _ _ _ _ _ _ _ Hpos Hneg).
  cbn [kernel]. rewrite ew2_vectors, normalise_arithmetic.
  apply f_equal, vector_of_length. unfold normalise. apply length_map.
Qed.

Hypothesis axes_valid : Forall (fun i => - r <= i < r) ax.

Lemma eval_all_axes :
  eval env (gen_math_ops._range (ops.convert_int 0 None) (array_ops.rank a)
                                (ops.convert_int 1 None))
  = Some (vector (xrange r)).
Proof.
  unfold gen_math_ops._range, ops.convert_int, constant_op.constant.
  rewrite (eval_node3 _ _ _ _ _ _ _ _ _ _
             (eval_const_scalar _ _ _) eval_rank (eval_const_scalar _ _ _)).
  cbn -[range_values]. now rewrite range_values_unit_step.
Qed.

Lemma eval_deferred_free :
  eval env (deferred_free a axes)
  = Some (vector (free_axes r (normalise r ax))).
Proof.
  unfold deferred_free, array_ops.setdiff1d.
  now rewrite (eval_node2 _ _ _ _ _ _ _ _ eval_all_axes eval_deferred_axes).
Qed.

Lemma eval_gather_shape (ids : Tensor) (l : list Z) :
  eval env ids = Some (vector l) ->
  Forall (fun i => 0 <= i < r) l ->
  eval env (array_ops.gather (array_ops.shape a) ids)
  = Some (vector (dims_at (nd_shape va) l)).
Proof.
  intros Hids Hl. unfold array_ops.gather.
  rewrite (eval_node2 _ _ _ _ _ _ _ _ eval_shape Hids).
  cbn [kernel as_vector obind vector nd_shape nd_data].
  rewrite (gather_values_in_range _ _ Hl). cbn [option_map].
  apply f_equal, vector_of_length. unfold dims_at. apply length_map.
Qed.

Lemma eval_deferred_free_dims :
  eval env (deferred_free_dims a axes)
  = Some (vector (plan_free_dims (nd_shape va) ax)).
Proof.
  apply (eval_gather_shape _ _ eval_deferred_free), free_axes_in_range.
Qed.

Lemma eval_deferred_axes_dims :
  eval env (deferred_axes_dims a axes)
  = Some (vector (dims_at (nd_shape va) (normalise r ax))).
Proof.
  apply (eval_gather_shape _ _ eval_deferred_axes).
  now apply normalise_in_range.
Qed.

Lemma eval_deferred_prod (t : Tensor) (l : list Z) :
  eval env t = Some (vector l) ->
  eval env (deferred_prod t) = Some (scalar (list_prod l)).
Proof.
  intro Ht. unfold deferred_prod, gen_math_ops._prod.
  assert (Hc : eval env (math_ops.arange_constant 1) = Some (vector [0]))
    by reflexivity.
  now rewrite (eval_node2 _ _ _ _ _ _ _ _ Ht Hc).
Qed.

Lemma eval_concat_vectors (x y : Tensor) (lx ly : list Z) :
  eval env x = Some (vector lx) ->
  eval env y = Some (vector ly) ->
  eval env (array_ops.concat_node 0 [x; y]) = Some (vector (lx ++ ly)).
Proof.
  intros Hx Hy.
  unfold array_ops.concat_node, ops.convert_int, constant_op.constant.
  rewrite (eval_node3 _ _ _ _ _ _ _ _ _ _ (eval_const_scalar _ _ _) Hx Hy).
  cbn. now rewrite app_nil_r.
Qed.

Lemma eval_deferred_perm (flipped : bool) :
  eval env (deferred_perm a axes flipped)
  = Some (vector (plan_perm (nd_shape va) ax flipped)).
Proof.
  unfold deferred_perm, plan_perm. fold r.
  destruct flipped.
  - apply eval_concat_vectors; [apply eval_deferred_axes|apply eval_deferred_free].
  - apply eval_concat_vectors; [apply eval_deferred_free|apply eval_deferred_axes].
Qed.

Lemma eval_deferred_shape (flipped : bool) :
  eval env (deferred_shape a axes flipped)
  = Some (vector (plan_shape (nd_shape va) ax flipped)).
Proof.
  unfold deferred_shape, plan_shape, array_ops.stack. fold r.
  destruct flipped;
    erewrite eval_node2;
    try (apply eval_deferred_prod;
         first [apply eval_deferred_axes_dims | apply eval_deferred_free_dims]);
    reflexivity.
Qed.

Lemma eval_deferred_matrix (flipped : bool) :
  eval env (deferred_matrix a axes flipped) = plan_matrix va ax flipped.
Proof.
  unfold deferred_matrix, array_ops.reshape, array_ops.transpose, plan_matrix.
  rewrite eval_node2_bind.
  rewrite (eval_node2 _ _ _ _ _ _ _ _ a_runs (eval_deferred_perm flipped)).
  rewrite eval_deferred_shape. reflexivity.
Qed.

End DeferredPlan.

(** ** The plan computed when the graph is built *)

Lemma is_fully_defined_known (sh : list Z) :
  is_fully_defined (known_shape sh) = true.
Proof. unfold known_shape. simpl. induction sh; simpl; auto. Qed.

Lemma as_list_known (sh : list Z) : as_list (known_shape sh) = sh.
Proof.
  unfold known_shape. simpl. rewrite map_map. apply map_id.
Qed.

Lemma map_result_getitem (sh l : list Z) :
  Forall (fun i => 0 <= i < math_ops.len sh) l ->
  map_result (py_getitem sh) l = Ok (dims_at sh l).
Proof.
  unfold math_ops.len.
  induction 1 as [|i l Hi _ IH]; [reflexivity|].
  cbn [map_result dims_at map]. unfold py_getitem at 1.
  replace (0 <=? i) with true by (symmetry; apply Z.leb_le; lia).
  replace (i <? Z.of_nat (length sh)) with true
    by (symmetry; apply Z.ltb_lt; lia).
  cbn [andb bind]. now rewrite IH.
Qed.

Lemma static_plan_built (a : Tensor) (sh ax : list Z) (flipped : bool) :
  get_shape a = known_shape sh ->
  Forall (fun i => - math_ops.len sh <= i < math_ops.len sh) ax ->
  math_ops._tensordot_reshape a (PyList ax) flipped
  = Ok (static_matrix a ax flipped, PyList (plan_free_dims sh ax)).
Proof.
  intros Ha Hax. unfold math_ops._tensordot_reshape, static_matrix.
  rewrite Ha, is_fully_defined_known, as_list_known. cbv zeta.
  fold (normalise (math_ops.len sh) ax).
  fold (listdiff (xrange (math_ops.len sh)) (normalise (math_ops.len sh) ax)).
  fold (free_axes (math_ops.len sh) (normalise (math_ops.len sh) ax)).
  rewrite (map_result_getitem sh _ (free_axes_in_range _ _)).
  cbn [bind].
  rewrite (map_result_getitem sh _ (normalise_in_range _ _ Hax)).
  cbn [bind]. destruct flipped; reflexivity.
Qed.

Lemma eval_static_matrix (env : string -> option NDArray) (a : Tensor)
    (va : NDArray) (ax : list Z) (flipped : bool) :
  eval env a = Some va ->
  as_list (get_shape a) = nd_shape va ->
  eval env (static_matrix a ax flipped) = plan_matrix va ax flipped.
Proof.
  intros Ha Hsh. unfold static_matrix, array_ops.reshape, array_ops.transpose,
    plan_matrix.
  rewrite eval_node2_bind, Hsh.
  rewrite (eval_node2 _ _ _ _ _ _ _ _ Ha (eval_convert_list _ _)).
  rewrite eval_convert_list. reflexivity.
Qed.

(** ** [matmul] on two matrices *)

Lemma matmul_of_matrices (x y : Tensor) :
  ndims (get_shape x) = Some 2 ->
  math_ops.matmul x y false false false false false false
  = Ok (matrix_product_node x y).
Proof.
  intro Hx. unfold math_ops.matmul, matrix_product_node, math_ops.batch_rank,
    ops.convert_to_tensor.
  rewrite Hx. cbn [andb negb Z.ltb Z.compare Pos.compare Pos.compare_cont bind].
  rewrite !andb_false_r.
  destruct (math_ops.dtype_in _ _); reflexivity.
Qed.

Lemma eval_matrix_product (env : string -> option NDArray) (x y : Tensor) :
  eval env (matrix_product_node x y)
  = (vx <~ eval env x ;; vy <~ eval env y ;; matmul_nd vx vy).
Proof.
  unfold matrix_product_node, gen_math_ops._sparse_mat_mul, gen_math_ops._mat_mul.
  destruct (math_ops.dtype_in _ _); rewrite eval_node2_bind; reflexivity.
Qed.

Lemma ndims_static_matrix (a : Tensor) (ax : list Z) (flipped : bool) :
  ndims (get_shape (static_matrix a ax flipped)) = Some 2.
Proof. destruct flipped; reflexivity. Qed.

Lemma ndims_deferred_matrix (a axes : Tensor) (flipped : bool) :
  ndims (get_shape (deferred_matrix a axes flipped)) = Some 2.
Proof. destruct flipped; reflexivity. Qed.

(** ** [tensordot], node by node *)

Lemma range_of_ints (start limit : Z) :
  math_ops.range (PyInt start) (Some (PyInt limit)) (PyInt 1) None
  = Ok (range_node start limit).
Proof. reflexivity. Qed.

Lemma range_of_int (n : Z) :
  math_ops.range (PyInt n) None (PyInt 1) None = Ok (range_node 0 n).
Proof. reflexivity. Qed.

Lemma eval_range_node (env : string -> option NDArray) (start limit : Z) :
  eval env (range_node start limit) = Some (vector (zrange start limit)).
Proof.
  unfold range_node, gen_math_ops._range, ops.convert_int, constant_op.constant.
  rewrite (eval_node3 _ _ _ _ _ _ _ _ _ _ (eval_const_scalar _ _ _)
             (eval_const_scalar _ _ _) (eval_const_scalar _ _ _)).
  cbn -[range_values zrange]. now rewrite range_values_unit_step.
Qed.

Lemma tensordot_axes_int (a : Tensor) (r n : Z) :
  ndims (get_shape a) = Some r ->
  1 <= n ->
  math_ops._tensordot_axes a (AxesInt n)
  = Ok (SeqTensor (range_node (r - n) r), SeqTensor (range_node 0 n)).
Proof.
  intros Hr Hn. unfold math_ops._tensordot_axes.
  replace (n <? 1) with false by (symmetry; apply Z.ltb_ge; lia).
  now rewrite Hr, range_of_ints, range_of_int.
Qed.

Lemma tensordot_int_built (a b : Tensor) (r n : Z) :
  ndims (get_shape a) = Some r ->
  1 <= n ->
  math_ops.tensordot a b (AxesInt n)
  = Ok (array_ops.reshape
          (matrix_product_node
             (deferred_matrix a (range_node (r - n) r) false)
             (deferred_matrix b (range_node 0 n) true))
          (array_ops.concat_node 0
             [deferred_free_dims a (range_node (r - n) r);
              deferred_free_dims b (range_node 0 n)])).
Proof.
  intros Hr Hn. unfold math_ops.tensordot, ops.convert_to_tensor.
  rewrite (tensordot_axes_int a r n Hr Hn). step_bind.
  rewrite (deferred_plan_built a (range_node (r - n) r) None false
             eq_refl eq_refl). step_bind.
  rewrite (deferred_plan_built b (range_node 0 n) None true
             eq_refl eq_refl). step_bind.
  rewrite matmul_of_matrices by apply ndims_deferred_matrix.
  step_bind. cbn [convert_seq]. do 2 step_bind.
  rewrite concat_same by reflexivity. reflexivity.
Qed.

Lemma tensordot_list_built (a b : Tensor) (sa sb la lb : list Z) :
  get_shape a = known_shape sa ->
  get_shape b = known_shape sb ->
  length la = length lb ->
  Forall (fun i => - math_ops.len sa <= i < math_ops.len sa) la ->
  Forall (fun i => - math_ops.len sb <= i < math_ops.len sb) lb ->
  math_ops.tensordot a b (AxesList [la; lb])
  = Ok (array_ops.reshape
          (matrix_product_node (static_matrix a la false)
                               (static_matrix b lb true))
          (ops.convert_list (plan_free_dims sa la ++ plan_free_dims sb lb)
                            None)).
Proof.
  intros Ha Hb Hlen Hla Hlb.
  unfold math_ops.tensordot, math_ops._tensordot_axes, ops.convert_to_tensor,
    math_ops.len.
  rewrite Hlen, Z.eqb_refl. cbn [negb]. step_bind.
  rewrite (static_plan_built a sa la false Ha Hla). step_bind.
  rewrite (static_plan_built b sb lb true Hb Hlb). step_bind.
  rewrite matmul_of_matrices by apply ndims_static_matrix.
  reflexivity.
Qed.

(** ** What [tensordot] evaluates to *)

Lemma eval_contraction_node (env : string -> option NDArray)
    (x y s : Tensor) (va vb : NDArray) (la lb : list Z) :
  eval env x = plan_matrix va la false ->
  eval env y = plan_matrix vb lb true ->
  eval env s = Some (vector (plan_free_dims (nd_shape va) la
                             ++ plan_free_dims (nd_shape vb) lb)) ->
  eval env (array_ops.reshape (matrix_product_node x y) s)
  = contraction va vb la lb.
Proof.
  intros Hx Hy Hs. unfold array_ops.reshape, contraction.
  rewrite eval_node2_bind, eval_matrix_product, Hx, Hy, Hs.
  destruct (plan_matrix va la false) as [ma|]; [|reflexivity].
  destruct (plan_matrix vb lb true) as [mb|]; [|reflexivity].
  cbn [obind]. destruct (matmul_nd ma mb); reflexivity.
Qed.

Lemma last_axes_valid (r n : Z) :
  n <= r -> Forall (fun i => - r <= i < r) (last_axes r n).
Proof.
  intro H. apply Forall_forall. intros i Hi. apply in_zrange in Hi. lia.
Qed.

Lemma first_axes_valid (r n : Z) :
  n <= r -> Forall (fun i => - r <= i < r) (first_axes n).
Proof.
  intro H. apply Forall_forall. intros i Hi. apply in_zrange in Hi. lia.
Qed.

(** The integer form contracts the last [n] axes of [a] with the first [n]
    axes of [b]. *)
Lemma eval_tensordot_int (env : string -> option NDArray) (a b : Tensor)
    (va vb : NDArray) (n : Z) :
  ndims (get_shape a) = Some (math_ops.len (nd_shape va)) ->
  eval env a = Some va ->
  eval env b = Some vb ->
  1 <= n ->
  n <= math_ops.len (nd_shape va) ->
  n <= math_ops.len (nd_shape vb) ->
  run env (math_ops.tensordot a b (AxesInt n))
  = contraction va vb (last_axes (math_ops.len (nd_shape va)) n) (first_axes n).
Proof.
  intros Hr Ha Hb Hn Hna Hnb.
  rewrite (tensordot_int_built a b _ n Hr Hn). cbn [run].
  pose proof (eval_range_node env (math_ops.len (nd_shape va) - n)
                (math_ops.len (nd_shape va))) as Hra.
  pose proof (eval_range_node env 0 n) as Hrb.
  apply eval_contraction_node.
  - apply (eval_deferred_matrix env a _ va _ Ha Hra).
    now apply last_axes_valid.
  - apply (eval_deferred_matrix env b _ vb _ Hb Hrb).
    now apply first_axes_valid.
  - apply eval_concat_vectors.
    + apply (eval_deferred_free_dims env a _ va _ Ha Hra).
    + apply (eval_deferred_free_dims env b _ vb _ Hb Hrb).
Qed.

(** The list form contracts the listed axes. *)
Lemma eval_tensordot_list (env : string -> option NDArray) (a b : Tensor)
    (va vb : NDArray) (la lb : list Z) :
  get_shape a = known_shape (nd_shape va) ->
  get_shape b = known_shape (nd_shape vb) ->
  eval env a = Some va ->
  eval env b = Some vb ->
  length la = length lb ->
  Forall (fun i => - math_ops.len (nd_shape va) <= i
                   < math_ops.len (nd_shape va)) la ->
  Forall (fun i => - math_ops.len (nd_shape vb) <= i
                   < math_ops.len (nd_shape vb)) lb ->
  run env (math_ops.tensordot a b (AxesList [la; lb]))
  = contraction va vb la lb.
Proof.
  intros Hsa Hsb Ha Hb Hlen Hla Hlb.
  rewrite (tensordot_list_built a b _ _ la lb Hsa Hsb Hlen Hla Hlb). cbn [run].
  apply eval_contraction_node.
  - apply eval_static_matrix; [exact Ha|]. now rewrite Hsa, as_list_known.
  - apply eval_static_matrix; [exact Hb|]. now rewrite Hsb, as_list_known.
  - apply eval_convert_list.
Qed.

(** ** [tensordot] with axes [1] is the matrix product *)

Lemma contraction_2x3_3x2 (va vb : NDArray) :
  nd_shape va = [2; 3] ->
  nd_shape vb = [3; 2] ->
  contraction va vb [1] [0] = matmul_nd va vb.
Proof.
  destruct va as [sa da], vb as [sb db]. cbn [nd_shape].
  intros -> ->.
  destruct da as [|a1 [|a2 [|a3 [|a4 [|a5 [|a6 da]]]]]];
    destruct db as [|b1 [|b2 [|b3 [|b4 [|b5 [|b6 db]]]]]];
    vm_compute; reflexivity.
Qed.

(** C1.  For operands of shapes [2,3] and [3,2], [tensordot] with axes [1]
    evaluates to the ordinary matrix product of the two values; on
    [[1,2,3],[4,5,6]] and [[7,8],[9,10],[11,12]] it evaluates to
    [[58,64],[139,154]]. *)
Theorem tensordot_axes_1_is_matmul :
  (forall (env : string -> option NDArray) (a b : Tensor) (va vb : NDArray),
      ndims (get_shape a) = Some 2 ->
      eval env a = Some va ->
      eval env b = Some vb ->
      nd_shape va = [2; 3] ->
      nd_shape vb = [3; 2] ->
      run env (math_ops.tensordot a b (AxesInt 1)) = matmul_nd va vb) /\
  run no_feed (math_ops.tensordot A_example B_example (AxesInt 1))
  = Some (mkND [2; 2] [58; 64; 139; 154]).
Proof.
  split; [|vm_compute; reflexivity].
  intros env a b va vb Hr Ha Hb Hsa Hsb.
  rewrite (eval_tensordot_int env a b va vb 1);
    rewrite ?Hsa, ?Hsb; try assumption; try (cbn; lia).
  now apply contraction_2x3_3x2.
Qed.

Lemma tensordot_axes_1_is_matmul_witness :
  run no_feed (math_ops.tensordot A_example B_example (AxesInt 1))
  = matmul_nd (mkND [2; 3] [1; 2; 3; 4; 5; 6])
              (mkND [3; 2] [7; 8; 9; 10; 11; 12]).
Proof.
  apply (proj1 tensordot_axes_1_is_matmul no_feed A_example B_example);
    reflexivity.
Defined.

(** ** The two forms of the axes argument *)

Lemma eval_matrix_of_none (env : string -> option NDArray)
    (a perm shape : Tensor) :
  eval env a = None ->
  eval env (array_ops.reshape (array_ops.transpose a perm) shape) = None.
Proof.
  intro Ha. unfold array_ops.reshape, array_ops.transpose.
  rewrite !eval_node2_bind, Ha. reflexivity.
Qed.

Lemma eval_product_of_none (env : string -> option NDArray) (x y s : Tensor) :
  eval env x = None \/ eval env y = None ->
  eval env (array_ops.reshape (matrix_product_node x y) s) = None.
Proof.
  intro H. unfold array_ops.reshape.
  rewrite eval_node2_bind, eval_matrix_product.
  destruct H as [-> | ->]; [reflexivity|].
  destruct (eval env x); reflexivity.
Qed.

Lemma ndims_known (sh : list Z) :
  ndims (known_shape sh) = Some (math_ops.len sh).
Proof. unfold ndims, known_shape, math_ops.len. simpl. now rewrite length_map. Qed.

(** C6 (as stated, refuted).  On a left operand of rank 3 the integer [1]
    stands for its last axis, axis 2, and not for axis 1: the two forms
    give different values. *)
Lemma axes_forms_differ_on_rank_3 : ~ axes_forms_agree.
Proof.
  intro H. specialize (H no_feed A_rank3 B_column).
  vm_compute in H. discriminate H.
Qed.

Lemma deferred_plan_of_list (a : Tensor) (l : list Z) (flipped : bool) :
  is_fully_defined (get_shape a) = false ->
  math_ops._tensordot_reshape a (PyList l) flipped
  = math_ops._tensordot_reshape a
      (SeqTensor (ops.convert_list l (Some (dtypes.Plain dtypes.int32))))
      flipped.
Proof.
  intro H. unfold math_ops._tensordot_reshape. rewrite H. reflexivity.
Qed.

Lemma dims_compatible_known (l : list (option Z)) (sh : list Z) :
  forallb (fun d => match d with Some _ => true | None => false end) l = true ->
  dims_compatible l sh = true ->
  l = map Some sh.
Proof.
  revert sh. induction l as [|d l IH]; intros [|z sh] Hfull Hc;
    cbn in *; try discriminate; [reflexivity|].
  apply andb_prop in Hfull as [Hd Hfull]. apply andb_prop in Hc as [Hz Hc].
  destruct d as [x|]; [|discriminate]. cbn in Hz. apply Z.eqb_eq in Hz.
  subst x. f_equal. now apply IH.
Qed.

Lemma fully_defined_compatible (s : TensorShape) (sh : list Z) :
  is_fully_defined s = true ->
  shape_compatible s sh = true ->
  s = known_shape sh.
Proof.
  destruct s as [l|]; [|discriminate]. cbn. intros Hfull Hc.
  unfold known_shape. f_equal. now apply dims_compatible_known.
Qed.

Lemma dims_compatible_length (l : list (option Z)) (sh : list Z) :
  dims_compatible l sh = true -> length l = length sh.
Proof.
  revert sh. induction l as [|d l IH]; intros [|z sh] Hc;
    cbn in *; try discriminate; [reflexivity|].
  apply andb_prop in Hc as [_ Hc]. f_equal. now apply IH.
Qed.

Lemma compatible_rank (s : TensorShape) (sh : list Z) (r : Z) :
  ndims s = Some r ->
  shape_compatible s sh = true ->
  math_ops.len sh = r.
Proof.
  destruct s as [l|]; [|discriminate]. cbn. intros Hr Hc.
  injection Hr as <-. unfold math_ops.len.
  now rewrite (dims_compatible_length l sh Hc).
Qed.

Lemma eval_int32_list (env : string -> option NDArray) (l : list Z) :
  eval env (ops.convert_list l (Some (dtypes.Plain dtypes.int32)))
  = Some (vector l).
Proof.
  unfold ops.convert_list, constant_op.constant. cbn [eval].
  now rewrite nd_wf_vector.
Qed.

(** [_tensordot_reshape] on a list of valid axes, whichever branch it takes:
    the matrix evaluates to the planned one, and the free dimensions are the
    planned ones, as a list on the build-time branch and as an [int32]
    tensor on the run-time branch. *)
Lemma reshape_list_runs (env : string -> option NDArray) (a : Tensor)
    (va : NDArray) (ax : list Z) (flipped : bool) :
  eval env a = Some va ->
  shape_compatible (get_shape a) (nd_shape va) = true ->
  Forall (fun i => - math_ops.len (nd_shape va) <= i
                   < math_ops.len (nd_shape va)) ax ->
  exists m fd,
    math_ops._tensordot_reshape a (PyList ax) flipped = Ok (m, fd) /\
    ndims (get_shape m) = Some 2 /\
    eval env m = plan_matrix va ax flipped /\
    match fd with
    | PyList l =>
        is_fully_defined (get_shape a) = true /\
        l = plan_free_dims (nd_shape va) ax
    | SeqTensor t =>
        is_fully_defined (get_shape a) = false /\
        dtypes.base_dtype (dtype t) = dtypes.Plain dtypes.int32 /\
        eval env t = Some (vector (plan_free_dims (nd_shape va) ax))
    end.
Proof.
  intros Ha Hc Hax. destruct (is_fully_defined (get_shape a)) eqn:Hfull.
  - pose proof (fully_defined_compatible _ _ Hfull Hc) as Hsa.
    do 2 eexists. split; [|split; [|split]].
    + exact (static_plan_built a (nd_shape va) ax flipped Hsa Hax).
    + apply ndims_static_matrix.
    + apply eval_static_matrix; [exact Ha|]. now rewrite Hsa, as_list_known.
    + split; reflexivity.
  - do 2 eexists. split; [|split; [|split]].
    + rewrite (deferred_plan_of_list a ax flipped Hfull).
      exact (deferred_plan_built a
               (ops.convert_list ax (Some (dtypes.Plain dtypes.int32)))
               (Some (math_ops.len ax)) flipped eq_refl eq_refl).
    + apply ndims_deferred_matrix.
    + exact (eval_deferred_matrix env a _ va ax Ha (eval_int32_list env ax)
               Hax flipped).
    + split; [reflexivity|]. split; [reflexivity|].
      exact (eval_deferred_free_dims env a _ va ax Ha (eval_int32_list env ax)).
Qed.

Lemma convert_list_int32 (l : list Z) :
  l <> [] ->
  dtypes.base_dtype (dtype (ops.convert_list l None)) = dtypes.Plain dtypes.int32.
Proof. destruct l; [contradiction|reflexivity]. Qed.

Lemma eval_tensordot_list_any (env : string -> option NDArray) (a b : Tensor)
    (va vb : NDArray) (la lb : list Z) :
  eval env a = Some va ->
  eval env b = Some vb ->
  shape_compatible (get_shape a) (nd_shape va) = true ->
  shape_compatible (get_shape b) (nd_shape vb) = true ->
  length la = length lb ->
  Forall (fun i => - math_ops.len (nd_shape va) <= i
                   < math_ops.len (nd_shape va)) la ->
  Forall (fun i => - math_ops.len (nd_shape vb) <= i
                   < math_ops.len (nd_shape vb)) lb ->
  free_dims_join a b (plan_free_dims (nd_shape va) la)
                     (plan_free_dims (nd_shape vb) lb) ->
  run env (math_ops.tensordot a b (AxesList [la; lb]))
  = contraction va vb la lb.
Proof.
  intros Ha Hb Ca Cb Hlen Hla Hlb Hjoin.
  destruct (reshape_list_runs env a va la false Ha Ca Hla)
    as (ma & fa & Ea & Na & Hma & Hfa).
  destruct (reshape_list_runs env b vb lb true Hb Cb Hlb)
    as (mb & fb & Eb & Nb & Hmb & Hfb).
  unfold math_ops.tensordot, math_ops._tensordot_axes, ops.convert_to_tensor,
    math_ops.len.
  rewrite Hlen, Z.eqb_refl. cbn [negb]. step_bind.
  rewrite Ea. step_bind. rewrite Eb. step_bind.
  rewrite (matmul_of_matrices ma mb Na). step_bind.
  destruct fa as [fa|ta], fb as [fb|tb].
  - destruct Hfa as [_ ->], Hfb as [_ ->]. cbn [run].
    apply eval_contraction_node; try assumption. apply eval_convert_list.
  - destruct Hfa as [Fa ->], Hfb as (Fb & Db & Hb').
    cbn [convert_seq]. do 2 step_bind.
    rewrite concat_same.
    + step_bind. cbn [run]. apply eval_contraction_node; try assumption.
      apply eval_concat_vectors; [apply eval_convert_list|exact Hb'].
    + rewrite Db. symmetry. apply convert_list_int32.
      destruct Hjoin as [H|[[_ H]|[H _]]]; [congruence|exact H|congruence].
  - destruct Hfa as (Fa & Da & Ha'), Hfb as [Fb ->].
    cbn [convert_seq]. do 2 step_bind.
    rewrite concat_same.
    + step_bind. cbn [run]. apply eval_contraction_node; try assumption.
      apply eval_concat_vectors; [exact Ha'|apply eval_convert_list].
    + rewrite Da. apply convert_list_int32.
      destruct Hjoin as [H|[[H _]|[_ H]]]; [congruence|congruence|exact H].
  - destruct Hfa as (Fa & Da & Ha'), Hfb as (Fb & Db & Hb').
    cbn [convert_seq]. do 2 step_bind.
    rewrite concat_same by (now rewrite Da, Db).
    step_bind. cbn [run]. apply eval_contraction_node; try assumption.
    now apply eval_concat_vectors.
Qed.

(** C6 (amended).  When the left operand has static rank 2, [tensordot] with
    the axis pair [([1],[0])] and [tensordot] with the integer [1] evaluate
    to the same result on every pair of values that agree with the static
    shapes, the right one of rank at least 1.  Left out is one case, in
    which only the pair form raises while the graph is built: a left shape
    that is not fully defined together with a fully defined right shape of
    rank 1, whose empty list of free dimensions becomes a [float32]
    constant. *)
Theorem axes_forms_agree_on_matrices
    (env : string -> option NDArray) (a b : Tensor) (va vb : NDArray) :
  ndims (get_shape a) = Some 2 ->
  eval env a = Some va ->
  eval env b = Some vb ->
  shape_compatible (get_shape a) (nd_shape va) = true ->
  shape_compatible (get_shape b) (nd_shape vb) = true ->
  1 <= math_ops.len (nd_shape vb) ->
  (is_fully_defined (get_shape a) = true \/
   is_fully_defined (get_shape b) = false \/
   2 <= math_ops.len (nd_shape vb)) ->
  run env (math_ops.tensordot a b (AxesList [[1]; [0]]))
  = run env (math_ops.tensordot a b (AxesInt 1)).
Proof.
  intros Hnd Ha Hb Ca Cb Hrb Hcorner.
  pose proof (compatible_rank _ _ _ Hnd Ca) as Hra.
  assert (Hnd' : ndims (get_shape a) = Some (math_ops.len (nd_shape va)))
    by (now rewrite Hra).
  rewrite (eval_tensordot_int env a b va vb 1 Hnd' Ha Hb) by lia.
  rewrite Hra. change (last_axes 2 1) with [1]. change (first_axes 1) with [0].
  apply eval_tensordot_list_any; try assumption; try reflexivity.
  - repeat constructor; lia.
  - repeat constructor; lia.
  - unfold free_dims_join.
    destruct (is_fully_defined (get_shape a)) eqn:Fa;
      destruct (is_fully_defined (get_shape b)) eqn:Fb.
    + now left.
    + right. left. split; [reflexivity|].
      destruct (nd_shape va) as [|m [|k [|? ?]]];
        unfold math_ops.len in Hra; cbn [length] in Hra; try lia.
      vm_compute. discriminate.
    + right. right. split; [reflexivity|].
      destruct Hcorner as [H|[H|H]]; try discriminate H.
      destruct (nd_shape vb) as [|k [|n sb]];
        unfold math_ops.len in H; cbn [length] in H; try lia.
      intro E. apply (f_equal (@length Z)) in E.
      unfold plan_free_dims, dims_at in E. rewrite length_map in E.
      change (math_ops.len (k :: n :: sb))
        with (Z.of_nat (S (S (length sb)))) in E.
      unfold normalise, free_axes, listdiff, xrange, zrange in E.
      cbn [map Z.leb Z.compare] in E.
      replace (Z.to_nat (Z.of_nat (S (S (length sb))) - 0))
        with (S (S (length sb))) in E by lia.
      cbn in E. discriminate E.
    + now left.
Qed.

Lemma axes_forms_agree_on_matrices_witness :
  run no_feed (math_ops.tensordot A_example B_example (AxesList [[1]; [0]]))
  = run no_feed (math_ops.tensordot A_example B_example (AxesInt 1)).
Proof.
  apply (axes_forms_agree_on_matrices no_feed A_example B_example
           (mkND [2; 3] [1; 2; 3; 4; 5; 6])
           (mkND [3; 2] [7; 8; 9; 10; 11; 12]));
    try reflexivity.
  - unfold math_ops.len. cbn. lia.
  - left. reflexivity.
Defined.

(** The case left out: with a left shape known only in part and a fully
    defined vector on the right, the pair form raises while the graph is
    built, and the integer form builds a graph. *)
Lemma axes_pair_raises_on_static_vector :
  math_ops.tensordot
    (Placeholder "a" (dtypes.Plain dtypes.float32) (Some [None; Some 3]))
    (Placeholder "b" (dtypes.Plain dtypes.float32) (Some [Some 3]))
    (AxesList [[1]; [0]])
  = Raise MixedDtypes /\
  exists t,
    math_ops.tensordot
      (Placeholder "a" (dtypes.Plain dtypes.float32) (Some [None; Some 3]))
      (Placeholder "b" (dtypes.Plain dtypes.float32) (Some [Some 3]))
      (AxesInt 1)
    = Ok t.
Proof. split; [reflexivity|eexists; reflexivity]. Qed.

(** ** Malformed axes of [tensordot] *)

Lemma getitem_outcome (sh l : list Z) :
  match map_result (py_getitem sh) l with
  | Ok _ => True
  | Raise e => e = IndexError "list index out of range"
  end.
Proof.
  induction l as [|i l IH]; cbn [map_result]; [exact I|].
  unfold py_getitem at 1.
  destruct ((0 <=? i) && (i <? Z.of_nat (length sh)));
    [|destruct ((- Z.of_nat (length sh) <=? i) && (i <? 0))];
    cbn [bind];
    try (destruct (map_result (py_getitem sh) l); cbn [bind]; auto);
    reflexivity.
Qed.

(** With a list of axes, [_tensordot_reshape] returns a matrix or raises
    [IndexError]. *)
Lemma reshape_list_outcome (a : Tensor) (l : list Z) (flipped : bool) :
  match math_ops._tensordot_reshape a (PyList l) flipped with
  | Ok (m, _) => ndims (get_shape m) = Some 2
  | Raise e => e = IndexError "list index out of range"
  end.
Proof.
  destruct (is_fully_defined (get_shape a)) eqn:Hfull.
  - unfold math_ops._tensordot_reshape. rewrite Hfull. cbv zeta.
    match goal with
    | |- context [map_result (py_getitem ?sh) ?free] =>
        pose proof (getitem_outcome sh free) as Hfree;
        destruct (map_result (py_getitem sh) free) as [fd|e]
    end; cbn [bind]; [|exact Hfree].
    match goal with
    | |- context [map_result (py_getitem ?sh) ?ax] =>
        pose proof (getitem_outcome sh ax) as Hax;
        destruct (map_result (py_getitem sh) ax) as [ad|e]
    end; cbn [bind]; [|exact Hax].
    destruct flipped; reflexivity.
  - rewrite (deferred_plan_of_list a l flipped Hfull).
    rewrite (deferred_plan_built a
               (ops.convert_list l (Some (dtypes.Plain dtypes.int32)))
               (Some (math_ops.len l)) flipped eq_refl eq_refl).
    apply ndims_deferred_matrix.
Qed.

Lemma tensordot_list_outcome (a b : Tensor) (la lb : list Z) :
  length la = length lb ->
  match math_ops.tensordot a b (AxesList [la; lb]) with
  | Ok _ => True
  | Raise e => e = IndexError "list index out of range" \/ e = MixedDtypes
  end.
Proof.
  intro Hlen.
  unfold math_ops.tensordot, math_ops._tensordot_axes, ops.convert_to_tensor,
    math_ops.len.
  rewrite Hlen, Z.eqb_refl. cbn [negb]. step_bind.
  pose proof (reshape_list_outcome a la false) as Ha.
  destruct (math_ops._tensordot_reshape a (PyList la) false) as [[ma fa]|e];
    [|now left].
  step_bind.
  pose proof (reshape_list_outcome b lb true) as Hb.
  destruct (math_ops._tensordot_reshape b (PyList lb) true) as [[mb fb]|e];
    [|now left].
  step_bind.
  rewrite (matmul_of_matrices ma mb Ha). step_bind.
  destruct fa, fb; try exact I; cbn [convert_seq]; do 2 step_bind;
    unfold array_ops.concat; destruct (array_ops.same_dtypes _);
    cbn [bind]; auto.
Qed.

Lemma tensordot_axes_runtime_rank (a : Tensor) (n : Z) :
  ndims (get_shape a) = None ->
  1 <= n ->
  math_ops._tensordot_axes a (AxesInt n)
  = Ok (SeqTensor (runtime_a_axes a n), SeqTensor (runtime_b_axes a)).
Proof.
  intros Hr Hn. unfold math_ops._tensordot_axes.
  replace (n <? 1) with false by (symmetry; apply Z.ltb_ge; lia).
  rewrite Hr. reflexivity.
Qed.

Lemma tensordot_int_ok (a b : Tensor) (n : Z) :
  1 <= n -> exists t, math_ops.tensordot a b (AxesInt n) = Ok t.
Proof.
  intro Hn. destruct (ndims (get_shape a)) as [r|] eqn:Hr.
  - rewrite (tensordot_int_built a b r n Hr Hn). eauto.
  - unfold math_ops.tensordot, ops.convert_to_tensor.
    rewrite (tensordot_axes_runtime_rank a n Hr Hn). step_bind.
    rewrite (deferred_plan_built a (runtime_a_axes a n) None false
               eq_refl eq_refl). step_bind.
    rewrite (deferred_plan_built b (runtime_b_axes a) None true
               eq_refl eq_refl). step_bind.
    rewrite matmul_of_matrices by apply ndims_deferred_matrix.
    eexists. reflexivity.
Qed.

(** C7.  [tensordot] raises [InvalidAxesLength] exactly when the two
    explicit axis lists differ in length, and [InvalidAxisCount] exactly
    when the axes argument is an integer below 1. *)
Theorem tensordot_axes_errors (a b : Tensor) :
  (forall a_axes b_axes : list Z,
      math_ops.tensordot a b (AxesList [a_axes; b_axes])
      = Raise InvalidAxesLength
      <-> length a_axes <> length b_axes) /\
  (forall n : Z,
      math_ops.tensordot a b (AxesInt n) = Raise InvalidAxisCount
      <-> n < 1).
Proof.
  split.
  - intros a_axes b_axes. split.
    + intros Hraise Hlen.
      pose proof (tensordot_list_outcome a b a_axes b_axes Hlen) as Hout.
      rewrite Hraise in Hout. destruct Hout as [Hout|Hout]; discriminate Hout.
    + intros Hlen.
      unfold math_ops.tensordot, math_ops._tensordot_axes, math_ops.len.
      replace (Z.of_nat (length a_axes) =? Z.of_nat (length b_axes)) with false
        by (symmetry; apply Z.eqb_neq; lia).
      reflexivity.
  - intros n. split.
    + intro Hraise. destruct (Z.lt_ge_cases n 1) as [Hn|Hn]; [exact Hn|].
      destruct (tensordot_int_ok a b n Hn) as [t Ht].
      rewrite Ht in Hraise. discriminate Hraise.
    + intros Hn.
      unfold math_ops.tensordot, math_ops._tensordot_axes.
      replace (n <? 1) with true by (symmetry; apply Z.ltb_lt; exact Hn).
      reflexivity.
Qed.

Lemma tensordot_axes_errors_witness :
  math_ops.tensordot
    (Placeholder "a" (dtypes.Plain dtypes.float32) (Some [Some 2; Some 3]))
    (Placeholder "b" (dtypes.Plain dtypes.float32) (Some [Some 3; Some 2]))
    (AxesList [[0; 1]; [0]])
  = Raise InvalidAxesLength
  /\ math_ops.tensordot
       (Placeholder "a" (dtypes.Plain dtypes.float32) (Some [Some 2; Some 3]))
       (Placeholder "b" (dtypes.Plain dtypes.float32) (Some [Some 3; Some 2]))
       (AxesInt 0)
     = Raise InvalidAxisCount.
Proof.
  destruct (tensordot_axes_errors
              (Placeholder "a" (dtypes.Plain dtypes.float32)
                 (Some [Some 2; Some 3]))
              (Placeholder "b" (dtypes.Plain dtypes.float32)
                 (Some [Some 3; Some 2]))) as [Hlen Hcount].
  split.
  - apply Hlen. simpl. discriminate.
  - apply Hcount. lia.
Defined.

(** ** The axes computed from a runtime rank *)

(** In the branch for an unknown static rank the axes of [a] are the last
    [n] ones, but the axes of [b] run over the whole rank of [a]. *)
Lemma eval_runtime_axes (env : string -> option NDArray) (a : Tensor)
    (va : NDArray) (n : Z) :
  eval env a = Some va ->
  eval env (runtime_a_axes a n)
  = Some (vector (last_axes (math_ops.len (nd_shape va)) n)) /\
  eval env (runtime_b_axes a)
  = Some (vector (first_axes (math_ops.len (nd_shape va)))).
Proof.
  intro Ha. pose proof (eval_rank env a va Ha) as Hrank.
  unfold runtime_a_axes, runtime_b_axes, gen_math_ops._range,
    ops.convert_int, constant_op.constant, last_axes, first_axes.
  split.
  - assert (Hlo : eval env (gen_math_ops.sub (array_ops.rank a)
                              (Const (dtypes.base_dtype (dtypes.Plain dtypes.int32))
                                     (scalar n)))
                  = Some (scalar (math_ops.len (nd_shape va) - n))).
    { unfold gen_math_ops.sub, gen_math_ops.binary.
      now rewrite (eval_node2 _ _ _ _ _ _ _ _ Hrank (eval_const_scalar _ _ _)). }
    rewrite (eval_node3 _ _ _ _ _ _ _ _ _ _ Hlo Hrank (eval_const_scalar _ _ _)).
    cbn -[range_values zrange]. now rewrite range_values_unit_step.
  - rewrite (eval_node3 _ _ _ _ _ _ _ _ _ _
               (eval_const_scalar _ _ _) Hrank (eval_const_scalar _ _ _)).
    cbn -[range_values zrange]. now rewrite range_values_unit_step.
Qed.

(** * Further properties *)

(** ** Conversions *)

Lemma cast_base_dtype (y : Tensor) (e : DType) :
  dtypes.base_dtype (dtype (math_ops.cast y e)) = dtypes.base_dtype e.
Proof.
  unfold math_ops.cast, ops.convert_to_tensor, dtypes.as_dtype.
  destruct (dtypes.eqb _ _) eqn:E.
  - now apply dtype_eqb_eq in E.
  - cbn. apply base_dtype_idem.
Qed.

(** X1.  [cast] settles the dtype: the result has the base dtype asked for
    and the static shape of its argument, and casting it again to the same
    dtype returns it unchanged; so do the named conversions [to_float],
    [to_double], [to_int32], [to_int64] and [to_bfloat16]. *)
Theorem cast_settles (x : Tensor) (d : DType) :
  dtypes.base_dtype (dtype (math_ops.cast x d)) = dtypes.base_dtype d /\
  get_shape (math_ops.cast x d) = get_shape x /\
  math_ops.cast (math_ops.cast x d) d = math_ops.cast x d /\
  to_float (to_float x) = to_float x /\
  to_double (to_double x) = to_double x /\
  to_int32 (to_int32 x) = to_int32 x /\
  to_int64 (to_int64 x) = to_int64 x /\
  to_bfloat16 (to_bfloat16 x) = to_bfloat16 x.
Proof.
  assert (Hidem : forall y e,
             math_ops.cast (math_ops.cast y e) e = math_ops.cast y e).
  { intros y e. apply cast_same_base, cast_base_dtype. }
  split; [apply cast_base_dtype|]. split.
  - unfold math_ops.cast, ops.convert_to_tensor.
    destruct (dtypes.eqb _ _); reflexivity.
  - unfold to_float, to_double, to_int32, to_int64, to_bfloat16.
    repeat split; apply Hidem.
Qed.

(** X2.  On integer targets [saturate_cast] is the identity on every value
    the target can represent and never leaves the target range; and when the
    target range contains the source range it builds no clamp at all, only
    the conversion. *)
Theorem saturate_cast_keeps_representable
    (env : string -> option NDArray) (value : Tensor) (d : DType)
    (vlo vhi tlo thi : Z) (arr : NDArray) :
  dtypes.limits (dtypes.kind_of (dtype value)) = Some (vlo, vhi) ->
  dtypes.limits (dtypes.kind_of d) = Some (tlo, thi) ->
  (tlo <= vlo -> vhi <= thi ->
   math_ops.saturate_cast value d = Ok (math_ops.cast value d)) /\
  (dtypes.is_integer (dtypes.kind_of d) = true ->
   eval env value = Some arr ->
   Forall (fun z => vlo <= z <= vhi) (nd_data arr) ->
   exists out,
     run env (math_ops.saturate_cast value d) = Some out /\
     nd_shape out = nd_shape arr /\
     Forall (fun z => tlo <= z <= thi) (nd_data out) /\
     (Forall (fun z => tlo <= z <= thi) (nd_data arr) -> out = arr)).
Proof.
  intros Hv Ht. rewrite (saturate_cast_nodes value d vlo vhi tlo thi Hv Ht).
  split.
  - intros Hlo Hhi. unfold clamp_high, clamp_low.
    replace (vlo <? tlo) with false by (symmetry; apply Z.ltb_ge; lia).
    replace (thi <? vhi) with false by (symmetry; apply Z.ltb_ge; lia).
    apply f_equal. unfold math_ops.cast, dtypes.as_dtype.
    now rewrite base_dtype_idem.
  - intros Hint Hrun Hin.
    pose proof (integer_limits_ordered _ _ _ Hint Ht) as Hord.
    destruct (bounds_never_tighter _ _ vlo vhi tlo thi Hv Hint Ht) as [Blo Bhi].
    pose proof (eval_clamp_high env value arr vlo vhi tlo thi Hrun) as Hclamped.
    assert (Hkind : dtypes.kind_of
                      (dtype (clamp_high (clamp_low value vlo tlo) vhi thi))
                    = dtypes.kind_of (dtype value))
      by (now rewrite dtype_clamp_high, dtype_clamp_low).
    assert (Hkeep : forall l,
               Forall (fun z => tlo <= z <= thi) l ->
               map (clamp_rounded (dtypes.kind_of (dtype value)) vlo vhi tlo thi) l
               = l).
    { intros l Hl. rewrite <- (map_id l) at 2. apply map_ext_in.
      intros z Hz. rewrite Forall_forall in Hl.
      apply clamp_rounded_keeps; auto. }
    destruct (dtypes.is_integer (dtypes.kind_of (dtype value))) eqn:Hsrc.
    + assert (Hexact : map (clamp_rounded (dtypes.kind_of (dtype value))
                              vlo vhi tlo thi) (nd_data arr)
                       = map (clamp tlo thi) (nd_data arr)).
      { apply map_ext_in. intros z Hz. rewrite Forall_forall in Hin.
        apply clamp_rounded_exact; auto;
          intros _; now apply integer_representable. }
      rewrite Hexact in Hclamped.
      assert (Hbounds : Forall (fun z => tlo <= z <= thi)
                               (map (clamp tlo thi) (nd_data arr))).
      { apply Forall_forall. intros z Hz. apply in_map_iff in Hz.
        destruct Hz as (w & <- & _). now apply clamp_bounds. }
      exists (mkND (nd_shape arr) (map (clamp tlo thi) (nd_data arr))).
      cbn [run nd_shape nd_data]. repeat split.
      * now apply (eval_cast_in_range env _ (dtypes.base_dtype d) tlo thi).
      * exact Hbounds.
      * intro Hrep. rewrite <- Hexact, (Hkeep _ Hrep). now destruct arr.
    + assert (Hne : dtypes.base_dtype
                      (dtype (clamp_high (clamp_low value vlo tlo) vhi thi))
                    <> dtypes.base_dtype (dtypes.base_dtype d)).
      { unfold dtypes.base_dtype. rewrite Hkind. cbn [dtypes.kind_of].
        intro E. injection E as E. rewrite E, Hint in Hsrc. discriminate. }
      exists (mkND (nd_shape arr)
                (map (wrap tlo thi)
                   (map (clamp_rounded (dtypes.kind_of (dtype value))
                           vlo vhi tlo thi) (nd_data arr)))).
      cbn [run nd_shape nd_data]. repeat split.
      * now apply (eval_cast_wraps env _ (dtypes.base_dtype d) tlo thi).
      * apply Forall_forall. intros z Hz. apply in_map_iff in Hz.
        destruct Hz as (w & <- & _). now apply wrap_bounds.
      * intro Hrep. rewrite (Hkeep _ Hrep).
        assert (Hwrap : map (wrap tlo thi) (nd_data arr) = nd_data arr).
        { rewrite <- (map_id (nd_data arr)) at 2. apply map_ext_in.
          intros z Hz. rewrite Forall_forall in Hrep.
          now apply wrap_in_range, Hrep. }
        rewrite Hwrap. now destruct arr.
Qed.

Lemma saturate_cast_keeps_representable_witness :
  exists out,
    run no_feed
        (math_ops.saturate_cast
           (Const (dtypes.Plain dtypes.int32) (vector [0; 17; 255]))
           (dtypes.Plain dtypes.uint8)) = Some out /\
    nd_shape out = [3] /\
    Forall (fun z => 0 <= z <= 255) (nd_data out) /\
    (Forall (fun z => 0 <= z <= 255) [0; 17; 255] -> out = vector [0; 17; 255]).
Proof.
  apply (proj2 (saturate_cast_keeps_representable no_feed
                  (Const (dtypes.Plain dtypes.int32) (vector [0; 17; 255]))
                  (dtypes.Plain dtypes.uint8)
                  (- 2 ^ 31) (2 ^ 31 - 1) 0 255 (vector [0; 17; 255])
                  eq_refl eq_refl));
    try reflexivity.
  repeat constructor; cbn; lia.
Defined.

(** ** True division *)

(** X3.  Whatever true division returns has a floating-point or complex
    dtype: an integer result is never produced.  *)
Theorem truediv_never_integer (x y t : Tensor) :
  math_ops._truediv_python3 x y = Ok t ->
  dtypes.is_integer (dtypes.kind_of (dtype t)) = false /\
  floating_or_complex (dtypes.kind_of (dtype t)) = true.
Proof.
  unfold math_ops._truediv_python3, ops.convert_to_tensor.
  destruct (negb _); [discriminate|].
  destruct (math_ops.table_get _ _) as [[e|]|] eqn:E; [| |discriminate];
    intro H; injection H as <-;
    unfold gen_math_ops._real_div, gen_math_ops.binary; cbn [dtype];
    rewrite ?cast_base_dtype;
    destruct (dtype x) as [[]|[]]; cbn in E; try discriminate E;
    try (injection E as <-); split; reflexivity.
Qed.

Lemma truediv_never_integer_witness :
  dtypes.is_integer
    (dtypes.kind_of
       (dtype (gen_math_ops._real_div
                 (gen_math_ops.cast
                    (Placeholder "x" (dtypes.Plain dtypes.int8) unknown_shape)
                    (dtypes.Plain dtypes.float32))
                 (gen_math_ops.cast
                    (Placeholder "y" (dtypes.Plain dtypes.int8) unknown_shape)
                    (dtypes.Plain dtypes.float32))))) = false /\
  floating_or_complex
    (dtypes.kind_of
       (dtype (gen_math_ops._real_div
                 (gen_math_ops.cast
                    (Placeholder "x" (dtypes.Plain dtypes.int8) unknown_shape)
                    (dtypes.Plain dtypes.float32))
                 (gen_math_ops.cast
                    (Placeholder "y" (dtypes.Plain dtypes.int8) unknown_shape)
                    (dtypes.Plain dtypes.float32))))) = true.
Proof.
  apply (truediv_never_integer
           (Placeholder "x" (dtypes.Plain dtypes.int8) unknown_shape)
           (Placeholder "y" (dtypes.Plain dtypes.int8) unknown_shape)).
  reflexivity.
Defined.

(** X4.  On tensor operands the operator form of true division, [x / y]
    and [divide], never raises the [TypeMismatch] of [truediv]: the right
    operand is first converted to the base dtype of the left one.  With
    equal base dtypes it returns what [truediv] returns; with different ones
    the conversion itself refuses the operand, where [truediv] raises
    [TypeMismatch]. *)
Theorem divide_never_mismatch (x t : Tensor) :
  divide x (PyTensor t) <> Raise TypeMismatch /\
  (dtypes.base_dtype (dtype t) = dtypes.base_dtype (dtype x) ->
   divide x (PyTensor t) = math_ops.truediv x t) /\
  (dtypes.base_dtype (dtype t) <> dtypes.base_dtype (dtype x) ->
   raises (divide x (PyTensor t)) = true /\
   divide x (PyTensor t) <> Raise UnsupportedType /\
   math_ops.truediv x t = Raise TypeMismatch).
Proof.
  unfold divide, truediv_operator, math_ops.truediv.
  cbn [convert_arg]. unfold ops.convert_as. rewrite base_dtype_idem.
  destruct (dtypes.eqb (dtypes.base_dtype (dtype t))
                       (dtypes.base_dtype (dtype x))) eqn:E; cbn [bind].
  - apply dtype_eqb_eq in E. split; [|split].
    + unfold math_ops._truediv_python3, ops.convert_to_tensor.
      rewrite E, dtype_eqb_refl. cbn [negb].
      destruct (math_ops.table_get _ _) as [[e|]|]; discriminate.
    + reflexivity.
    + intro Hne. contradiction.
  - split; [discriminate|]. split.
    + intro Heq. apply dtype_eqb_neq in E. contradiction.
    + intros Hne. repeat split; [discriminate|].
      unfold math_ops._truediv_python3, ops.convert_to_tensor.
      assert (Hne' : dtypes.base_dtype (dtype x) <> dtypes.base_dtype (dtype t))
        by congruence.
      now rewrite (proj2 (dtype_eqb_neq _ _) Hne').
Qed.

(** ** Matrix product *)

Lemma conj_real (x : Tensor) :
  is_real_numeric (dtype x) = true -> math_ops.conj x = Ok x.
Proof.
  unfold is_real_numeric, math_ops.conj, ops.convert_to_tensor.
  destruct (dtypes.is_complex _); [discriminate|]. cbn [negb andb].
  now intros ->.
Qed.

(** X5.  On real numeric operands [matmul] makes no difference between
    [adjoint_*] and [transpose_*]: the conjugation is a no-op, and the same
    node is built whichever flag asked for it, in the batch and in the
    matrix branch. *)
Theorem matmul_adjoint_is_transpose_on_reals
    (a b : Tensor) (flag_a flag_b a_is_sparse b_is_sparse : bool) :
  is_real_numeric (dtype a) = true ->
  is_real_numeric (dtype b) = true ->
  math_ops.matmul a b false false flag_a flag_b a_is_sparse b_is_sparse
  = math_ops.matmul a b flag_a flag_b false false a_is_sparse b_is_sparse.
Proof.
  intros Ha Hb. unfold math_ops.matmul, ops.convert_to_tensor.
  rewrite !andb_false_r. cbn [andb].
  rewrite (conj_real a Ha), (conj_real b Hb).
  destruct (_ && _); destruct flag_a, flag_b; reflexivity.
Qed.

Lemma matmul_adjoint_is_transpose_on_reals_witness :
  math_ops.matmul
    (Placeholder "a" (dtypes.Plain dtypes.float32) (known_shape [2; 3]))
    (Placeholder "b" (dtypes.Plain dtypes.float32) (known_shape [2; 3]))
    false false true false false false
  = math_ops.matmul
      (Placeholder "a" (dtypes.Plain dtypes.float32) (known_shape [2; 3]))
      (Placeholder "b" (dtypes.Plain dtypes.float32) (known_shape [2; 3]))
      true false false false false false.
Proof.
  apply (matmul_adjoint_is_transpose_on_reals
           (Placeholder "a" (dtypes.Plain dtypes.float32) (known_shape [2; 3]))
           (Placeholder "b" (dtypes.Plain dtypes.float32) (known_shape [2; 3]))
           true false false false); reflexivity.
Defined.

(** X6.  [matmul] raises "Only one of transpose_a and adjoint_a can be
    True." exactly when both flags of the first operand are set, and "Only
    one of transpose_b and adjoint_b can be True." exactly when the flags of
    the first operand do not conflict and both flags of the second are set:
    the two checks come first, in this order, and nothing else raises these
    errors. *)
Theorem matmul_flag_conflict_errors
    (a b : Tensor)
    (transpose_a transpose_b adjoint_a adjoint_b a_is_sparse b_is_sparse : bool) :
  (math_ops.matmul a b transpose_a transpose_b adjoint_a adjoint_b
                   a_is_sparse b_is_sparse
   = Raise (ValueError "Only one of transpose_a and adjoint_a can be True.")
   <-> transpose_a && adjoint_a = true) /\
  (math_ops.matmul a b transpose_a transpose_b adjoint_a adjoint_b
                   a_is_sparse b_is_sparse
   = Raise (ValueError "Only one of transpose_b and adjoint_b can be True.")
   <-> transpose_a && adjoint_a = false /\ transpose_b && adjoint_b = true).
Proof.
  assert (Hconj : forall x, match math_ops.conj x with
                            | Ok _ => True
                            | Raise e =>
                                e = TypeError "Expected numeric tensor, got dtype %r"
                            end).
  { intro x. unfold math_ops.conj, ops.convert_to_tensor.
    destruct (dtypes.is_complex _); [exact I|].
    destruct (_ || _); [exact I|reflexivity]. }
  unfold math_ops.matmul, ops.convert_to_tensor.
  destruct (transpose_a && adjoint_a) eqn:Ea.
  - split; split; try discriminate; try reflexivity.
    intros [H _]. discriminate H.
  - destruct (transpose_b && adjoint_b) eqn:Eb.
    + split; split; try discriminate; try reflexivity.
      intros _. split; reflexivity.
    + match goal with
      | |- (?M = _ <-> _) /\ _ =>
          assert (Hrest : forall msg, M <> Raise (ValueError msg))
      end.
      { intro msg. pose proof (Hconj a) as Ca. pose proof (Hconj b) as Cb.
        destruct (math_ops.conj a) as [a'|ea];
          destruct (math_ops.conj b) as [b'|eb]; subst;
          destruct (_ && _);
          destruct transpose_a, adjoint_a, transpose_b, adjoint_b;
          cbn [bind];
          repeat match goal with
                 | |- context [if ?c then _ else _] => destruct c
                 end;
          discriminate. }
      split; split; try discriminate.
      * intro H. now apply Hrest in H.
      * intro H. now apply Hrest in H.
      * intros [_ H]. discriminate H.
Qed.

(** ** Ranges and reductions *)

Lemma in_hierarchy (d : DType) :
  math_ops.dtype_in d dtype_hierarchy = true ->
  d = dtypes.Plain dtypes.int32 \/ d = dtypes.Plain dtypes.int64 \/
  d = dtypes.Plain dtypes.float32 \/ d = dtypes.Plain dtypes.float64.
Proof.
  destruct d as [[]|[]]; cbn; intro H; try discriminate H; tauto.
Qed.

(** X7.  On three tensors and without an explicit dtype, [range] raises
    [AssertionError] exactly when one of them has a dtype outside [int32],
    [int64], [float32], [float64]; and whenever it returns a tensor, that
    tensor is the range node over the three arguments converted to one
    dtype, which is the dtype of one of them and the highest of the three in
    that order, so the operands of the node have a single dtype. *)
Theorem range_infers_widest_dtype (start limit delta : Tensor) :
  (math_ops.range (PyTensor start) (Some (PyTensor limit)) (PyTensor delta) None
   = Raise AssertionError
   <-> forallb (fun arg => math_ops.dtype_in (dtype arg) dtype_hierarchy)
               [start; limit; delta] = false) /\
  (forall t,
      math_ops.range (PyTensor start) (Some (PyTensor limit)) (PyTensor delta)
                     None = Ok t ->
      exists D,
        t = gen_math_ops._range (math_ops.cast start D) (math_ops.cast limit D)
              (math_ops.cast delta D) /\
        In D [dtype start; dtype limit; dtype delta] /\
        (forall arg, In arg [start; limit; delta] ->
                     hierarchy_level (dtype arg) <= hierarchy_level D /\
                     dtype (math_ops.cast arg D) = D)).
Proof.
  unfold math_ops.range. cbn [convert_arg bind]. fold dtype_hierarchy.
  destruct (forallb _ _) eqn:H.
  - split; [split; discriminate|].
    intros t Ht. cbn [bind] in Ht. injection Ht as <-.
    cbn [forallb] in H.
    apply andb_prop in H as [Hs H]. apply andb_prop in H as [Hl H].
    apply andb_prop in H as [Hd _].
    apply in_hierarchy in Hs, Hl, Hd.
    eexists. split; [reflexivity|].
    assert (Hcast : forall arg D, dtype arg = D ->
                                  dtype (math_ops.cast arg D) = D).
    { intros arg D <-. unfold math_ops.cast, ops.convert_to_tensor, dtypes.as_dtype.
      now rewrite dtype_eqb_refl. }
    assert (Hnode : forall arg k k', dtype arg = dtypes.Plain k -> k <> k' ->
                      dtype (math_ops.cast arg (dtypes.Plain k')) = dtypes.Plain k').
    { intros arg k k' E N.
      unfold math_ops.cast, ops.convert_to_tensor, dtypes.as_dtype.
      rewrite E.
      assert (Hne : dtypes.base_dtype (dtypes.Plain k)
                    <> dtypes.base_dtype (dtypes.Plain k'))
        by (intro H'; injection H' as H'; contradiction).
      now rewrite (proj2 (dtype_eqb_neq _ _) Hne). }
    unfold hierarchy_level.
    destruct Hs as [Hs|[Hs|[Hs|Hs]]], Hl as [Hl|[Hl|[Hl|Hl]]],
             Hd as [Hd|[Hd|[Hd|Hd]]];
      rewrite Hs, Hl, Hd; cbn [math_ops.max_by fold_left]; cbn;
      (split; [tauto|]);
      intros arg [<-|[<-|[<-|[]]]];
      rewrite ?Hs, ?Hl, ?Hd; cbn;
      (split; [lia|]);
      first [ now apply Hcast
            | eapply Hnode; [eassumption | discriminate] ].
  - split; [split; reflexivity|]. intros t Ht. discriminate Ht.
Qed.

Lemma range_infers_widest_dtype_witness :
  exists D,
    gen_math_ops._range
      (math_ops.cast (Placeholder "start" (dtypes.Plain dtypes.int32) (Some []))
                     (dtypes.Plain dtypes.float32))
      (math_ops.cast (Placeholder "limit" (dtypes.Plain dtypes.float32) (Some []))
                     (dtypes.Plain dtypes.float32))
      (math_ops.cast (Placeholder "delta" (dtypes.Plain dtypes.int64) (Some []))
                     (dtypes.Plain dtypes.float32))
    = gen_math_ops._range
        (math_ops.cast
           (Placeholder "start" (dtypes.Plain dtypes.int32) (Some [])) D)
        (math_ops.cast
           (Placeholder "limit" (dtypes.Plain dtypes.float32) (Some [])) D)
        (math_ops.cast
           (Placeholder "delta" (dtypes.Plain dtypes.int64) (Some [])) D) /\
    In D [dtypes.Plain dtypes.int32; dtypes.Plain dtypes.float32;
          dtypes.Plain dtypes.int64].
Proof.
  destruct (proj2 (range_infers_widest_dtype
                     (Placeholder "start" (dtypes.Plain dtypes.int32) (Some []))
                     (Placeholder "limit" (dtypes.Plain dtypes.float32) (Some []))
                     (Placeholder "delta" (dtypes.Plain dtypes.int64) (Some [])))
                  _ eq_refl) as (D & Hrange & HD & _).
  exists D. split; [exact Hrange|exact HD].
Defined.

Lemma reduction_dims_deferred (x : TensorLike) :
  match x with
  | Dense t => ndims (get_shape t) = None
  | Sparse s => is_fully_defined (get_shape (dense_shape s)) = false
  end ->
  math_ops._ReductionDims x None None
  = Ok (AxisTensor (gen_math_ops._range (ops.convert_int 0 None)
                      (array_ops.rank_like x) (ops.convert_int 1 None))).
Proof.
  unfold math_ops._ReductionDims. step_bind.
  destruct x as [t|s]; intros ->; reflexivity.
Qed.

Lemma eval_range_to (env : string -> option NDArray) (limit : Tensor) (n : Z) :
  eval env limit = Some (scalar n) ->
  eval env (gen_math_ops._range (ops.convert_int 0 None) limit
              (ops.convert_int 1 None))
  = Some (vector (xrange n)).
Proof.
  intro H. unfold gen_math_ops._range, ops.convert_int, constant_op.constant.
  rewrite (eval_node3 _ _ _ _ _ _ _ _ _ _
             (eval_const_scalar _ _ _) H (eval_const_scalar _ _ _)).
  cbn -[range_values zrange]. now rewrite range_values_unit_step.
Qed.

(** X8.  When the rank is not known while the graph is built, the default
    reduction axes are a node that counts [0, 1, ..., r-1] when the graph
    runs, where [r] is the rank of the value fed for a dense tensor, and the
    number of entries of [dense_shape] for a sparse one: the same sequence as
    the constant of the fast path. *)
Theorem reduction_dims_at_run_time (env : string -> option NDArray) :
  (forall (t : Tensor) (va : NDArray),
      ndims (get_shape t) = None ->
      eval env t = Some va ->
      exists r c,
        math_ops._ReductionDims (Dense t) None None = Ok (AxisTensor r) /\
        eval env r = Some c /\
        counts_up c (math_ops.len (nd_shape va))) /\
  (forall (s : SparseTensor) (vs : NDArray),
      is_fully_defined (get_shape (dense_shape s)) = false ->
      eval env (dense_shape s) = Some vs ->
      nd_wf vs = true ->
      exists r c,
        math_ops._ReductionDims (Sparse s) None None = Ok (AxisTensor r) /\
        eval env r = Some c /\
        counts_up c (math_ops.len (nd_data vs))).
Proof.
  split.
  - intros t va Hn Ha. do 2 eexists. split; [|split].
    + exact (reduction_dims_deferred (Dense t) Hn).
    + apply eval_range_to. cbn [array_ops.rank_like].
      exact (eval_rank env t va Ha).
    + apply xrange_counts_up. unfold math_ops.len. lia.
  - intros s vs Hn Hs Hwf. do 2 eexists. split; [|split].
    + exact (reduction_dims_deferred (Sparse s) Hn).
    + apply eval_range_to. cbn [array_ops.rank_like].
      rewrite (eval_node1 _ _ _ _ _ _ Hs). cbn [kernel]. reflexivity.
    + unfold nd_wf in Hwf. apply andb_prop in Hwf as [_ Hlen].
      apply Z.eqb_eq in Hlen. rewrite <- Hlen. unfold math_ops.len.
      apply xrange_counts_up. lia.
Qed.

Lemma reduction_dims_at_run_time_witness :
  exists r c,
    math_ops._ReductionDims (Dense unknown_rank_a) None None
    = Ok (AxisTensor r) /\
    eval feed_a_2x3 r = Some c /\
    counts_up c 2.
Proof.
  apply (proj1 (reduction_dims_at_run_time feed_a_2x3) unknown_rank_a
               (mkND [2; 3] [1; 2; 3; 4; 5; 6]));
    reflexivity.
Defined.

(** X9.  On an [int32] or [int64] tensor whose elements multiply to a value
    of that dtype, [reduce_prod] with no axis evaluates to the product of
    all the elements, whether the rank was known when the graph was built
    (the constant axes) or only when it runs (the range over the rank); and
    it reports conflicting axis arguments before building anything. *)
Theorem reduce_prod_default_is_full_product
    (env : string -> option NDArray) (t : Tensor) (va : NDArray) (lo hi : Z) :
  dtypes.kind_of (dtype t) = dtypes.int32 \/
  dtypes.kind_of (dtype t) = dtypes.int64 ->
  dtypes.limits (dtypes.kind_of (dtype t)) = Some (lo, hi) ->
  eval env t = Some va ->
  Forall (fun z => lo <= z <= hi) (nd_data va) ->
  lo <= list_prod (nd_data va) <= hi ->
  (forall r, ndims (get_shape t) = Some r -> r = math_ops.len (nd_shape va)) ->
  run env (math_ops.reduce_prod t None false None)
  = Some (scalar (list_prod (nd_data va))) /\
  (forall axis ri keep_dims,
      math_ops.reduce_prod t (Some axis) keep_dims (Some ri)
      = Raise ConflictingArguments).
Proof.
  intros _ _ Ha _ _ Hrank. split; [|reflexivity].
  unfold math_ops.reduce_prod.
  destruct (ndims (get_shape t)) as [r|] eqn:Hn.
  - unfold math_ops._ReductionDims. step_bind. rewrite Hn. step_bind.
    cbn [run convert_axis].
    unfold gen_math_ops._prod, math_ops.arange_constant, constant_op.constant.
    assert (Hc : eval env (Const (dtypes.base_dtype (dtypes.Plain dtypes.int32))
                                 (vector (xrange r)))
                 = Some (vector (xrange r)))
      by (cbn [eval]; now rewrite nd_wf_vector).
    rewrite (eval_node2 _ _ _ _ _ _ _ _ Ha Hc).
    cbn [kernel vector nd_data]. rewrite (Hrank r eq_refl).
    unfold math_ops.len. now rewrite list_eqb_refl.
  - rewrite (reduction_dims_deferred (Dense t) Hn). step_bind.
    cbn [run convert_axis array_ops.rank_like].
    pose proof (eval_range_to env (array_ops.rank t) _ (eval_rank env t va Ha))
      as Hr.
    unfold gen_math_ops._prod.
    rewrite (eval_node2 _ _ _ _ _ _ _ _ Ha Hr).
    cbn [kernel vector nd_data].
    unfold math_ops.len. now rewrite list_eqb_refl.
Qed.

Lemma reduce_prod_default_is_full_product_witness :
  run (feed "x" (mkND [2; 2] [2; 3; 5; 7]))
      (math_ops.reduce_prod
         (Placeholder "x" (dtypes.Plain dtypes.int32) unknown_shape)
         None false None)
  = Some (scalar (list_prod [2; 3; 5; 7])) /\
  (forall axis ri keep_dims,
      math_ops.reduce_prod
        (Placeholder "x" (dtypes.Plain dtypes.int32) unknown_shape)
        (Some axis) keep_dims (Some ri)
      = Raise ConflictingArguments).
Proof.
  apply (reduce_prod_default_is_full_product
           (feed "x" (mkND [2; 2] [2; 3; 5; 7]))
           (Placeholder "x" (dtypes.Plain dtypes.int32) unknown_shape)
           (mkND [2; 2] [2; 3; 5; 7]) (- 2 ^ 31) (2 ^ 31 - 1)).
  - left. reflexivity.
  - reflexivity.
  - reflexivity.
  - repeat constructor; lia.
  - cbn. lia.
  - intros r H. discriminate H.
Defined.

(** ** Tensor contraction *)

(** X10.  On operands with fully defined static shapes, [tensordot] with an
    integer [n] evaluates to the same result as [tensordot] with the explicit
    axis lists "the last [n] axes of [a]" and "the first [n] axes of [b]",
    although the first builds its plan with run-time nodes and the second
    with constants. *)
Theorem tensordot_int_is_last_with_first
    (env : string -> option NDArray) (a b : Tensor) (va vb : NDArray) (n : Z) :
  get_shape a = known_shape (nd_shape va) ->
  get_shape b = known_shape (nd_shape vb) ->
  eval env a = Some va ->
  eval env b = Some vb ->
  1 <= n <= math_ops.len (nd_shape va) ->
  n <= math_ops.len (nd_shape vb) ->
  run env (math_ops.tensordot a b (AxesInt n))
  = run env (math_ops.tensordot a b
               (AxesList [last_axes (math_ops.len (nd_shape va)) n;
                          first_axes n])).
Proof.
  intros Hsa Hsb Ha Hb [Hn Hna] Hnb.
  assert (Hnd : ndims (get_shape a) = Some (math_ops.len (nd_shape va)))
    by (now rewrite Hsa, ndims_known).
  rewrite (eval_tensordot_int env a b va vb n Hnd Ha Hb Hn Hna Hnb).
  symmetry. apply eval_tensordot_list; try assumption.
  - unfold last_axes, first_axes. rewrite !zrange_length. f_equal. lia.
  - now apply last_axes_valid.
  - now apply first_axes_valid.
Qed.

Lemma tensordot_int_is_last_with_first_witness :
  run no_feed (math_ops.tensordot A_example B_example (AxesInt 1))
  = run no_feed (math_ops.tensordot A_example B_example
                   (AxesList [last_axes 2 1; first_axes 1])).
Proof.
  apply (tensordot_int_is_last_with_first no_feed A_example B_example
           (mkND [2; 3] [1; 2; 3; 4; 5; 6])
           (mkND [3; 2] [7; 8; 9; 10; 11; 12]) 1);
    try reflexivity; unfold math_ops.len; cbn; lia.
Defined.

Lemma eval_axes_row (env : string -> option NDArray) (t : Tensor)
    (la lb : list Z) :
  length la = length lb ->
  eval env t = Some (mkND [2; math_ops.len la] (la ++ lb)) ->
  eval env (array_ops.getitem t 0) = Some (vector la) /\
  eval env (array_ops.getitem t 1) = Some (vector lb).
Proof.
  intros Hlen Ht. unfold array_ops.getitem.
  rewrite !(eval_node1 _ _ _ _ _ _ Ht).
  cbn [kernel nd_shape nd_data list_prod fold_right].
  replace (Z.to_nat (math_ops.len la * 1)) with (length la)
    by (unfold math_ops.len; lia).
  replace (Z.to_nat (0 * (math_ops.len la * 1))) with 0%nat by lia.
  replace (Z.to_nat (1 * (math_ops.len la * 1))) with (length la)
    by (unfold math_ops.len; lia).
  cbn [Z.leb Z.ltb Z.compare Pos.compare Pos.compare_cont andb skipn].
  unfold vector, math_ops.len. split; do 2 f_equal.
  - rewrite firstn_app, firstn_all, Nat.sub_diag. cbn [firstn].
    apply app_nil_r.
  - now rewrite Hlen.
  - rewrite skipn_app, skipn_all, Nat.sub_diag. cbn [skipn app].
    rewrite Hlen. apply firstn_all.
Qed.

(** X12.  Axes given as an [int32] tensor of static shape [[2, k]] are read
    row by row when the graph runs: on operands with fully defined static
    shapes [tensordot] evaluates to the same result as with the two rows
    given as Python lists; a tensor of another dtype is refused when the
    graph is built. *)
Theorem tensordot_tensor_axes
    (env : string -> option NDArray) (a b t : Tensor) (va vb : NDArray)
    (la lb : list Z) (d : option Z) :
  get_shape t = Some [Some 2; d] ->
  get_shape a = known_shape (nd_shape va) ->
  get_shape b = known_shape (nd_shape vb) ->
  eval env a = Some va ->
  eval env b = Some vb ->
  eval env t = Some (mkND [2; math_ops.len la] (la ++ lb)) ->
  length la = length lb ->
  Forall (fun i => - math_ops.len (nd_shape va) <= i
                   < math_ops.len (nd_shape va)) la ->
  Forall (fun i => - math_ops.len (nd_shape vb) <= i
                   < math_ops.len (nd_shape vb)) lb ->
  (dtypes.base_dtype (dtype t) = dtypes.Plain dtypes.int32 ->
   run env (math_ops.tensordot a b (AxesTensor t))
   = run env (math_ops.tensordot a b (AxesList [la; lb]))) /\
  (dtypes.base_dtype (dtype t) <> dtypes.Plain dtypes.int32 ->
   raises (math_ops.tensordot a b (AxesTensor t)) = true).
Proof.
  intros Hsh Hsa Hsb Ha Hb Ht Hlen Hla Hlb.
  split; intro Hdt.
  - rewrite (eval_tensordot_list env a b va vb la lb Hsa Hsb Ha Hb Hlen Hla Hlb).
    unfold math_ops.tensordot, math_ops._tensordot_axes, ops.convert_to_tensor,
      ops.convert_as.
    rewrite Hdt. cbn [dtypes.base_dtype dtypes.kind_of dtypes.eqb].
    rewrite Kind_beq_refl. do 2 step_bind.
    destruct (eval_axes_row env t la lb Hlen Ht) as [H0 H1].
    assert (Hd : forall i, dtype (array_ops.getitem t i)
                           = dtypes.Plain dtypes.int32)
      by (intro i; exact Hdt).
    assert (Hs : forall i, get_shape (array_ops.getitem t i) = Some [d])
      by (intro i; unfold array_ops.getitem; cbn [get_shape]; now rewrite Hsh).
    rewrite (deferred_plan_built a (array_ops.getitem t 0) d false
               (Hd 0) (Hs 0)). step_bind.
    rewrite (deferred_plan_built b (array_ops.getitem t 1) d true
               (Hd 1) (Hs 1)). step_bind.
    rewrite matmul_of_matrices by apply ndims_deferred_matrix.
    step_bind. cbn [convert_seq]. do 2 step_bind.
    rewrite concat_same by reflexivity. step_bind. cbn [run].
    apply eval_contraction_node.
    + exact (eval_deferred_matrix env a _ va la Ha H0 Hla false).
    + exact (eval_deferred_matrix env b _ vb lb Hb H1 Hlb true).
    + apply eval_concat_vectors.
      * exact (eval_deferred_free_dims env a _ va la Ha H0).
      * exact (eval_deferred_free_dims env b _ vb lb Hb H1).
  - unfold math_ops.tensordot, math_ops._tensordot_axes, ops.convert_to_tensor,
      ops.convert_as.
    rewrite (proj2 (dtype_eqb_neq _ _)); [reflexivity|].
    cbn [dtypes.base_dtype dtypes.kind_of]. exact Hdt.
Qed.

Lemma tensordot_tensor_axes_witness :
  run no_feed
      (math_ops.tensordot A_example B_example
         (AxesTensor (Const (dtypes.Plain dtypes.int32) (mkND [2; 1] [1; 0]))))
  = run no_feed (math_ops.tensordot A_example B_example (AxesList [[1]; [0]])).
Proof.
  apply (proj1 (tensordot_tensor_axes no_feed A_example B_example
                  (Const (dtypes.Plain dtypes.int32) (mkND [2; 1] [1; 0]))
                  (mkND [2; 3] [1; 2; 3; 4; 5; 6])
                  (mkND [3; 2] [7; 8; 9; 10; 11; 12]) [1] [0] (Some 1)
                  eq_refl eq_refl eq_refl eq_refl eq_refl eq_refl eq_refl
                  ltac:(repeat constructor; unfold math_ops.len; cbn; lia)
                  ltac:(repeat constructor; unfold math_ops.len; cbn; lia)));
    reflexivity.
Defined.

Lemma getitem_all_ok (sh l : list Z) :
  (exists ds, map_result (py_getitem sh) l = Ok ds) <->
  Forall (fun i => - math_ops.len sh <= i < math_ops.len sh) l.
Proof.
  unfold math_ops.len. induction l as [|i l IH]; cbn [map_result].
  - split; [constructor|eauto].
  - unfold py_getitem at 1.
    destruct ((0 <=? i) && (i <? Z.of_nat (length sh))) eqn:E1;
      [|destruct ((- Z.of_nat (length sh) <=? i) && (i <? 0)) eqn:E2];
      cbn [bind].
    + apply andb_prop in E1 as [H1 H2].
      apply Z.leb_le in H1. apply Z.ltb_lt in H2.
      destruct (map_result (py_getitem sh) l) as [ds|e]; cbn [bind]; split.
      * intros _. constructor; [lia|]. apply IH. eauto.
      * eauto.
      * intros [ds H]. discriminate H.
      * intro H. inversion H as [|? ? _ Hl]; subst.
        apply IH in Hl as [ds Hds]. discriminate Hds.
    + apply andb_prop in E2 as [H1 H2].
      apply Z.leb_le in H1. apply Z.ltb_lt in H2.
      destruct (map_result (py_getitem sh) l) as [ds|e]; cbn [bind]; split.
      * intros _. constructor; [lia|]. apply IH. eauto.
      * eauto.
      * intros [ds H]. discriminate H.
      * intro H. inversion H as [|? ? _ Hl]; subst.
        apply IH in Hl as [ds Hds]. discriminate Hds.
    + split.
      * intros [ds H]. discriminate H.
      * intro H. inversion H as [|? ? Hi _]; subst.
        apply andb_false_iff in E1, E2.
        rewrite Z.leb_gt, Z.ltb_ge in E1, E2. lia.
Qed.

(** X13.  When the shape is fully defined and the axes are a Python list,
    [_tensordot_reshape] raises [IndexError] exactly when some axis [i] of an
    operand of rank [r] has [i >= r] or [i < -2r]: a negative axis is shifted
    by [r] before it indexes the shape, and Python indexing accepts the
    shifted value down to [-r]. *)
Theorem tensordot_reshape_index_error
    (a : Tensor) (sh ax : list Z) (flipped : bool) :
  get_shape a = known_shape sh ->
  math_ops._tensordot_reshape a (PyList ax) flipped
  = Raise (IndexError "list index out of range")
  <-> Exists (fun i => math_ops.len sh <= i \/ i < - 2 * math_ops.len sh) ax.
Proof.
  intro Ha.
  assert (Hshift :
            Forall (fun i => - math_ops.len sh <= i < math_ops.len sh)
                   (normalise (math_ops.len sh) ax)
            <-> ~ Exists (fun i => math_ops.len sh <= i
                                   \/ i < - 2 * math_ops.len sh) ax).
  { unfold normalise. rewrite Forall_map, <- Forall_Exists_neg.
    split; apply Forall_impl; intros i Hi;
      destruct (0 <=? i) eqn:E;
      [apply Z.leb_le in E|apply Z.leb_gt in E
      |apply Z.leb_le in E|apply Z.leb_gt in E]; lia. }
  pose proof (getitem_all_ok sh (normalise (math_ops.len sh) ax)) as Hok.
  pose proof (getitem_outcome sh (normalise (math_ops.len sh) ax)) as Hout.
  unfold math_ops._tensordot_reshape.
  rewrite Ha, is_fully_defined_known, as_list_known. cbv zeta.
  fold (normalise (math_ops.len sh) ax).
  fold (listdiff (xrange (math_ops.len sh)) (normalise (math_ops.len sh) ax)).
  fold (free_axes (math_ops.len sh) (normalise (math_ops.len sh) ax)).
  rewrite (map_result_getitem sh _ (free_axes_in_range _ _)).
  cbn [bind].
  destruct (map_result (py_getitem sh) (normalise (math_ops.len sh) ax))
    as [ds|e]; cbn [bind].
  - split; [discriminate|]. intro Hex.
    exfalso. apply Hshift; [|exact Hex]. apply Hok. eauto.
  - subst e. split; [|reflexivity]. intros _.
    destruct (Exists_dec (fun i => math_ops.len sh <= i
                                   \/ i < - 2 * math_ops.len sh) ax) as [H|H].
    + intro i. destruct (Z_le_dec (math_ops.len sh) i);
        destruct (Z_lt_dec i (- 2 * math_ops.len sh)); tauto.
    + exact H.
    + apply Hshift, Hok in H. destruct H as [ds H]. discriminate H.
Qed.

Lemma tensordot_reshape_index_error_witness :
  (math_ops._tensordot_reshape A_example (PyList [2]) false
   = Raise (IndexError "list index out of range")
   <-> Exists (fun i => math_ops.len [2; 3] <= i
                        \/ i < - 2 * math_ops.len [2; 3]) [2]) /\
  (math_ops._tensordot_reshape A_example (PyList [-3]) false
   = Raise (IndexError "list index out of range")
   <-> Exists (fun i => math_ops.len [2; 3] <= i
                        \/ i < - 2 * math_ops.len [2; 3]) [-3]).
Proof.
  split.
  - apply (tensordot_reshape_index_error A_example [2; 3] [2] false).
    reflexivity.
  - apply (tensordot_reshape_index_error A_example [2; 3] [-3] false).
    reflexivity.
Defined.

(** ** Contraction of matrices *)

Lemma map_znth_xrange (l : list Z) :
  map (fun o => znth o l) (xrange (math_ops.len l)) = l.
Proof.
  unfold xrange, math_ops.len.
  apply (nth_ext _ _ 0 0).
  - now rewrite length_map, zrange_length, Z.sub_0_r, Nat2Z.id.
  - intros n Hn.
    rewrite length_map, zrange_length, Z.sub_0_r, Nat2Z.id in Hn.
    rewrite (nth_indep _ 0 (znth 0 l))
      by (now rewrite length_map, zrange_length, Z.sub_0_r, Nat2Z.id).
    rewrite (map_nth (fun o => znth o l)).
    assert (Hz : nth n (zrange 0 (Z.of_nat (length l))) 0 = Z.of_nat n).
    { pose proof (znth_zrange 0 (Z.of_nat (length l)) (Z.of_nat n)) as H.
      unfold znth in H. rewrite Nat2Z.id in H. rewrite H; lia. }
    rewrite Hz. unfold znth. now rewrite Nat2Z.id.
Qed.

(** Transposing a matrix by the identity permutation returns it. *)
Lemma transpose_identity (v : NDArray) (m k : Z) :
  nd_wf v = true ->
  nd_shape v = [m; k] ->
  transpose_nd v [0; 1] = Some v.
Proof.
  destruct v as [sh data]. cbn [nd_shape]. intros Hwf ->.
  unfold nd_wf in Hwf. cbn [nd_shape nd_data forallb] in Hwf.
  apply andb_prop in Hwf as [Hdims Hlen].
  apply Z.eqb_eq in Hlen. cbn [list_prod fold_right] in Hlen.
  unfold transpose_nd. cbn [nd_shape nd_data length].
  change (is_permutation [0; 1] (Z.of_nat 2)) with true. cbv iota.
  change (map (fun p => znth p [m; k]) [0; 1]) with [m; k].
  f_equal. f_equal.
  etransitivity; [|apply (map_znth_xrange data)]. unfold math_ops.len.
  cbn [list_prod fold_right]. rewrite Hlen.
  apply map_ext_in. intros o Ho. unfold xrange in Ho. apply in_zrange in Ho.
  f_equal. change (xrange (Z.of_nat 2)) with [0; 1].
  assert (Hid : forall x y,
             map (fun j => znth (index_of j [0; 1]) [x; y]) [0; 1] = [x; y])
    by reflexivity.
  cbn [unravel]. rewrite Hid. cbn [ravel list_prod fold_right].
  rewrite Z.div_1_r, !Z.mul_1_r, Z.add_0_r.
  assert (Hk : k <> 0) by nia.
  pose proof (Z.div_mod o k Hk). lia.
Qed.

Lemma contraction_of_matrices (va vb : NDArray) (m k k' n : Z) :
  nd_wf va = true ->
  nd_wf vb = true ->
  nd_shape va = [m; k] ->
  nd_shape vb = [k'; n] ->
  contraction va vb [1] [0] = matmul_nd va vb.
Proof.
  intros Wa Wb Sa Sb.
  assert (Hm : 0 <= m /\ 0 <= k).
  { unfold nd_wf in Wa. rewrite Sa in Wa. cbn [forallb] in Wa.
    apply andb_prop in Wa as [Wa _]. apply andb_prop in Wa as [H1 Wa].
    apply andb_prop in Wa as [H2 _]. apply Z.leb_le in H1, H2. lia. }
  assert (Hn : 0 <= k' /\ 0 <= n).
  { unfold nd_wf in Wb. rewrite Sb in Wb. cbn [forallb] in Wb.
    apply andb_prop in Wb as [Wb _]. apply andb_prop in Wb as [H1 Wb].
    apply andb_prop in Wb as [H2 _]. apply Z.leb_le in H1, H2. lia. }
  unfold contraction, plan_matrix. rewrite Sa, Sb.
  change (plan_perm [m; k] [1] false) with [0; 1].
  change (plan_perm [k'; n] [0] true) with [0; 1].
  change (plan_shape [m; k] [1] false) with [m * 1; k * 1].
  change (plan_shape [k'; n] [0] true) with [k' * 1; n * 1].
  change (plan_free_dims [m; k] [1] ++ plan_free_dims [k'; n] [0])
    with [m; n].
  rewrite (transpose_identity va m k Wa Sa), (transpose_identity vb k' n Wb Sb).
  cbn [obind]. rewrite !Z.mul_1_r.
  unfold reshape_nd. rewrite Sa, Sb. cbn [forallb].
  rewrite !Z.eqb_refl.
  replace (0 <=? m) with true by (symmetry; apply Z.leb_le; lia).
  replace (0 <=? k) with true by (symmetry; apply Z.leb_le; lia).
  replace (0 <=? k') with true by (symmetry; apply Z.leb_le; lia).
  replace (0 <=? n) with true by (symmetry; apply Z.leb_le; lia).
  cbn [andb obind].
  destruct va as [sa da], vb as [sb db]. cbn [nd_shape nd_data] in *.
  subst sa sb. unfold matmul_nd. cbn [nd_shape nd_data].
  destruct (k =? k'); [|reflexivity].
  cbn [obind nd_shape forallb].
  replace (0 <=? m) with true by (symmetry; apply Z.leb_le; lia).
  replace (0 <=? n) with true by (symmetry; apply Z.leb_le; lia).
  now rewrite Z.eqb_refl.
Qed.

(** X14.  For matrices of any sizes [m x k] and [k' x n] with fully defined
    static shapes, [tensordot] with the integer [1], and with the axis pair
    [([1], [0])], evaluates to what [matmul] evaluates to on the same
    operands: the ordinary matrix product, and nothing when [k] and [k']
    differ. *)
Theorem tensordot_of_matrices_is_matmul
    (env : string -> option NDArray) (a b : Tensor) (va vb : NDArray)
    (m k k' n : Z) :
  get_shape a = known_shape (nd_shape va) ->
  get_shape b = known_shape (nd_shape vb) ->
  eval env a = Some va ->
  eval env b = Some vb ->
  nd_wf va = true ->
  nd_wf vb = true ->
  nd_shape va = [m; k] ->
  nd_shape vb = [k'; n] ->
  run env (math_ops.tensordot a b (AxesInt 1))
  = run env (math_ops.matmul a b false false false false false false) /\
  run env (math_ops.tensordot a b (AxesList [[1]; [0]]))
  = run env (math_ops.matmul a b false false false false false false) /\
  run env (math_ops.matmul a b false false false false false false)
  = matmul_nd va vb.
Proof.
  intros Hsa Hsb Ha Hb Wa Wb Sa Sb.
  assert (Hla : math_ops.len (nd_shape va) = 2) by (now rewrite Sa).
  assert (Hlb : math_ops.len (nd_shape vb) = 2) by (now rewrite Sb).
  assert (Hnd : ndims (get_shape a) = Some (math_ops.len (nd_shape va)))
    by (now rewrite Hsa, ndims_known).
  assert (Hmat : run env (math_ops.matmul a b false false false false false false)
                 = matmul_nd va vb).
  { rewrite matmul_of_matrices by (now rewrite Hnd, Hla). cbn [run].
    rewrite eval_matrix_product, Ha, Hb. reflexivity. }
  rewrite Hmat. split; [|split; [|reflexivity]].
  - rewrite (eval_tensordot_int env a b va vb 1 Hnd Ha Hb) by lia.
    rewrite Hla. change (last_axes 2 1) with [1]. change (first_axes 1) with [0].
    exact (contraction_of_matrices va vb m k k' n Wa Wb Sa Sb).
  - rewrite (eval_tensordot_list env a b va vb [1] [0] Hsa Hsb Ha Hb eq_refl)
      by (repeat constructor; lia).
    exact (contraction_of_matrices va vb m k k' n Wa Wb Sa Sb).
Qed.

Lemma tensordot_of_matrices_is_matmul_witness :
  run no_feed (math_ops.tensordot A_example B_example (AxesInt 1))
  = run no_feed
      (math_ops.matmul A_example B_example false false false false false false)
  /\
  run no_feed (math_ops.tensordot A_example B_example (AxesList [[1]; [0]]))
  = run no_feed
      (math_ops.matmul A_example B_example false false false false false false)
  /\
  run no_feed
    (math_ops.matmul A_example B_example false false false false false false)
  = matmul_nd (mkND [2; 3] [1; 2; 3; 4; 5; 6])
              (mkND [3; 2] [7; 8; 9; 10; 11; 12]).
Proof.
  apply (tensordot_of_matrices_is_matmul no_feed A_example B_example
           (mkND [2; 3] [1; 2; 3; 4; 5; 6])
           (mkND [3; 2] [7; 8; 9; 10; 11; 12]) 2 3 3 2);
    reflexivity.
Defined.

(** ** Shape and order of a contraction *)

Lemma mem_In (i : Z) (l : list Z) : mem i l = true <-> In i l.
Proof.
  unfold mem. rewrite existsb_exists. split.
  - intros (x & Hx & E). apply Z.eqb_eq in E. now subst.
  - intro H. exists i. split; [exact H|apply Z.eqb_refl].
Qed.

Lemma zrange_In (lo hi i : Z) : lo <= i < hi -> In i (zrange lo hi).
Proof.
  intro H. unfold zrange. apply in_map_iff.
  exists (Z.to_nat (i - lo)). split; [lia|]. apply in_seq. lia.
Qed.

Lemma NoDup_xrange (r : Z) : NoDup (xrange r).
Proof.
  unfold xrange, zrange. apply NoDup_map_NoDup_ForallPairs.
  - intros x y _ _ H. lia.
  - apply seq_NoDup.
Qed.

Lemma free_axes_length (r : Z) (ax : list Z) :
  0 <= r ->
  NoDup ax ->
  Forall (fun i => 0 <= i < r) ax ->
  math_ops.len (free_axes r ax) = r - math_ops.len ax.
Proof.
  intros Hr Hnd Hin. unfold free_axes, listdiff, math_ops.len.
  pose proof (filter_length (fun i => mem i ax) (xrange r)) as Hsplit.
  assert (Hsame : length (filter (fun i => mem i ax) (xrange r)) = length ax).
  { apply Nat.le_antisymm.
    - apply NoDup_incl_length; [apply NoDup_filter, NoDup_xrange|].
      intros i Hi. apply filter_In in Hi as [_ Hi]. now apply mem_In.
    - apply NoDup_incl_length; [exact Hnd|].
      intros i Hi. apply filter_In. split.
      + apply zrange_In. rewrite Forall_forall in Hin. now apply Hin.
      + now apply mem_In. }
  unfold xrange in Hsplit at 3. rewrite zrange_length in Hsplit. lia.
Qed.

Lemma plan_perm_is_permutation (sh ax : list Z) (flipped : bool) :
  NoDup (normalise (math_ops.len sh) ax) ->
  Forall (fun i => - math_ops.len sh <= i < math_ops.len sh) ax ->
  is_permutation (plan_perm sh ax flipped) (math_ops.len sh) = true.
Proof.
  intros Hnd Hax. pose proof (normalise_in_range _ _ Hax) as Hin.
  assert (Hr : 0 <= math_ops.len sh) by (unfold math_ops.len; lia).
  pose proof (free_axes_length _ _ Hr Hnd Hin) as Hfree.
  unfold is_permutation, plan_perm. cbv zeta.
  apply andb_true_intro. split.
  - apply Z.eqb_eq. unfold math_ops.len in *.
    destruct flipped; rewrite length_app; lia.
  - apply forallb_forall. intros j Hj. apply mem_In.
    destruct (mem j (normalise (math_ops.len sh) ax)) eqn:E.
    + apply mem_In in E. destruct flipped; apply in_or_app; tauto.
    + assert (In j (free_axes (math_ops.len sh)
                      (normalise (math_ops.len sh) ax))).
      { unfold free_axes, listdiff. apply filter_In. split; [exact Hj|].
        now rewrite E. }
      destruct flipped; apply in_or_app; tauto.
Qed.

Lemma list_prod_app (l1 l2 : list Z) :
  list_prod (l1 ++ l2) = list_prod l1 * list_prod l2.
Proof.
  induction l1 as [|x l1 IH]; cbn [app list_prod fold_right].
  - fold (list_prod l2). lia.
  - fold (list_prod (l1 ++ l2)). fold (list_prod l1). rewrite IH. lia.
Qed.

Lemma list_prod_nonneg (l : list Z) :
  Forall (fun d => 0 <= d) l -> 0 <= list_prod l.
Proof.
  induction 1 as [|x l Hx _ IH]; cbn [list_prod fold_right]; [lia|].
  fold (list_prod l). nia.
Qed.

Lemma dims_at_nonneg (sh l : list Z) :
  Forall (fun d => 0 <= d) sh -> Forall (fun d => 0 <= d) (dims_at sh l).
Proof.
  intro Hsh. unfold dims_at. apply Forall_map, Forall_forall. intros i _.
  unfold znth. destruct (nth_in_or_default (Z.to_nat i) sh 0) as [H | ->];
    [|lia].
  rewrite Forall_forall in Hsh. now apply Hsh.
Qed.

Lemma nd_wf_dims (v : NDArray) :
  nd_wf v = true -> Forall (fun d => 0 <= d) (nd_shape v).
Proof.
  unfold nd_wf. intro H. apply andb_prop in H as [H _].
  apply Forall_forall. intros d Hd.
  rewrite forallb_forall in H. apply Z.leb_le. now apply H.
Qed.

(** With valid axes that do not repeat, the plan turns a well-formed operand
    into a matrix of the planned shape. *)
Lemma plan_matrix_built (v : NDArray) (ax : list Z) (flipped : bool) :
  nd_wf v = true ->
  NoDup (normalise (math_ops.len (nd_shape v)) ax) ->
  Forall (fun i => - math_ops.len (nd_shape v) <= i
                   < math_ops.len (nd_shape v)) ax ->
  exists data,
    plan_matrix v ax flipped
    = Some (mkND (plan_shape (nd_shape v) ax flipped) data).
Proof.
  intros Hwf Hnd Hax. pose proof (nd_wf_dims v Hwf) as Hdims.
  unfold plan_matrix, transpose_nd.
  change (Z.of_nat (length (nd_shape v))) with (math_ops.len (nd_shape v)).
  rewrite (plan_perm_is_permutation _ _ flipped Hnd Hax). cbn [obind].
  unfold reshape_nd. cbn [nd_shape nd_data].
  fold (dims_at (nd_shape v) (plan_perm (nd_shape v) ax flipped)).
  match goal with
  | |- context [if ?c then _ else _] => replace c with true
  end; [eexists; reflexivity|].
  symmetry. apply andb_true_intro. split.
  - unfold plan_shape. cbv zeta.
    destruct flipped; cbn [forallb]; rewrite !andb_true_iff;
      repeat split; try apply Z.leb_le;
      apply list_prod_nonneg, dims_at_nonneg, Hdims.
  - apply Z.eqb_eq. unfold plan_shape, plan_perm, dims_at. cbv zeta.
    destruct flipped; rewrite map_app, list_prod_app;
      cbn [list_prod fold_right]; lia.
Qed.

(** X15.  With fully defined shapes and valid axes that do not repeat and
    whose contracted dimensions multiply to the same size, [tensordot]
    evaluates to a value whose shape is the free dimensions of [a] followed
    by the free dimensions of [b]: its order is
    [order(a) + order(b) - 2 * len(axes[0])]. *)
Theorem tensordot_result_shape
    (env : string -> option NDArray) (a b : Tensor) (va vb : NDArray)
    (la lb : list Z) :
  get_shape a = known_shape (nd_shape va) ->
  get_shape b = known_shape (nd_shape vb) ->
  eval env a = Some va ->
  eval env b = Some vb ->
  nd_wf va = true ->
  nd_wf vb = true ->
  length la = length lb ->
  Forall (fun i => - math_ops.len (nd_shape va) <= i
                   < math_ops.len (nd_shape va)) la ->
  Forall (fun i => - math_ops.len (nd_shape vb) <= i
                   < math_ops.len (nd_shape vb)) lb ->
  NoDup (normalise (math_ops.len (nd_shape va)) la) ->
  NoDup (normalise (math_ops.len (nd_shape vb)) lb) ->
  list_prod (dims_at (nd_shape va) (normalise (math_ops.len (nd_shape va)) la))
  = list_prod (dims_at (nd_shape vb) (normalise (math_ops.len (nd_shape vb)) lb)) ->
  exists out,
    run env (math_ops.tensordot a b (AxesList [la; lb])) = Some out /\
    nd_shape out
    = plan_free_dims (nd_shape va) la ++ plan_free_dims (nd_shape vb) lb /\
    math_ops.len (nd_shape out)
    = math_ops.len (nd_shape va) + math_ops.len (nd_shape vb)
      - 2 * math_ops.len la.
Proof.
  intros Hsa Hsb Ha Hb Wa Wb Hlen Hla Hlb Na Nb Hk.
  rewrite (eval_tensordot_list env a b va vb la lb Hsa Hsb Ha Hb Hlen Hla Hlb).
  unfold contraction.
  destruct (plan_matrix_built va la false Wa Na Hla) as [da ->].
  destruct (plan_matrix_built vb lb true Wb Nb Hlb) as [db ->].
  cbn [obind]. unfold plan_shape. cbv zeta.
  unfold matmul_nd. cbn [nd_shape nd_data]. rewrite Hk, Z.eqb_refl.
  cbn [obind]. unfold reshape_nd. cbn [nd_shape nd_data].
  pose proof (nd_wf_dims va Wa) as Da. pose proof (nd_wf_dims vb Wb) as Db.
  match goal with
  | |- context [if ?c then _ else _] => replace c with true
  end.
  - eexists. split; [reflexivity|]. cbn [nd_shape]. split; [reflexivity|].
    unfold plan_free_dims, dims_at, math_ops.len.
    rewrite length_app, !length_map.
    pose proof (free_axes_length (math_ops.len (nd_shape va)) _
                  ltac:(unfold math_ops.len; lia) Na
                  (normalise_in_range _ _ Hla)) as Fa.
    pose proof (free_axes_length (math_ops.len (nd_shape vb)) _
                  ltac:(unfold math_ops.len; lia) Nb
                  (normalise_in_range _ _ Hlb)) as Fb.
    unfold math_ops.len, normalise in *. rewrite length_map in Fa, Fb. lia.
  - symmetry. apply andb_true_intro. split.
    + apply forallb_forall. intros d Hd. apply Z.leb_le.
      apply in_app_or in Hd.
      pose proof (dims_at_nonneg (nd_shape va)
                    (free_axes (math_ops.len (nd_shape va))
                       (normalise (math_ops.len (nd_shape va)) la)) Da) as Pa.
      pose proof (dims_at_nonneg (nd_shape vb)
                    (free_axes (math_ops.len (nd_shape vb))
                       (normalise (math_ops.len (nd_shape vb)) lb)) Db) as Pb.
      rewrite Forall_forall in Pa, Pb. unfold plan_free_dims in Hd.
      destruct Hd as [Hd|Hd]; [now apply Pa|now apply Pb].
    + apply Z.eqb_eq. rewrite list_prod_app. unfold plan_free_dims.
      cbn [list_prod fold_right]. lia.
Qed.

Lemma tensordot_result_shape_witness :
  exists out,
    run no_feed (math_ops.tensordot A_rank3 B_example (AxesList [[-1]; [1]]))
    = Some out /\
    nd_shape out
    = plan_free_dims [1; 2; 2] [-1] ++ plan_free_dims [3; 2] [1] /\
    math_ops.len (nd_shape out)
    = math_ops.len [1; 2; 2] + math_ops.len [3; 2] - 2 * math_ops.len [-1].
Proof.
  apply (tensordot_result_shape no_feed A_rank3 B_example
           (mkND [1; 2; 2] [1; 2; 3; 4])
           (mkND [3; 2] [7; 8; 9; 10; 11; 12]) [-1] [1]);
    try reflexivity;
    try (repeat constructor; unfold math_ops.len; cbn; lia).
Defined.

(** X11.  [_tensordot_reshape] has a build-time branch (fully defined shape
    and a Python list of axes) and a run-time branch (anything else).  For
    the same valid axes without repetition, given once as a list and once as
    an [int32] constant, both branches return, their matrices evaluate to
    the same value, and the free dimensions the first returns as integers
    are what the tensor returned by the second evaluates to. *)
Theorem tensordot_reshape_branches_agree
    (env : string -> option NDArray) (a : Tensor) (va : NDArray)
    (ax : list Z) (flipped : bool) :
  get_shape a = known_shape (nd_shape va) ->
  eval env a = Some va ->
  nd_wf va = true ->
  Forall (fun i => - math_ops.len (nd_shape va) <= i
                   < math_ops.len (nd_shape va)) ax ->
  NoDup (normalise (math_ops.len (nd_shape va)) ax) ->
  exists m fd m' fd' mv,
    math_ops._tensordot_reshape a (PyList ax) flipped = Ok (m, PyList fd) /\
    math_ops._tensordot_reshape a
      (SeqTensor (ops.convert_list ax (Some (dtypes.Plain dtypes.int32))))
      flipped = Ok (m', SeqTensor fd') /\
    eval env m = Some mv /\
    eval env m' = Some mv /\
    eval env fd' = Some (vector fd).
Proof.
  intros Hsa Ha Hwf Hax Hnd.
  destruct (plan_matrix_built va ax flipped Hwf Hnd Hax) as [data Hplan].
  do 5 eexists. split; [|split; [|split; [|split]]].
  - exact (static_plan_built a (nd_shape va) ax flipped Hsa Hax).
  - exact (deferred_plan_built a
             (ops.convert_list ax (Some (dtypes.Plain dtypes.int32)))
             (Some (math_ops.len ax)) flipped eq_refl eq_refl).
  - rewrite (eval_static_matrix env a va ax flipped Ha)
      by (now rewrite Hsa, as_list_known).
    exact Hplan.
  - rewrite (eval_deferred_matrix env a _ va ax Ha (eval_int32_list env ax)
               Hax flipped).
    exact Hplan.
  - exact (eval_deferred_free_dims env a _ va ax Ha (eval_int32_list env ax)).
Qed.

Lemma tensordot_reshape_branches_agree_witness :
  exists m fd m' fd' mv,
    math_ops._tensordot_reshape A_example (PyList [-1]) false
    = Ok (m, PyList fd) /\
    math_ops._tensordot_reshape A_example
      (SeqTensor (ops.convert_list [-1] (Some (dtypes.Plain dtypes.int32))))
      false = Ok (m', SeqTensor fd') /\
    eval no_feed m = Some mv /\
    eval no_feed m' = Some mv /\
    eval no_feed fd' = Some (vector fd).
Proof.
  apply (tensordot_reshape_branches_agree no_feed A_example
           (mkND [2; 3] [1; 2; 3; 4; 5; 6]) [-1] false);
    try reflexivity.
  - repeat constructor; unfold math_ops.len; cbn; lia.
  - cbn. repeat constructor. intros [].
Defined.

(** X16.  The build-time branch is an optimisation only: on the same values
    and the same valid axis lists, [tensordot] on operands whose static
    shapes are not fully defined evaluates to the same result as on
    operands whose static shapes are fully defined. *)
Theorem tensordot_list_axes_at_run_time
    (env : string -> option NDArray) (a b a' b' : Tensor) (va vb : NDArray)
    (la lb : list Z) :
  is_fully_defined (get_shape a) = false ->
  is_fully_defined (get_shape b) = false ->
  get_shape a' = known_shape (nd_shape va) ->
  get_shape b' = known_shape (nd_shape vb) ->
  eval env a = Some va ->
  eval env a' = Some va ->
  eval env b = Some vb ->
  eval env b' = Some vb ->
  length la = length lb ->
  Forall (fun i => - math_ops.len (nd_shape va) <= i
                   < math_ops.len (nd_shape va)) la ->
  Forall (fun i => - math_ops.len (nd_shape vb) <= i
                   < math_ops.len (nd_shape vb)) lb ->
  run env (math_ops.tensordot a b (AxesList [la; lb]))
  = run env (math_ops.tensordot a' b' (AxesList [la; lb])).
Proof.
  intros Fa Fb Hsa Hsb Ha Ha' Hb Hb' Hlen Hla Hlb.
  rewrite (eval_tensordot_list env a' b' va vb la lb
             Hsa Hsb Ha' Hb' Hlen Hla Hlb).
  unfold math_ops.tensordot, math_ops._tensordot_axes, ops.convert_to_tensor,
    math_ops.len.
  rewrite Hlen, Z.eqb_refl. cbn [negb]. step_bind.
  rewrite (deferred_plan_of_list a la false Fa).
  rewrite (deferred_plan_built a
             (ops.convert_list la (Some (dtypes.Plain dtypes.int32)))
             (Some (math_ops.len la)) false eq_refl eq_refl). step_bind.
  rewrite (deferred_plan_of_list b lb true Fb).
  rewrite (deferred_plan_built b
             (ops.convert_list lb (Some (dtypes.Plain dtypes.int32)))
             (Some (math_ops.len lb)) true eq_refl eq_refl). step_bind.
  rewrite matmul_of_matrices by apply ndims_deferred_matrix.
  step_bind. cbn [convert_seq]. do 2 step_bind.
  rewrite concat_same by reflexivity. step_bind. cbn [run].
  apply eval_contraction_node.
  - exact (eval_deferred_matrix env a _ va la Ha (eval_int32_list env la)
             Hla false).
  - exact (eval_deferred_matrix env b _ vb lb Hb (eval_int32_list env lb)
             Hlb true).
  - apply eval_concat_vectors.
    + exact (eval_deferred_free_dims env a _ va la Ha (eval_int32_list env la)).
    + exact (eval_deferred_free_dims env b _ vb lb Hb (eval_int32_list env lb)).
Qed.

Lemma tensordot_list_axes_at_run_time_witness :
  run feed_a_2x3
      (math_ops.tensordot unknown_rank_a unknown_rank_a (AxesList [[0]; [0]]))
  = run feed_a_2x3
      (math_ops.tensordot
         (Placeholder "a" (dtypes.Plain dtypes.float32) (known_shape [2; 3]))
         (Placeholder "a" (dtypes.Plain dtypes.float32) (known_shape [2; 3]))
         (AxesList [[0]; [0]])).
Proof.
  apply (tensordot_list_axes_at_run_time feed_a_2x3
           unknown_rank_a unknown_rank_a
           (Placeholder "a" (dtypes.Plain dtypes.float32) (known_shape [2; 3]))
           (Placeholder "a" (dtypes.Plain dtypes.float32) (known_shape [2; 3]))
           (mkND [2; 3] [1; 2; 3; 4; 5; 6]) (mkND [2; 3] [1; 2; 3; 4; 5; 6])
           [0] [0]); try reflexivity;
    repeat constructor; unfold math_ops.len; cbn; lia.
Defined.
